(** * cryptoa-bot: the multi-factor scoring and recommendation engine

    A shallow embedding of [technical_analyzer.py], [sentiment_analyzer.py]
    and [crypto_analyzer.py], and the properties of the scoring pipeline.

    Conventions of the embedding:
    - Python floats are exact rationals ([Q]); a float produced by numpy or
      pandas may also be infinite or NaN ([npfloat]), and every ordered
      comparison with NaN is false, as in IEEE 754.
    - Where the last bit of a float shows, in the combined score rounded to
      two decimals, the module [Binary64] gives the same computation with
      every operation rounded to the nearest float; the two are compared
      in C1 and C4.  Elsewhere a comparison with a threshold is made on the
      exact value: a float that lies a last bit off the threshold (a price
      trend of exactly 2 per cent, a combined sentiment of exactly 0.2)
      can fall on the other side of it.
    - A Python number that may be an [int] or a [float] is a [pynum]: the
      value is the same, the printed text differs.
    - [try]/[except], [print] and [datetime.now()] are threaded through a
      small state-and-exception monad [M] over a [world] (a clock and the
      console).
    - Third-party computations (the [ta] indicators, [ta.utils.dropna],
      pandas' standard deviation, TextBlob's polarity, the exchange and the
      social-media clients, Python's [str] of a number) are the fields of
      the classes [Indicators], [Social], [Exchange] and [Printing], which
      the code takes as its context. *)

From Stdlib Require Import QArith Qround Qabs Qpower ZArith SpecFloat.
From Stdlib Require Import List String Ascii Bool.
From Stdlib Require Import Lia Lqa Permutation Sorted.
Import ListNotations.

Open Scope Q_scope.

(* ================================================================== *)
(** * Numbers *)

Module Num.

(** [a < b] on Python floats, as a boolean. *)
Definition Qltb (a b : Q) : bool := negb (Qle_bool b a).

(** A numpy float64: finite, infinite or NaN. *)
Inductive npfloat : Type :=
| Fin (q : Q)
| PInf
| NInf
| NaN.

(** [a > b]: false as soon as one side is NaN. *)
Definition np_gt (a b : npfloat) : bool :=
  match a, b with
  | NaN, _ | _, NaN => false
  | Fin x, Fin y => Qltb y x
  | PInf, PInf => false
  | PInf, _ => true
  | NInf, _ => false
  | Fin _, NInf => true
  | Fin _, PInf => false
  end.

Definition np_lt (a b : npfloat) : bool := np_gt b a.

(** [a <= b]: false as soon as one side is NaN. *)
Definition np_le (a b : npfloat) : bool :=
  match a, b with
  | NaN, _ | _, NaN => false
  | Fin x, Fin y => Qle_bool x y
  | NInf, _ => true
  | _, PInf => true
  | _, _ => false
  end.

Definition np_neg (a : npfloat) : npfloat :=
  match a with
  | Fin x => Fin (- x)
  | PInf => NInf
  | NInf => PInf
  | NaN => NaN
  end.

Definition np_add (a b : npfloat) : npfloat :=
  match a, b with
  | NaN, _ | _, NaN => NaN
  | Fin x, Fin y => Fin (x + y)
  | PInf, NInf | NInf, PInf => NaN
  | PInf, _ | _, PInf => PInf
  | NInf, _ | _, NInf => NInf
  end.

Definition np_sub (a b : npfloat) : npfloat := np_add a (np_neg b).

(** The infinity with the sign of [s] ([s] is not zero). *)
Definition inf_of_sign (s : Q) : npfloat :=
  if Qltb 0 s then PInf else NInf.

Definition np_mul (a b : npfloat) : npfloat :=
  match a, b with
  | NaN, _ | _, NaN => NaN
  | Fin x, Fin y => Fin (x * y)
  | Fin x, PInf | PInf, Fin x =>
      if Qeq_bool x 0 then NaN else inf_of_sign x
  | Fin x, NInf | NInf, Fin x =>
      if Qeq_bool x 0 then NaN else inf_of_sign (- x)
  | PInf, PInf | NInf, NInf => PInf
  | PInf, NInf | NInf, PInf => NInf
  end.

(** Division never raises on numpy floats: [x/0] is an infinity, [0/0] is
    NaN.  (Exact rationals have no negative zero.) *)
Definition np_div (a b : npfloat) : npfloat :=
  match a, b with
  | NaN, _ | _, NaN => NaN
  | Fin x, Fin y =>
      if Qeq_bool y 0
      then (if Qeq_bool x 0 then NaN else inf_of_sign x)
      else Fin (x / y)
  | Fin _, _ => Fin 0
  | PInf, Fin y => if Qltb y 0 then NInf else PInf
  | NInf, Fin y => if Qltb y 0 then PInf else NInf
  | _, _ => NaN
  end.

(** A Python number that is an [int] or a [float]. *)
Inductive pynum : Type :=
| PyInt (z : Z)
| PyFloat (q : Q).

Definition pyval (x : pynum) : Q :=
  match x with
  | PyInt z => inject_Z z
  | PyFloat q => q
  end.

(** [x + y]: an int only when both are. *)
Definition pyadd (x y : pynum) : pynum :=
  match x, y with
  | PyInt a, PyInt b => PyInt (a + b)
  | _, _ => PyFloat (pyval x + pyval y)
  end.

(** [min(x, y)] and [max(x, y)] return one of their arguments: the first,
    unless the second is strictly smaller (larger). *)
Definition pymin (x y : pynum) : pynum :=
  if Qltb (pyval y) (pyval x) then y else x.

Definition pymax (x y : pynum) : pynum :=
  if Qltb (pyval x) (pyval y) then y else x.

(** [round(x, 2)]: to the nearest multiple of 0.01, a tie going to the even
    one. *)
Definition py_round2 (x : Q) : Q :=
  let y := x * 100 in
  let n := Qfloor y in
  let m := match Qcompare (y - inject_Z n) 0.5 with
           | Lt => n
           | Gt => (n + 1)%Z
           | Eq => if Z.even n then n else (n + 1)%Z
           end in
  inject_Z m / 100.

(** [sum(l)] of a list of floats. *)
Definition Qsum (l : list Q) : Q := fold_left Qplus l 0.

(** [len(l)] as a float. *)
Definition Qlen {A : Type} (l : list A) : Q :=
  inject_Z (Z.of_nat (List.length l)).

End Num.
Export Num.

(* ================================================================== *)
(** * Exceptions, the console and the clock *)

Module Py.

(** The exceptions the embedded code can meet. *)
Inductive exn : Type :=
| IndexError
| ZeroDivisionError
| ApiError (msg : string).

(** [str(e)]. *)
Definition str_exn (e : exn) : string :=
  match e with
  | IndexError => "single positional indexer is out-of-bounds"
  | ZeroDivisionError => "float division by zero"
  | ApiError msg => msg
  end.

Inductive outcome (A : Type) : Type :=
| Ok (a : A)
| Raise (e : exn).
Arguments Ok {A} a.
Arguments Raise {A} e.

(** What a run can observe and change besides its arguments: the reading of
    the clock and the lines printed so far (most recent first). *)
Record world : Type := mkWorld {
  clock : nat;
  console : list string
}.

Definition M (A : Type) : Type := world -> outcome A * world.

Definition ret {A : Type} (a : A) : M A := fun w => (Ok a, w).

Definition raise {A : Type} (e : exn) : M A := fun w => (Raise e, w).

Definition bind {A B : Type} (m : M A) (k : A -> M B) : M B :=
  fun w =>
    match m w with
    | (Ok a, w') => k a w'
    | (Raise e, w') => (Raise e, w')
    end.

(** [try: m except Exception as e: h e]. *)
Definition try_except {A : Type} (m : M A) (h : exn -> M A) : M A :=
  fun w =>
    match m w with
    | (Ok a, w') => (Ok a, w')
    | (Raise e, w') => h e w'
    end.

(** [print(line)]. *)
Definition print (line : string) : M unit :=
  fun w => (Ok tt, mkWorld (clock w) (line :: console w)).

(** [l.append(x)] on a list, as a new list. *)
Definition list_append {A : Type} (l : list A) (x : A) : list A :=
  (l ++ [x])%list.

(** A call into a collaborator: it returns or raises, and touches neither
    the console nor the clock. *)
Definition call {A : Type} (r : outcome A) : M A := fun w => (r, w).

(** How the interpreter prints: the [strftime] text of a clock reading and
    the [str] of a number. *)
Class Printing : Type := {
  strftime : nat -> string;
  str_num : pynum -> string
}.

(** [datetime.now().strftime('%Y-%m-%d %H:%M:%S')]: time passes. *)
Definition datetime_now `{Printing} : M string :=
  fun w => (Ok (strftime (clock w)), mkWorld (S (clock w)) (console w)).

End Py.
Export Py.

Declare Scope py_scope.
Delimit Scope py_scope with py.
Notation "x <- m ;; k" := (bind m (fun x => k))
  (at level 61, m at next level, right associativity) : py_scope.
Notation "m ;;; k" := (bind m (fun _ => k))
  (at level 61, right associativity) : py_scope.

Open Scope py_scope.
Open Scope string_scope.

(* ================================================================== *)
(** * technical_analyzer.py *)

Module TechnicalAnalyzer.

(** One row of the OHLCV frame. *)
Record candle : Type := mkCandle {
  c_timestamp : Z;
  c_open : Q;
  c_high : Q;
  c_low : Q;
  c_close : Q;
  c_volume : Q
}.

(** The third-party numerics: [ta.utils.dropna], the [ta] indicators (each
    given by its value at the last row of the [close] column it is built
    from) and pandas' [Series.std].  They are total: the library answers a
    window that is not full with NaN, not with an exception. *)
Class Indicators : Type := {
  dropna : list candle -> list candle;
  ta_macd : list Q -> npfloat;
  ta_macd_signal : list Q -> npfloat;
  ta_rsi : list Q -> npfloat;
  ta_bollinger_hband : list Q -> npfloat;
  ta_bollinger_lband : list Q -> npfloat;
  ta_bollinger_mavg : list Q -> npfloat;
  series_std : list Q -> npfloat
}.

(** ** pandas on one column *)

(** [col.mean()]: NaN on an empty column. *)
Definition series_mean (col : list Q) : npfloat :=
  match col with
  | [] => NaN
  | _ => Fin (Qsum col / Qlen col)
  end.

(** [col.rolling(window=w).mean().iloc[-1]]: no value until the window is
    full. *)
Definition rolling_mean_last (w : nat) (col : list Q) : npfloat :=
  if (List.length col <? w)%nat then NaN
  else Fin (Qsum (skipn (List.length col - w) col) / inject_Z (Z.of_nat w)).

(** [col.shift(p)]: the column moved down by [p] rows. *)
Definition shift (p : nat) (col : list Q) : list npfloat :=
  firstn (List.length col) (repeat NaN p ++ map Fin col).

(** [col.pct_change(periods=p)], that is [col / col.shift(p) - 1]. *)
Definition pct_change (p : nat) (col : list Q) : list npfloat :=
  map (fun cp => np_sub (np_div (Fin (fst cp)) (snd cp)) (Fin 1))
      (combine col (shift p col)).

(** The last entry of a computed column of a frame that has a last row. *)
Definition last_value (col : list npfloat) : npfloat := last col NaN.

(** The frame after [_calculate_indicators]: the rows, and every computed
    column by its value at the last row, the only row that is read. *)
Record frame : Type := mkFrame {
  rows : list candle;
  df_macd : npfloat;
  df_macd_signal : npfloat;
  df_rsi : npfloat;
  df_bb_high : npfloat;
  df_bb_low : npfloat;
  df_bb_mid : npfloat;
  df_volume_sma : npfloat;
  df_sma_20 : npfloat;
  df_sma_50 : npfloat;
  df_sma_200 : npfloat;
  df_price_change_24h : npfloat;
  df_price_change_7d : npfloat
}.

(** [df.iloc[-k]] for [k = 1, 2]: IndexError when the frame is too short. *)
Definition iloc_neg (k : nat) (df : frame) : M candle :=
  match nth_error (rev (rows df)) (k - 1) with
  | Some c => ret c
  | None => raise IndexError
  end.

(** ** The analysis record *)

Inductive direction : Type := bullish | bearish.
Inductive rsi_condition_t : Type := overbought | oversold | neutral.
Inductive bb_position_t : Type := upper | lower | middle.
Inductive volume_trend_t : Type := increasing | decreasing.

Record trend_analysis : Type := mkTrend {
  macd_trend : direction;
  sma_trend : direction;
  long_term_trend : direction
}.

Record momentum_analysis : Type := mkMomentum {
  rsi_value : npfloat;
  rsi_condition : rsi_condition_t
}.

Record volatility_analysis : Type := mkVolatility {
  bb_position : bb_position_t;
  bb_width : npfloat
}.

Record volume_analysis : Type := mkVolume {
  volume_trend : volume_trend_t;
  volume_change : npfloat
}.

Record price_analysis : Type := mkPrice {
  price_change_24h : npfloat;
  price_change_7d : npfloat;
  above_200_sma : bool
}.

Record analysis_t : Type := mkAnalysis {
  trend : trend_analysis;
  momentum : momentum_analysis;
  volatility : volatility_analysis;
  volume : volume_analysis;
  price_action : price_analysis
}.

Record technical_analysis : Type := mkTechnical {
  technical_score : pynum;
  analysis : analysis_t;
  signals : list string;
  analysis_time : string
}.

Definition is_bullish (d : direction) : bool :=
  match d with bullish => true | bearish => false end.

Definition is_bearish (d : direction) : bool :=
  match d with bearish => true | bullish => false end.

Definition is_increasing (v : volume_trend_t) : bool :=
  match v with increasing => true | decreasing => false end.

Definition is_middle (p : bb_position_t) : bool :=
  match p with middle => true | _ => false end.

Section Analyzer.
Context `{Indicators} `{Printing}.

Definition _calculate_indicators (df : list candle) : frame :=
  let close := map c_close df in
  let volume := map c_volume df in
  {| rows := df;
     df_macd := ta_macd close;
     df_macd_signal := ta_macd_signal close;
     df_rsi := ta_rsi close;
     df_bb_high := ta_bollinger_hband close;
     df_bb_low := ta_bollinger_lband close;
     df_bb_mid := ta_bollinger_mavg close;
     df_volume_sma := rolling_mean_last 20 volume;
     df_sma_20 := rolling_mean_last 20 close;
     df_sma_50 := rolling_mean_last 50 close;
     df_sma_200 := rolling_mean_last 200 close;
     df_price_change_24h := last_value (pct_change 1 close);
     df_price_change_7d := last_value (pct_change 7 close) |}.

Definition _analyze_trend (df : frame) : M trend_analysis :=
  latest <- iloc_neg 1 df ;;
  ret {| macd_trend :=
           if np_gt (df_macd df) (df_macd_signal df) then bullish else bearish;
         sma_trend :=
           if np_gt (df_sma_20 df) (df_sma_50 df) then bullish else bearish;
         long_term_trend :=
           if np_gt (Fin (c_close latest)) (df_sma_200 df)
           then bullish else bearish |}.

Definition _analyze_momentum (df : frame) : M momentum_analysis :=
  latest <- iloc_neg 1 df ;;
  ret {| rsi_value := df_rsi df;
         rsi_condition :=
           if np_gt (df_rsi df) (Fin 70) then overbought
           else if np_lt (df_rsi df) (Fin 30) then oversold
           else neutral |}.

Definition _analyze_volatility (df : frame) : M volatility_analysis :=
  latest <- iloc_neg 1 df ;;
  ret {| bb_position :=
           if np_gt (Fin (c_close latest)) (df_bb_high df) then upper
           else if np_lt (Fin (c_close latest)) (df_bb_low df) then lower
           else middle;
         bb_width :=
           np_div (np_sub (df_bb_high df) (df_bb_low df)) (df_bb_mid df) |}.

Definition _analyze_volume (df : frame) : M volume_analysis :=
  latest <- iloc_neg 1 df ;;
  ret {| volume_trend :=
           if np_gt (Fin (c_volume latest)) (df_volume_sma df)
           then increasing else decreasing;
         volume_change :=
           np_div (np_sub (Fin (c_volume latest)) (df_volume_sma df))
                  (df_volume_sma df) |}.

Definition _analyze_price_action (df : frame) : M price_analysis :=
  latest <- iloc_neg 1 df ;;
  ret {| price_change_24h := df_price_change_24h df;
         price_change_7d := df_price_change_7d df;
         above_200_sma := np_gt (Fin (c_close latest)) (df_sma_200 df) |}.

Definition _analyze_indicators (df : frame) : M analysis_t :=
  latest <- iloc_neg 1 df ;;
  prev <- iloc_neg 2 df ;;
  t <- _analyze_trend df ;;
  m <- _analyze_momentum df ;;
  v <- _analyze_volatility df ;;
  vol <- _analyze_volume df ;;
  p <- _analyze_price_action df ;;
  ret {| trend := t; momentum := m; volatility := v; volume := vol;
         price_action := p |}.

(** The score before it is bounded. *)
Definition technical_score_raw (a : analysis_t) : pynum :=
  let score := PyInt 5 in
  let score := if is_bullish (macd_trend (trend a))
               then pyadd score (PyFloat 0.5) else score in
  let score := if is_bullish (sma_trend (trend a))
               then pyadd score (PyFloat 0.5) else score in
  let score := if is_bullish (long_term_trend (trend a))
               then pyadd score (PyInt 1) else score in
  let rsi := rsi_value (momentum a) in
  let score := if np_le (Fin 40) rsi && np_le rsi (Fin 60)
               then pyadd score (PyInt 1)
               else if np_gt rsi (Fin 70) || np_lt rsi (Fin 30)
                    then pyadd score (PyInt (-1)) else score in
  let score := if is_middle (bb_position (volatility a))
               then pyadd score (PyFloat 0.5) else score in
  let score := if is_increasing (volume_trend (volume a))
               then pyadd score (PyFloat 0.5) else score in
  let score := if np_gt (price_change_24h (price_action a)) (Fin 0)
               then pyadd score (PyFloat 0.5) else score in
  let score := if np_gt (price_change_7d (price_action a)) (Fin 0)
               then pyadd score (PyFloat 0.5) else score in
  score.

Definition _calculate_technical_score (a : analysis_t) : pynum :=
  pymax (PyInt 1) (pymin (PyInt 10) (technical_score_raw a)).

Definition _generate_signals (a : analysis_t) : list string :=
  let t := trend a in
  let signals := [] in
  let signals :=
    if is_bullish (macd_trend t) && is_bullish (sma_trend t)
       && is_bullish (long_term_trend t)
    then list_append signals
           "Strong uptrend confirmed by multiple indicators"
    else if is_bearish (macd_trend t) && is_bearish (sma_trend t)
            && is_bearish (long_term_trend t)
         then list_append signals
                "Strong downtrend confirmed by multiple indicators"
         else signals in
  let rsi := rsi_value (momentum a) in
  let signals :=
    if np_gt rsi (Fin 70)
    then list_append signals
           "Overbought conditions - potential reversal point"
    else if np_lt rsi (Fin 30)
         then list_append signals
                "Oversold conditions - potential reversal point"
         else signals in
  let signals :=
    if is_increasing (volume_trend (volume a))
       && np_gt (volume_change (volume a)) (Fin 0.5)
    then list_append signals
           "Significant volume increase - strong trend confirmation"
    else signals in
  let signals :=
    if above_200_sma (price_action a)
    then list_append signals "Price above 200 SMA - long-term uptrend"
    else signals in
  signals.

(** The body of the [try] of [analyze_technical_indicators].  The frame is
    built with the five OHLCV columns, so the guard on their presence never
    returns early. *)
Definition analyze_technical_indicators_body (df : list candle)
  : M (option technical_analysis) :=
  let df := dropna df in
  let df := _calculate_indicators df in
  a <- _analyze_indicators df ;;
  now <- datetime_now ;;
  ret (Some {| technical_score := _calculate_technical_score a;
               analysis := a;
               signals := _generate_signals a;
               analysis_time := now |}).

Definition analyze_technical_indicators (df : list candle)
  : M (option technical_analysis) :=
  try_except (analyze_technical_indicators_body df)
    (fun e => print ("Error in technical analysis: " ++ str_exn e) ;;;
              ret None).

End Analyzer.

End TechnicalAnalyzer.

(* ================================================================== *)
(** * sentiment_analyzer.py *)

Module SentimentAnalyzer.

(** A Reddit submission, as far as it is read. *)
Record post : Type := mkPost {
  title : string;
  selftext : string
}.

(** The collaborators of the sentiment analyzer: TextBlob's polarity of a
    text, and the two clients, each absent when its setup failed.  The
    Twitter search yields the [full_text] of every tweet found; the Reddit
    search is given a subreddit and a query. *)
Class Social : Type := {
  polarity : string -> Q;
  twitter_api : option (string -> outcome (list string));
  reddit_api : option (string -> string -> outcome (list post))
}.

(** One platform's entry of [sentiment_data]. *)
Record platform_sentiment : Type := mkPlatform {
  score : option Q;
  sample_size : option nat;
  message : string
}.

Record sentiment_analysis : Type := mkSentiment {
  combined_score : Q;
  details : list (string * platform_sentiment);
  analysis_time : string
}.

(** [s.lower()] on ASCII letters. *)
Definition lower_ascii (c : ascii) : ascii :=
  let n := nat_of_ascii c in
  if ((65 <=? n) && (n <=? 90))%nat then ascii_of_nat (n + 32) else c.

Fixpoint lower (s : string) : string :=
  match s with
  | EmptyString => EmptyString
  | String c r => String (lower_ascii c) (lower r)
  end.

(** The truth value of a string: false when empty. *)
Definition truthy (s : string) : bool :=
  match s with
  | EmptyString => false
  | _ => true
  end.

Definition is_empty {A : Type} (l : list A) : bool :=
  match l with
  | [] => true
  | _ => false
  end.

Section Analyzer.
Context `{Social} `{Printing}.

Definition _analyze_twitter_sentiment (symbol : string) (timeframe_hours : Z)
  : M platform_sentiment :=
  match twitter_api with
  | None =>
      ret {| score := None; sample_size := None;
             message := "Twitter API not available" |}
  | Some search_tweets =>
      try_except
        (let query := "#" ++ symbol ++ " OR $" ++ symbol
                      ++ " -filter:retweets" in
         tweets <- call (search_tweets query) ;;
         let sentiments := map polarity tweets in
         if is_empty sentiments
         then ret {| score := None; sample_size := None;
                     message := "No tweets found" |}
         else
           let avg_sentiment := Qsum sentiments / Qlen sentiments in
           ret {| score := Some avg_sentiment;
                  sample_size := Some (List.length sentiments);
                  message := "Analysis successful" |})
        (fun e => ret {| score := None; sample_size := None;
                         message := "Error: " ++ str_exn e |})
  end.

(** The sentiment of one submission: the title at weight 0.6, and the body
    at weight 0.4 when there is one. *)
Definition post_sentiment (p : post) : Q :=
  let body_analysis := if truthy (selftext p) then Some (selftext p)
                       else None in
  let title_weight := 0.6 in
  let body_weight := 0.4 in
  let sentiment := polarity (title p) * title_weight in
  match body_analysis with
  | Some body => sentiment + polarity body * body_weight
  | None => sentiment
  end.

(** The loop over the subreddits: a search that fails is skipped.  A
    search yields all its submissions or fails before the first. *)
Fixpoint search_subreddits (search : string -> string -> outcome (list post))
    (symbol : string) (subreddits : list string) (posts : list post)
  : M (list post) :=
  match subreddits with
  | [] => ret posts
  | subreddit :: rest =>
      posts <- try_except
                 (found <- call (search subreddit symbol) ;;
                  ret (posts ++ found)%list)
                 (fun _ => ret posts) ;;
      search_subreddits search symbol rest posts
  end.

Definition _analyze_reddit_sentiment (symbol : string) (timeframe_hours : Z)
  : M platform_sentiment :=
  match reddit_api with
  | None =>
      ret {| score := None; sample_size := None;
             message := "Reddit API not available" |}
  | Some search =>
      try_except
        (let subreddits := ["cryptocurrency"; "cryptomarkets"; lower symbol] in
         posts <- search_subreddits search symbol subreddits [] ;;
         let sentiments := map post_sentiment posts in
         if is_empty sentiments
         then ret {| score := None; sample_size := None;
                     message := "No Reddit posts found" |}
         else
           let avg_sentiment := Qsum sentiments / Qlen sentiments in
           ret {| score := Some avg_sentiment;
                  sample_size := Some (List.length sentiments);
                  message := "Analysis successful" |})
        (fun e => ret {| score := None; sample_size := None;
                         message := "Error: " ++ str_exn e |})
  end.

(** One turn of the loop over [sentiment_data.items()]. *)
Definition accumulate (totals : Q * Q) (item : string * platform_sentiment)
  : Q * Q :=
  let '(total_sentiment, total_weight) := totals in
  let '(source, data) := item in
  match score data with
  | Some s =>
      let weight := if String.eqb source "twitter" then 1.0 else 0.8 in
      (total_sentiment + s * weight, total_weight + weight)
  | None => (total_sentiment, total_weight)
  end.

(** The combination of the two platforms, once they have answered. *)
Definition combine_sentiment
    (sentiment_data : list (string * platform_sentiment)) : option Q :=
  let '(total_sentiment, total_weight) :=
    fold_left accumulate sentiment_data (0, 0) in
  if Qeq_bool total_weight 0 then None
  else Some (total_sentiment / total_weight).

Definition analyze_social_sentiment (symbol : string) (timeframe_hours : Z)
  : M (option sentiment_analysis) :=
  twitter <- _analyze_twitter_sentiment symbol timeframe_hours ;;
  reddit <- _analyze_reddit_sentiment symbol timeframe_hours ;;
  let sentiment_data := [("twitter", twitter); ("reddit", reddit)] in
  match combine_sentiment sentiment_data with
  | None => ret None
  | Some combined =>
      now <- datetime_now ;;
      ret (Some {| combined_score := combined;
                   details := sentiment_data;
                   analysis_time := now |})
  end.

End Analyzer.

Definition get_sentiment_summary (sentiment_data : option sentiment_analysis)
  : string :=
  match sentiment_data with
  | None => "Sentiment analysis unavailable"
  | Some data =>
      let score := combined_score data in
      if Qle_bool 0.5 score
      then "Very Positive - Strong community enthusiasm and support"
      else if Qle_bool 0.2 score
      then "Positive - Generally favorable community sentiment"
      else if Qle_bool (-0.2) score
      then "Neutral - Mixed or balanced community sentiment"
      else if Qle_bool (-0.5) score
      then "Negative - Significant community concerns"
      else "Very Negative - Strong community skepticism or criticism"
  end.

End SentimentAnalyzer.

(* ================================================================== *)
(** * crypto_analyzer.py *)

Module CryptoAnalyzer.

Import TechnicalAnalyzer.

Module SA := SentimentAnalyzer.

(** The ticker of a symbol, as far as it is read. *)
Record ticker : Type := mkTicker {
  tk_last : Q;
  tk_open : Q;
  tk_quoteVolume : Q
}.

(** The exchange client: the symbols of [load_markets()] in iteration
    order, [fetch_ticker(symbol)] and [fetch_ohlcv(symbol, timeframe,
    limit)].  Each call returns or raises. *)
Class Exchange : Type := {
  load_markets : outcome (list string);
  fetch_ticker : string -> outcome ticker;
  fetch_ohlcv : string -> string -> nat -> outcome (list candle)
}.

(** The record [analyze_coin] returns for a retained symbol. *)
Record coin_analysis : Type := mkCoin {
  symbol : string;
  current_price : Q;
  price_change_24h : Q;
  daily_volume : Q;
  risk_score : Z;
  potential_score : pynum;
  combined_score : Q;
  technical_analysis : option TechnicalAnalyzer.technical_analysis;
  sentiment_analysis : option SA.sentiment_analysis;
  analysis_time : string;
  recommendation : string
}.

Definition min_market_cap : Q := 1000000.
Definition min_daily_volume : Q := 100000.

(** ** Strings *)

(** [s.endswith(suffix)]. *)
Definition endswith (s suffix : string) : bool :=
  let n := String.length s in
  let k := String.length suffix in
  (k <=? n)%nat && String.eqb (substring (n - k) k s) suffix.

(** [s.split(sep)[0]]: the text before the first [sep]. *)
Fixpoint split_head (sep : ascii) (s : string) : string :=
  match s with
  | EmptyString => EmptyString
  | String c r => if Ascii.eqb c sep then EmptyString
                  else String c (split_head sep r)
  end.

Definition newline : string := String (ascii_of_nat 10) EmptyString.

(** [sep.join(lines)]. *)
Fixpoint join (sep : string) (lines : list string) : string :=
  match lines with
  | [] => EmptyString
  | [l] => l
  | l :: rest => l ++ sep ++ join sep rest
  end.

(** ** Numbers *)

(** [a / b] on Python floats. *)
Definition py_div (a b : Q) : M Q :=
  if Qeq_bool b 0 then raise ZeroDivisionError else ret (a / b).

(** [col.mean()] of a computed column: NaN entries are skipped. *)
Definition is_nan (x : npfloat) : bool :=
  match x with NaN => true | _ => false end.

Definition mean_skipna (col : list npfloat) : npfloat :=
  let present := filter (fun x => negb (is_nan x)) col in
  match present with
  | [] => NaN
  | _ => np_div (fold_left np_add present (Fin 0)) (Fin (Qlen present))
  end.

(** ** Sorting *)

(** [l.sort(key=key, reverse=True)]: a stable sort, the larger key first;
    among equal keys the earlier element stays first. *)
Fixpoint insert_desc {A : Type} (key : A -> Q) (x : A) (sorted : list A)
  : list A :=
  match sorted with
  | [] => [x]
  | y :: rest => if Qle_bool (key y) (key x) then x :: y :: rest
                 else y :: insert_desc key x rest
  end.

Definition sort_desc {A : Type} (key : A -> Q) (l : list A) : list A :=
  fold_right (insert_desc key) [] l.

(** ** The scores *)

Definition bb_at_edge (p : bb_position_t) : bool :=
  match p with upper | lower => true | middle => false end.

Definition rsi_extreme (c : rsi_condition_t) : bool :=
  match c with overbought | oversold => true | neutral => false end.

Definition calculate_risk_score (volatility volume_change : npfloat)
    (price_change : Q)
    (technical_analysis : option TechnicalAnalyzer.technical_analysis)
    (sentiment_analysis : option SA.sentiment_analysis) : Z :=
  let risk_score := 0%Z in
  let risk_score :=
    if np_gt volatility (Fin 50) then (risk_score + 3)%Z
    else if np_gt volatility (Fin 30) then (risk_score + 2)%Z
    else if np_gt volatility (Fin 10) then (risk_score + 1)%Z
    else risk_score in
  let risk_score :=
    if np_lt volume_change (Fin (-50000)) then (risk_score + 2)%Z
    else if np_lt volume_change (Fin (-20000)) then (risk_score + 1)%Z
    else risk_score in
  let risk_score :=
    if Qltb 30 (Qabs price_change) then (risk_score + 2)%Z
    else if Qltb 15 (Qabs price_change) then (risk_score + 1)%Z
    else risk_score in
  let risk_score :=
    match technical_analysis with
    | Some ta =>
        let risk_score :=
          if bb_at_edge
               (bb_position (TechnicalAnalyzer.volatility (analysis ta)))
          then (risk_score + 1)%Z else risk_score in
        if rsi_extreme (rsi_condition (momentum (analysis ta)))
        then (risk_score + 1)%Z else risk_score
    | None => risk_score
    end in
  let risk_score :=
    match sentiment_analysis with
    | Some sa => if Qltb (SA.combined_score sa) (-0.5)
                 then (risk_score + 1)%Z else risk_score
    | None => risk_score
    end in
  risk_score.

(** The potential before it is bounded. *)
Definition potential_raw (df : list candle) (ticker : ticker)
    (technical_analysis : option TechnicalAnalyzer.technical_analysis)
    (sentiment_analysis : option SA.sentiment_analysis) : pynum :=
  let potential_score := PyInt 5 in
  let potential_score :=
    match technical_analysis with
    | Some ta =>
        let a := analysis ta in
        let potential_score :=
          if is_bullish (macd_trend (trend a))
             && is_bullish (sma_trend (trend a))
          then pyadd potential_score (PyInt 1) else potential_score in
        let potential_score :=
          if is_increasing (volume_trend (volume a))
          then pyadd potential_score (PyInt 1) else potential_score in
        if np_gt (rsi_value (momentum a)) (Fin 50)
        then pyadd potential_score (PyFloat 0.5) else potential_score
    | None => potential_score
    end in
  let potential_score :=
    match sentiment_analysis with
    | Some sa =>
        if Qltb 0 (SA.combined_score sa)
        then
          let sentiment_boost :=
            pymin (PyInt 2) (PyFloat (SA.combined_score sa * 2)) in
          pyadd potential_score sentiment_boost
        else potential_score
    | None => potential_score
    end in
  let price_trend :=
    np_mul (mean_skipna (pct_change 1 (map c_close df))) (Fin 100) in
  let potential_score :=
    if np_gt price_trend (Fin 5) then pyadd potential_score (PyInt 1)
    else if np_gt price_trend (Fin 2) then pyadd potential_score (PyFloat 0.5)
    else potential_score in
  potential_score.

Definition assess_potential (df : list candle) (ticker : ticker)
    (technical_analysis : option TechnicalAnalyzer.technical_analysis)
    (sentiment_analysis : option SA.sentiment_analysis) : pynum :=
  pymax (PyInt 1)
        (pymin (PyInt 10)
               (potential_raw df ticker technical_analysis sentiment_analysis)).

(** [calculate_combined_score], lines 179-194, in exact arithmetic; on
    floats it is [Binary64.calculate_combined_score]. *)
Definition calculate_combined_score (risk_score : Z) (potential_score : pynum)
    (technical_analysis : option TechnicalAnalyzer.technical_analysis)
    (sentiment_analysis : option SA.sentiment_analysis) : Q :=
  let combined_score :=
    pyval potential_score * 0.4 + inject_Z (10 - risk_score) * 0.3 in
  let combined_score :=
    match technical_analysis with
    | Some ta =>
        let technical_score := technical_score ta in
        combined_score + pyval technical_score * 0.2
    | None => combined_score
    end in
  let combined_score :=
    match sentiment_analysis with
    | Some sa =>
        let sentiment_score := ((SA.combined_score sa + 1) / 2) * 10 in
        combined_score + sentiment_score * 0.1
    | None => combined_score
    end in
  py_round2 combined_score.

Section Analyzer.
Context `{Indicators} `{SA.Social} `{Exchange} `{Printing}.

(** The list [recommendation] of [generate_recommendation], before it is
    joined. *)
Definition recommendation_lines (risk_score : Z) (potential_score : pynum)
    (technical_analysis : option TechnicalAnalyzer.technical_analysis)
    (sentiment_analysis : option SA.sentiment_analysis) : list string :=
  let recommendation := [] in
  let combined_score :=
    calculate_combined_score risk_score potential_score technical_analysis
                             sentiment_analysis in
  let recommendation :=
    if Qle_bool 8 combined_score
    then list_append recommendation
      "Strong Buy - Exceptional opportunity with high potential and managed risk"
    else if Qle_bool 7 combined_score
    then list_append recommendation "Buy - Favorable conditions for investment"
    else if Qle_bool 6 combined_score
    then list_append recommendation
      "Consider - Positive indicators with some caution"
    else list_append recommendation "Hold - Monitor for better entry points" in
  let recommendation :=
    match technical_analysis with
    | Some ta =>
        fold_left (fun r signal => list_append r ("Technical: " ++ signal))
                  (signals ta) recommendation
    | None => recommendation
    end in
  let risk_level :=
    if (risk_score <=? 3)%Z then "Low"
    else if (risk_score <=? 6)%Z then "Moderate" else "High" in
  let recommendation :=
    list_append recommendation
      ("Risk Level: " ++ risk_level ++ " (Score: "
       ++ str_num (PyInt risk_score) ++ "/10)") in
  let potential_level :=
    if Qle_bool 7 (pyval potential_score) then "High"
    else if Qle_bool 5 (pyval potential_score) then "Moderate" else "Low" in
  let recommendation :=
    list_append recommendation
      ("Potential: " ++ potential_level ++ " (Score: "
       ++ str_num potential_score ++ "/10)") in
  let recommendation :=
    match sentiment_analysis with
    | Some sa =>
        list_append recommendation
          ("Market Sentiment: " ++ SA.get_sentiment_summary (Some sa))
    | None => recommendation
    end in
  recommendation.

Definition generate_recommendation (risk_score : Z) (potential_score : pynum)
    (technical_analysis : option TechnicalAnalyzer.technical_analysis)
    (sentiment_analysis : option SA.sentiment_analysis) : string :=
  join newline
    (recommendation_lines risk_score potential_score technical_analysis
                          sentiment_analysis).

(** The body of the [try] of [analyze_coin]. *)
Definition analyze_coin_body (symbol : string) (ticker : ticker)
  : M (option coin_analysis) :=
  ohlcv <- call (fetch_ohlcv symbol "1d" 30%nat) ;;
  let df := ohlcv in
  technical_analysis <- analyze_technical_indicators df ;;
  let base_symbol := split_head "/" symbol in
  sentiment_analysis <- SA.analyze_social_sentiment base_symbol 24%Z ;;
  change <- py_div (tk_last ticker - tk_open ticker) (tk_open ticker) ;;
  let price_change_24h := change * 100 in
  let volume_change_24h :=
    np_sub (Fin (tk_quoteVolume ticker)) (series_mean (map c_volume df)) in
  let volatility :=
    np_mul (np_div (series_std (map c_close df))
                   (series_mean (map c_close df))) (Fin 100) in
  let risk_score :=
    calculate_risk_score volatility volume_change_24h price_change_24h
                         technical_analysis sentiment_analysis in
  let potential_score :=
    assess_potential df ticker technical_analysis sentiment_analysis in
  let combined_score :=
    calculate_combined_score risk_score potential_score technical_analysis
                             sentiment_analysis in
  if Qle_bool 6 combined_score
  then
    now <- datetime_now ;;
    ret (Some {| symbol := symbol;
                 current_price := tk_last ticker;
                 price_change_24h := price_change_24h;
                 daily_volume := tk_quoteVolume ticker;
                 risk_score := risk_score;
                 potential_score := potential_score;
                 combined_score := combined_score;
                 technical_analysis := technical_analysis;
                 sentiment_analysis := sentiment_analysis;
                 analysis_time := now;
                 recommendation :=
                   generate_recommendation risk_score potential_score
                     technical_analysis sentiment_analysis |})
  else ret None.

Definition analyze_coin (symbol : string) (ticker : ticker)
  : M (option coin_analysis) :=
  try_except (analyze_coin_body symbol ticker)
    (fun e => print ("Error in analyze_coin for " ++ symbol ++ ": "
                     ++ str_exn e) ;;;
              ret None).

(** What the [try] inside the loop of [get_promising_coins] does for one
    symbol, given the list collected so far. *)
Definition screen_symbol (symbol : string)
    (promising_coins : list coin_analysis) : M (list coin_analysis) :=
  try_except
    (ticker <- call (fetch_ticker symbol) ;;
     if Qltb min_daily_volume (tk_quoteVolume ticker)
     then
       coin_analysis <- analyze_coin symbol ticker ;;
       match coin_analysis with
       | Some c => ret (list_append promising_coins c)
       | None => ret promising_coins
       end
     else ret promising_coins)
    (fun e => print ("Error analyzing " ++ symbol ++ ": " ++ str_exn e) ;;;
              ret promising_coins).

(** The loop [for symbol in markets]. *)
Fixpoint screen (markets : list string) (promising_coins : list coin_analysis)
  : M (list coin_analysis) :=
  match markets with
  | [] => ret promising_coins
  | symbol :: rest =>
      promising_coins <-
        (if endswith symbol "/USDT"
         then screen_symbol symbol promising_coins
         else ret promising_coins) ;;
      screen rest promising_coins
  end.

Definition get_promising_coins : M (list coin_analysis) :=
  try_except
    (markets <- call load_markets ;;
     promising_coins <- screen markets [] ;;
     let promising_coins :=
       if negb (SA.is_empty promising_coins)
       then sort_desc combined_score promising_coins
       else promising_coins in
     ret promising_coins)
    (fun e => print ("Error in get_promising_coins: " ++ str_exn e) ;;;
              ret []).

End Analyzer.

End CryptoAnalyzer.

(* ================================================================== *)
(** * The formulas of the specification, and what a run shows *)

Module Spec.

Import TechnicalAnalyzer.
Module SA := SentimentAnalyzer.

(** The additive contributions of the combined score, in the words of the
    specification: potential at 0.4, the complement of risk at 0.3, the
    technical score at 0.2 when there is one, and one tenth of the sentiment
    component [((s + 1) / 2) * 10] when there is a combined sentiment [s].
    A contribution that is absent is not in the list. *)
Definition combined_terms (risk potential : Q)
    (technical_score combined_sentiment : option Q) : list Q :=
  ([potential * 0.4; (10 - risk) * 0.3]
   ++ match technical_score with
      | Some t => [t * 0.2]
      | None => []
      end
   ++ match combined_sentiment with
      | Some s => [((s + 1) / 2) * 10 * 0.1]
      | None => []
      end)%list.

(** The weighted average of the polarities that are available: weight 1.0
    for Twitter and 0.8 for Reddit; absent when there is none. *)
Definition weighted_average (twitter reddit : option Q) : option Q :=
  match twitter, reddit with
  | Some t, Some r => Some ((1.0 * t + 0.8 * r) / (1.0 + 0.8))
  | Some t, None => Some t
  | None, Some r => Some r
  | None, None => None
  end.

(** Two optional floats that are both absent, or both present and equal. *)
Definition same_value (a b : option Q) : Prop :=
  match a, b with
  | Some x, Some y => x == y
  | None, None => True
  | _, _ => False
  end.

(** A result with its timestamp field blanked: what two runs are compared
    on. *)
Definition untimed_technical (t : technical_analysis) : technical_analysis :=
  {| technical_score := technical_score t;
     analysis := analysis t;
     signals := signals t;
     analysis_time := EmptyString |}.

Definition untimed_sentiment (s : SA.sentiment_analysis)
  : SA.sentiment_analysis :=
  {| SA.combined_score := SA.combined_score s;
     SA.details := SA.details s;
     SA.analysis_time := EmptyString |}.

Definition untimed_coin (c : CryptoAnalyzer.coin_analysis)
  : CryptoAnalyzer.coin_analysis :=
  {| CryptoAnalyzer.symbol := CryptoAnalyzer.symbol c;
     CryptoAnalyzer.current_price := CryptoAnalyzer.current_price c;
     CryptoAnalyzer.price_change_24h := CryptoAnalyzer.price_change_24h c;
     CryptoAnalyzer.daily_volume := CryptoAnalyzer.daily_volume c;
     CryptoAnalyzer.risk_score := CryptoAnalyzer.risk_score c;
     CryptoAnalyzer.potential_score := CryptoAnalyzer.potential_score c;
     CryptoAnalyzer.combined_score := CryptoAnalyzer.combined_score c;
     CryptoAnalyzer.technical_analysis :=
       option_map untimed_technical (CryptoAnalyzer.technical_analysis c);
     CryptoAnalyzer.sentiment_analysis :=
       option_map untimed_sentiment (CryptoAnalyzer.sentiment_analysis c);
     CryptoAnalyzer.analysis_time := EmptyString;
     CryptoAnalyzer.recommendation := CryptoAnalyzer.recommendation c |}.

(** Every value the computation returns satisfies [P]. *)
Definition returns {A : Type} (m : M A) (P : A -> Prop) : Prop :=
  forall w a w', m w = (Ok a, w') -> P a.

(** The computation returns, from every world: no exception leaves it. *)
Definition never_raises {A : Type} (m : M A) : Prop :=
  forall w, exists a w', m w = (Ok a, w').

(** A score of an optional analysis, when the analysis is there. *)
Definition when_present {A : Type} (o : option A) (P : A -> Prop) : Prop :=
  match o with
  | Some a => P a
  | None => True
  end.

(** The outcome of a run, seen through [view]. *)
Definition outcome_map {A B : Type} (view : A -> B) (o : outcome A)
  : outcome B :=
  match o with
  | Ok a => Ok (view a)
  | Raise e => Raise e
  end.

(** Two computations agree under [view]: from any two worlds they raise the
    same exception or return values that look the same. *)
Definition agree {A B : Type} (view : A -> B) (m m' : M A) : Prop :=
  forall w w' : world,
    outcome_map view (fst (m w)) = outcome_map view (fst (m' w')).

(** TextBlob's contract: a polarity lies in [-1, 1]. *)
Definition polarity_bounded `{SA.Social} : Prop :=
  forall text : string, -1 <= SA.polarity text <= 1.

(** A platform's score, when it has one, lies in [-1, 1]. *)
Definition score_in_range (r : SA.platform_sentiment) : Prop :=
  when_present (SA.score r) (fun x => -1 <= x <= 1).

End Spec.

(* ================================================================== *)
(** * Binary64 arithmetic *)

(** Rounding to two decimals makes the last bit of a float visible: a sum
    that is 6.175 in exact arithmetic is a float just below or just above
    it.  This module gives the IEEE 754 binary64 reading of the arithmetic
    of [calculate_combined_score]: a float is the rational it denotes, and
    every operation rounds its exact result to the nearest float, a tie
    going to the even significand.  Overflow is left out: the operands of
    the combined score are bounded. *)
Module Binary64.

Import TechnicalAnalyzer.
Module SA := SentimentAnalyzer.

(** The nearest integer, a tie going to the even one. *)
Definition round_half_even (y : Q) : Z :=
  let n := Qfloor y in
  match Qcompare (y - inject_Z n) 0.5 with
  | Lt => n
  | Gt => (n + 1)%Z
  | Eq => if Z.even n then n else (n + 1)%Z
  end.

Definition pow2 (e : Z) : Q := 2 ^ e.

(** The binade of a non-zero number: [pow2 e <= |q| < pow2 (e + 1)]. *)
Definition ilog2 (q : Q) : Z :=
  let e := (Z.log2 (Z.abs (Qnum q)) - Z.log2 (Zpos (Qden q)))%Z in
  if Qle_bool (pow2 e) (Qabs q) then e else (e - 1)%Z.

(** A float has 53 significant bits, and no bit below [2^-1074]. *)
Definition precision : Z := 53.
Definition emin : Z := -1074.

(** Rounding moves a number by at most [unit_roundoff] of itself, or by
    [smallest_half] where the floats thin out near zero. *)
Definition unit_roundoff : Q := pow2 (- precision).
Definition smallest_half : Q := pow2 (emin - 1).

(** The weight of the last bit of the floats of the binade of [q]. *)
Definition ulp_exponent (q : Q) : Z := Z.max (ilog2 q - (precision - 1)) emin.

(** The float nearest to [q]. *)
Definition rnd (q : Q) : Q :=
  if Qeq_bool q 0 then 0
  else
    let e := ulp_exponent q in
    inject_Z (round_half_even (q / pow2 e)) * pow2 e.

Definition fadd (x y : Q) : Q := rnd (x + y).
Definition fsub (x y : Q) : Q := rnd (x - y).
Definition fmul (x y : Q) : Q := rnd (x * y).
Definition fdiv (x y : Q) : Q := rnd (x / y).

(** The float an operand is converted to: an [int] is converted, a float
    is itself (the nearest float, should the exact model carry a value
    that is none). *)
Definition float_of (x : pynum) : Q := rnd (pyval x).

(** [round(x, 2)] on a float: the exact value of [x] is rounded to the
    nearest multiple of 0.01, a tie going to the even one, and the result
    is the float nearest to that decimal. *)
Definition round2 (x : Q) : Q := rnd (py_round2 x).

(** [a + b + ...], one addition after the other. *)
Definition fsum (terms : list Q) : Q :=
  match terms with
  | [] => 0
  | first :: rest => fold_left fadd rest first
  end.

(** [calculate_combined_score], lines 179-194, on floats. *)
Definition calculate_combined_score (risk_score : Z) (potential_score : pynum)
    (technical_analysis : option technical_analysis)
    (sentiment_analysis : option SA.sentiment_analysis) : Q :=
  let combined_score :=
    fadd (fmul (float_of potential_score) (rnd 0.4))
         (fmul (float_of (PyInt (10 - risk_score))) (rnd 0.3)) in
  let combined_score :=
    match technical_analysis with
    | Some ta =>
        let technical_score := technical_score ta in
        fadd combined_score (fmul (float_of technical_score) (rnd 0.2))
    | None => combined_score
    end in
  let combined_score :=
    match sentiment_analysis with
    | Some sa =>
        let sentiment_score :=
          fmul (fdiv (fadd (rnd (SA.combined_score sa)) 1) 2) 10 in
        fadd combined_score (fmul sentiment_score (rnd 0.1))
    | None => combined_score
    end in
  round2 combined_score.

(** The contributions of the combined score in the words of the
    specification, each computed on floats: potential at 0.4, the
    complement of risk at 0.3, the technical score at 0.2 when there is
    one, one tenth of the sentiment component when there is a combined
    sentiment.  A contribution that is absent is not in the list. *)
Definition combined_terms (risk : Z) (potential : Q)
    (technical_score combined_sentiment : option Q) : list Q :=
  ([fmul (rnd potential) (rnd 0.4);
    fmul (rnd (inject_Z (10 - risk))) (rnd 0.3)]
   ++ match technical_score with
      | Some t => [fmul (rnd t) (rnd 0.2)]
      | None => []
      end
   ++ match combined_sentiment with
      | Some s => [fmul (fmul (fdiv (fadd (rnd s) 1) 2) 10) (rnd 0.1)]
      | None => []
      end)%list.

(** ** Against the Standard Library's binary64

    [SpecFloat] is the specification of IEEE 754 arithmetic that comes
    with the Standard Library; at precision 53 and maximal exponent 1024
    it is binary64.  The operations above are compared with it on
    operands of the size of the scores. *)

Definition of_spec (x : spec_float) : Q :=
  match x with
  | S754_finite s m e =>
      (if s then -1 else 1) * inject_Z (Zpos m) * pow2 e
  | _ => 0
  end.

(** The float nearest to [q], in the representation of [SpecFloat]. *)
Definition to_spec (q : Q) : spec_float :=
  let r := Qred (rnd q) in
  binary_normalize 53 1024 (Qnum r) (- Z.log2 (Zpos (Qden r))) false.

Definition agree_on (x y : Q) : bool :=
  let a := to_spec x in
  let b := to_spec y in
  Qeq_bool (of_spec a) (rnd x)
  && Qeq_bool (of_spec (SFadd 53 1024 a b)) (fadd (rnd x) (rnd y))
  && Qeq_bool (of_spec (SFsub 53 1024 a b)) (fsub (rnd x) (rnd y))
  && Qeq_bool (of_spec (SFmul 53 1024 a b)) (fmul (rnd x) (rnd y))
  && Qeq_bool (of_spec (SFdiv 53 1024 a b)) (fdiv (rnd x) (rnd y)).

Definition test_operands : list Q :=
  [0.1; 0.2; 0.3; 0.4; 0.5; 0.6; 0.8; 1; 1.8; 2; 2.4; 2.5; 3; 3.775; 4.4;
   5.5; 5.995; 6; 6.175; 7.48; 9.5; 10; 100; 0.35; 0.05; 0.000001;
   123456.789; -0.25; -0.65; -1; -5.995; 1 # 3; 2 # 7; -(10 # 9)].

End Binary64.

(* ================================================================== *)
(** * A synthetic market *)

(** Concrete collaborators on which the embedding runs: an exchange with a
    handful of symbols, two social clients, and indicator stubs that have
    no value on a window that is not full. *)
Module Sample.

Import TechnicalAnalyzer.
Module SA := SentimentAnalyzer.
Module CA := CryptoAnalyzer.

Definition nonzero (q : Q) : bool := negb (Qeq_bool q 0).

(** [ta.utils.dropna]: the rows holding a zero are dropped. *)
Definition drop_zero_rows (df : list candle) : list candle :=
  filter (fun c => nonzero (c_open c) && nonzero (c_high c)
                   && nonzero (c_low c) && nonzero (c_close c)
                   && nonzero (c_volume c)) df.

(** An indicator stub: value [v] once [n] rows are there. *)
Definition after (n : nat) (v : Q) (col : list Q) : npfloat :=
  if (List.length col <? n)%nat then NaN else Fin v.

#[local] Instance indicators : Indicators := {|
  dropna := drop_zero_rows;
  ta_macd := after 26 1;
  ta_macd_signal := after 34 0;
  ta_rsi := after 14 70;
  ta_bollinger_hband := after 20 1000000;
  ta_bollinger_lband := after 20 0;
  ta_bollinger_mavg := after 20 100;
  series_std := after 2 1
|}.

Definition polarity_of (text : string) : Q :=
  if String.eqb text "moon" then 1
  else if String.eqb text "doom" then -1
  else if String.eqb text "meh" then -0.2
  else 0.

Definition tweets_for (query : string) : outcome (list string) :=
  if String.eqb query "#AAA OR $AAA -filter:retweets" then Ok ["meh"]
  else if String.eqb query "#BBB OR $BBB -filter:retweets" then Ok ["moon"]
  else if String.eqb query "#DDD OR $DDD -filter:retweets" then Ok ["doom"]
  else if String.eqb query "#CCC OR $CCC -filter:retweets" then Ok []
  else Raise (ApiError "rate limit exceeded").

Definition title_only : SA.post :=
  {| SA.title := "moon"; SA.selftext := EmptyString |}.

Definition title_and_body : SA.post :=
  {| SA.title := "moon"; SA.selftext := "moon" |}.

Definition posts_for (subreddit query : string) : outcome (list SA.post) :=
  if String.eqb subreddit "cryptocurrency"
  then (if String.eqb query "BBB" then Ok [title_and_body]
        else if String.eqb query "CCC" then Ok [title_only]
        else Ok [])
  else if String.eqb subreddit "cryptomarkets" then Ok []
  else Raise (ApiError "subreddit not found").

#[local] Instance social : SA.Social := {|
  SA.polarity := polarity_of;
  SA.twitter_api := Some tweets_for;
  SA.reddit_api := Some posts_for
|}.

Definition day (n : Z) (close volume : Q) : candle :=
  {| c_timestamp := n; c_open := close; c_high := close; c_low := close;
     c_close := close; c_volume := volume |}.

(** Five quiet days. *)
Definition five_days : list candle :=
  [day 1 100 1000; day 2 101 1000; day 3 100 1000; day 4 101 1000;
   day 5 102 1000].

(** Sixty days, price and volume doubling every day. *)
Definition sixty_days : list candle :=
  map (fun n => day (Z.of_nat n) (inject_Z (2 ^ Z.of_nat n))
                    (inject_Z (2 ^ Z.of_nat n)))
      (seq 0 60).

Definition quiet_ticker : CA.ticker :=
  {| CA.tk_last := 102; CA.tk_open := 101; CA.tk_quoteVolume := 200000 |}.

Definition jumpy_ticker : CA.ticker :=
  {| CA.tk_last := 140; CA.tk_open := 100; CA.tk_quoteVolume := 200000 |}.

Definition thin_ticker : CA.ticker :=
  {| CA.tk_last := 102; CA.tk_open := 101; CA.tk_quoteVolume := 50 |}.

Definition unopened_ticker : CA.ticker :=
  {| CA.tk_last := 102; CA.tk_open := 0; CA.tk_quoteVolume := 200000 |}.

Definition ticker_of (symbol : string) : outcome CA.ticker :=
  if String.eqb symbol "AAA/USDT" then Ok jumpy_ticker
  else if String.eqb symbol "GGG/USDT" then Ok thin_ticker
  else if String.eqb symbol "HHH/USDT" then Ok unopened_ticker
  else if String.eqb symbol "EEE/USDT"
       then Raise (ApiError "binance GET ticker timed out")
  else Ok quiet_ticker.

Definition candles_of (symbol timeframe : string) (limit : nat)
  : outcome (list candle) :=
  if String.eqb symbol "III/USDT"
  then Raise (ApiError "binance GET klines timed out")
  else Ok (firstn limit five_days).

#[local] Instance exchange : CA.Exchange := {|
  CA.load_markets :=
    Ok ["AAA/USDT"; "BBB/USDT"; "FFF/BTC"; "CCC/USDT"; "DDD/USDT";
        "EEE/USDT"; "GGG/USDT"; "HHH/USDT"; "III/USDT"];
  CA.fetch_ticker := ticker_of;
  CA.fetch_ohlcv := candles_of
|}.

(** A clock that prints its reading as a run of ticks, and numbers printed
    as a fraction. *)
Fixpoint digits (fuel : nat) (n : N) (acc : string) : string :=
  match fuel with
  | O => acc
  | S fuel' =>
      let acc' := String (ascii_of_N (48 + N.modulo n 10)) acc in
      if N.ltb n 10 then acc' else digits fuel' (N.div n 10) acc'
  end.

Definition str_Z (z : Z) : string :=
  let body := digits (S (N.to_nat (N.log2 (Z.abs_N z)))) (Z.abs_N z)
                     EmptyString in
  if (z <? 0)%Z then "-" ++ body else body.

Definition str_of (x : pynum) : string :=
  match x with
  | PyInt z => str_Z z
  | PyFloat q => str_Z (Qnum (Qred q)) ++ "/" ++ str_Z (Zpos (Qden (Qred q)))
  end.

#[local] Instance printing : Printing := {|
  strftime := fun n => "tick " ++ str_Z (Z.of_nat n);
  str_num := str_of
|}.




Definition start : world := {| clock := 0; console := [] |}.

(** What the two analyzers return on the synthetic market. *)
Definition technical_of (df : list candle) : option technical_analysis :=
  match fst (analyze_technical_indicators df start) with
  | Ok r => r
  | Raise _ => None
  end.

Definition sentiment_of (base_symbol : string)
  : option SA.sentiment_analysis :=
  match fst (SA.analyze_social_sentiment base_symbol 24%Z start) with
  | Ok r => r
  | Raise _ => None
  end.

End Sample.

(* ================================================================== *)
(** * Where a record of the screening comes from *)

Module Trace.

Module CA := CryptoAnalyzer.

(** The record [c] was returned by [analyze_coin] for one of [markets]: a
    USDT symbol whose ticker was fetched and passed the volume filter. *)
Definition screened
    `{TechnicalAnalyzer.Indicators} `{SentimentAnalyzer.Social}
    `{CA.Exchange} `{Printing}
    (markets : list string) (c : CA.coin_analysis) : Prop :=
  exists (symbol : string) (ticker : CA.ticker) (w w' : world),
    In symbol markets
    /\ CA.endswith symbol "/USDT" = true
    /\ CA.fetch_ticker symbol = Ok ticker
    /\ CA.min_daily_volume < CA.tk_quoteVolume ticker
    /\ CA.analyze_coin symbol ticker w = (Ok (Some c), w').

(** The USDT symbols of a market list, in order. *)
Definition usdt_symbols (markets : list string) : list string :=
  filter (fun symbol => CA.endswith symbol "/USDT") markets.

End Trace.

(* ================================================================== *)
(** * Properties *)

Import TechnicalAnalyzer.
Module SA := SentimentAnalyzer.
Module CA := CryptoAnalyzer.

(** ** Comparisons and bounding *)

Lemma Qltb_true (a b : Q) : Qltb a b = true <-> a < b.
Proof.
  unfold Qltb. rewrite negb_true_iff.
  split; intro E.
  - apply Qnot_le_lt. intro L. apply Qle_bool_iff in L. congruence.
  - destruct (Qle_bool b a) eqn:L; trivial.
    apply Qle_bool_iff in L. exfalso. apply (Qlt_not_le _ _ E L).
Qed.

Lemma Qltb_false (a b : Q) : Qltb a b = false <-> b <= a.
Proof.
  unfold Qltb. rewrite negb_false_iff. apply Qle_bool_iff.
Qed.

Lemma Qle_bool_false (a b : Q) : Qle_bool a b = false <-> b < a.
Proof.
  split; intro E.
  - apply Qnot_le_lt. intro L. apply Qle_bool_iff in L. congruence.
  - destruct (Qle_bool a b) eqn:L; trivial.
    apply Qle_bool_iff in L. exfalso. apply (Qlt_not_le _ _ E L).
Qed.

(** Turn the boolean tests on floats in the context into inequalities. *)
Ltac float_tests :=
  repeat match goal with
         | E : Qltb _ _ = true |- _ => apply Qltb_true in E
         | E : Qltb _ _ = false |- _ => apply Qltb_false in E
         | E : Qle_bool _ _ = true |- _ => apply Qle_bool_iff in E
         | E : Qle_bool _ _ = false |- _ => apply Qle_bool_false in E
         | E : Qeq_bool _ _ = true |- _ => apply Qeq_bool_iff in E
         | E : Qeq_bool _ _ = false |- _ => apply Qeq_bool_neq in E
         end.

(** The integer constants of the code, as floats. *)
Ltac int_consts :=
  change (inject_Z 10) with 10 in *;
  change (inject_Z 5) with 5 in *;
  change (inject_Z 2) with 2 in *;
  change (inject_Z 1) with 1 in *;
  change (inject_Z 0) with 0 in *;
  change (inject_Z (-1)) with (-1) in *.

(** Division by a constant of the code, as a multiplication. *)
Ltac const_div :=
  unfold Qdiv in *;
  change (/ 100) with (1 # 100) in *;
  change (/ 2) with (1 # 2) in *.

(** A comparison with NaN is false, whatever the other side. *)
Lemma np_gt_nan_r (a : npfloat) : np_gt a NaN = false.
Proof. destruct a; reflexivity. Qed.

(** [max(1, min(10, x))] is [x] inside the bounds and the bound outside. *)
Lemma clamp_range (x : pynum) :
  1 <= pyval (pymax (PyInt 1) (pymin (PyInt 10) x)) <= 10.
Proof.
  unfold pymax, pymin.
  destruct (Qltb (pyval x) (pyval (PyInt 10))) eqn:E10.
  - destruct (Qltb (pyval (PyInt 1)) (pyval x)) eqn:E1;
      float_tests; simpl in *; int_consts; lra.
  - simpl. split; discriminate.
Qed.

Lemma clamp_above (x : pynum) :
  10 <= pyval x -> pymax (PyInt 1) (pymin (PyInt 10) x) = PyInt 10.
Proof.
  intro L. unfold pymax, pymin.
  assert (E : Qltb (pyval x) (pyval (PyInt 10)) = false)
    by (apply Qltb_false; exact L).
  rewrite E. reflexivity.
Qed.

Lemma clamp_below (x : pynum) :
  pyval x <= 1 -> pymax (PyInt 1) (pymin (PyInt 10) x) = PyInt 1.
Proof.
  intro L. unfold pymax, pymin.
  assert (E : Qltb (pyval x) (pyval (PyInt 10)) = true)
    by (apply Qltb_true; simpl; int_consts; lra).
  rewrite E.
  assert (E1 : Qltb (pyval (PyInt 1)) (pyval x) = false)
    by (apply Qltb_false; exact L).
  rewrite E1. reflexivity.
Qed.

Lemma clamp_inside (x : pynum) :
  1 < pyval x < 10 -> pymax (PyInt 1) (pymin (PyInt 10) x) = x.
Proof.
  intros [L1 L10]. unfold pymax, pymin.
  assert (E : Qltb (pyval x) (pyval (PyInt 10)) = true)
    by (apply Qltb_true; exact L10).
  rewrite E.
  assert (E1 : Qltb (pyval (PyInt 1)) (pyval x) = true)
    by (apply Qltb_true; exact L1).
  rewrite E1. reflexivity.
Qed.

Lemma pyval_pyadd (x y : pynum) : pyval (pyadd x y) == pyval x + pyval y.
Proof.
  destruct x, y; simpl; try reflexivity.
  rewrite inject_Z_plus. reflexivity.
Qed.

(** ** Rounding to two decimals *)

(** The floor of a float is the one integer just below it. *)
Lemma Qfloor_unique (y : Q) (n : Z) :
  inject_Z n <= y -> y < inject_Z (n + 1) -> Qfloor y = n.
Proof.
  intros L U.
  pose proof (Qfloor_le y) as FL.
  pose proof (Qlt_floor y) as FU.
  assert (A : (Qfloor y < n + 1)%Z).
  { rewrite Zlt_Qlt. eapply Qle_lt_trans; eassumption. }
  assert (B : (n < Qfloor y + 1)%Z).
  { rewrite Zlt_Qlt. eapply Qle_lt_trans; eassumption. }
  lia.
Qed.

Lemma py_round2_comp (x y : Q) : x == y -> py_round2 x = py_round2 y.
Proof.
  intro E. unfold py_round2.
  assert (E100 : x * 100 == y * 100) by (rewrite E; reflexivity).
  rewrite (Qfloor_comp _ _ E100).
  assert (EC : x * 100 - inject_Z (Qfloor (y * 100))
               == y * 100 - inject_Z (Qfloor (y * 100)))
    by (rewrite E100; reflexivity).
  rewrite (Qcompare_comp _ _ EC 0.5 0.5 (Qeq_refl _)).
  reflexivity.
Qed.

(** The rounded value is a whole number of hundredths, at most half a
    hundredth away. *)
Lemma py_round2_spec (x : Q) :
  exists m : Z,
    py_round2 x = inject_Z m / 100
    /\ - (1 # 2) <= inject_Z m - x * 100 <= 1 # 2.
Proof.
  unfold py_round2.
  pose proof (Qfloor_le (x * 100)) as FL.
  pose proof (Qlt_floor (x * 100)) as FU.
  rewrite inject_Z_plus in FU. int_consts.
  set (n := Qfloor (x * 100)) in *.
  destruct (Qcompare (x * 100 - inject_Z n) 0.5) eqn:C.
  - apply Qeq_alt in C.
    destruct (Z.even n).
    + exists n. split; [reflexivity | lra].
    + exists (n + 1)%Z. split; [reflexivity |].
      rewrite inject_Z_plus. int_consts. lra.
  - apply Qlt_alt in C. exists n. split; [reflexivity | lra].
  - apply Qgt_alt in C. exists (n + 1)%Z. split; [reflexivity |].
    rewrite inject_Z_plus. int_consts. lra.
Qed.

(** Rounding does not cross a multiple of 0.01. *)
Lemma py_round2_between (x : Q) (a b : Z) :
  inject_Z a / 100 <= x <= inject_Z b / 100 ->
  inject_Z a / 100 <= py_round2 x <= inject_Z b / 100.
Proof.
  intros [La Lb].
  destruct (py_round2_spec x) as (m & -> & Lm & Um).
  const_div.
  assert (A : (a <= m)%Z).
  { destruct (Z_le_gt_dec a m) as [|G]; trivial. exfalso.
    assert (G' : (m + 1 <= a)%Z) by lia.
    rewrite Zle_Qle, inject_Z_plus in G'. int_consts. lra. }
  assert (B : (m <= b)%Z).
  { destruct (Z_le_gt_dec m b) as [|G]; trivial. exfalso.
    assert (G' : (b + 1 <= m)%Z) by lia.
    rewrite Zle_Qle, inject_Z_plus in G'. int_consts. lra. }
  rewrite Zle_Qle in A, B. lra.
Qed.

(** Adding 0.5 before rounding is adding it after. *)
Lemma py_round2_plus_half (x : Q) : py_round2 (x + 0.5) == py_round2 x + 0.5.
Proof.
  unfold py_round2.
  pose proof (Qfloor_le (x * 100)) as FL.
  pose proof (Qlt_floor (x * 100)) as FU.
  rewrite inject_Z_plus in FU. int_consts.
  set (n := Qfloor (x * 100)) in *.
  assert (F : Qfloor ((x + 0.5) * 100) = (n + 50)%Z).
  { apply Qfloor_unique; rewrite !inject_Z_plus;
      change (inject_Z 50) with 50; int_consts; lra. }
  rewrite F.
  assert (EC : (x + 0.5) * 100 - inject_Z (n + 50) == x * 100 - inject_Z n).
  { rewrite inject_Z_plus. change (inject_Z 50) with 50. lra. }
  rewrite (Qcompare_comp _ _ EC 0.5 0.5 (Qeq_refl _)).
  replace (Z.even (n + 50)) with (Z.even n)
    by (rewrite Z.even_add; destruct (Z.even n); reflexivity).
  destruct (Qcompare (x * 100 - inject_Z n) 0.5); [destruct (Z.even n) | |];
    rewrite ?inject_Z_plus; change (inject_Z 50) with 50; int_consts;
    const_div; lra.
Qed.

(** ** The combined score *)

Lemma inject_Z_minus (a b : Z) : inject_Z (a - b) == inject_Z a - inject_Z b.
Proof.
  unfold Z.sub. rewrite inject_Z_plus, inject_Z_opp. reflexivity.
Qed.

(** The accumulation of [calculate_combined_score] is the sum of the
    contributions of the specification. *)
Lemma combined_accumulation (risk : Z) (potential : pynum)
    (ta : option technical_analysis) (sa : option SA.sentiment_analysis) :
  CA.calculate_combined_score risk potential ta sa
  = py_round2
      (Qsum (Spec.combined_terms
               (inject_Z risk) (pyval potential)
               (option_map (fun t => pyval (technical_score t)) ta)
               (option_map SA.combined_score sa))).
Proof.
  unfold CA.calculate_combined_score. apply py_round2_comp.
  pose proof (inject_Z_minus 10 risk) as E. int_consts.
  destruct ta, sa; unfold Spec.combined_terms, Qsum; simpl; rewrite E;
    const_div; lra.
Qed.

(** ** Reading the frame *)

Lemma iloc_last (df : frame) :
  rows df <> [] -> exists c, iloc_neg 1 df = ret c /\ In c (rows df).
Proof.
  intro NE. unfold iloc_neg. simpl.
  destruct (rev (rows df)) as [|c l] eqn:R.
  - exfalso. apply NE. rewrite <- (rev_involutive (rows df)), R. reflexivity.
  - exists c. split; [reflexivity |].
    apply in_rev. rewrite R. left. reflexivity.
Qed.

Lemma iloc_second_last (df : frame) :
  (2 <= List.length (rows df))%nat -> exists c, iloc_neg 2 df = ret c.
Proof.
  intro L. unfold iloc_neg. simpl.
  rewrite <- length_rev in L.
  destruct (rev (rows df)) as [|c [|c' l]]; simpl in L; try lia.
  exists c'. reflexivity.
Qed.

Lemma iloc_short (k : nat) (df : frame) :
  (List.length (rows df) < k)%nat -> iloc_neg k df = raise IndexError.
Proof.
  intro L. unfold iloc_neg.
  rewrite <- length_rev in L.
  destruct (nth_error (rev (rows df)) (k - 1)) eqn:N; trivial.
  exfalso.
  assert (k - 1 < List.length (rev (rows df)))%nat
    by (apply nth_error_Some; congruence).
  lia.
Qed.

(** ** The momentum classification *)

(** C3. The RSI classification compares strictly: the condition is
    overbought exactly above 70 and oversold exactly below 30, so an RSI of
    exactly 70 or exactly 30, and any value in between, is neutral (as is an
    RSI that has no value). *)
Theorem C3_rsi_condition_strict :
  forall (df : frame) (w : world),
    rows df <> [] ->
    exists m,
      _analyze_momentum df w = (Ok m, w)
      /\ rsi_value m = df_rsi df
      /\ (forall r, df_rsi df = Fin r ->
            (rsi_condition m = overbought <-> 70 < r)
            /\ (rsi_condition m = oversold <-> r < 30)
            /\ (rsi_condition m = neutral <-> 30 <= r <= 70))
      /\ (df_rsi df = Fin 70 -> rsi_condition m = neutral)
      /\ (df_rsi df = Fin 30 -> rsi_condition m = neutral)
      /\ (df_rsi df = NaN -> rsi_condition m = neutral).
Proof.
  intros df w NE.
  destruct (iloc_last df NE) as (c & Ec & _).
  unfold _analyze_momentum, bind. rewrite Ec. unfold ret.
  eexists. split; [reflexivity |]. simpl.
  split; [reflexivity |].
  split.
  { intros r ->. unfold np_lt. simpl.
    destruct (Qltb 70 r) eqn:E70; [| destruct (Qltb r 30) eqn:E30];
      float_tests; repeat split; intros; try discriminate; try lra;
      try reflexivity;
      match goal with A : _ /\ _ |- _ => destruct A; lra end. }
  repeat split; intros ->; reflexivity.
Qed.

(** ** Running a computation *)

Lemma returns_ret {A : Type} (a : A) (P : A -> Prop) :
  P a -> Spec.returns (ret a) P.
Proof. intros Pa w a' w' E. inversion E. subst. exact Pa. Qed.

Lemma returns_bind {A B : Type} (m : M A) (k : A -> M B)
    (P : A -> Prop) (R : B -> Prop) :
  Spec.returns m P -> (forall a, P a -> Spec.returns (k a) R) ->
  Spec.returns (bind m k) R.
Proof.
  intros Hm Hk w b w' E. unfold bind in E.
  destruct (m w) as [[a|e] w1] eqn:Em; [| discriminate].
  exact (Hk a (Hm _ _ _ Em) _ _ _ E).
Qed.

Lemma returns_try_except {A : Type} (m : M A) (h : exn -> M A)
    (P : A -> Prop) :
  Spec.returns m P -> (forall e, Spec.returns (h e) P) ->
  Spec.returns (try_except m h) P.
Proof.
  intros Hm Hh w a w' E. unfold try_except in E.
  destruct (m w) as [[a1|e] w1] eqn:Em.
  - inversion E. subst. exact (Hm _ _ _ Em).
  - exact (Hh e _ _ _ E).
Qed.

Lemma returns_trivial {A : Type} (m : M A) : Spec.returns m (fun _ => True).
Proof. intros w a w' _. exact I. Qed.

Lemma never_raises_ret {A : Type} (a : A) : Spec.never_raises (ret a).
Proof. intro w. exists a, w. reflexivity. Qed.

Lemma never_raises_bind {A B : Type} (m : M A) (k : A -> M B) :
  Spec.never_raises m -> (forall a, Spec.never_raises (k a)) ->
  Spec.never_raises (bind m k).
Proof.
  intros Hm Hk w. destruct (Hm w) as (a & w1 & Em).
  destruct (Hk a w1) as (b & w2 & Ek).
  exists b, w2. unfold bind. rewrite Em. exact Ek.
Qed.

Lemma never_raises_try_except {A : Type} (m : M A) (h : exn -> M A) :
  (forall e, Spec.never_raises (h e)) -> Spec.never_raises (try_except m h).
Proof.
  intros Hh w. unfold try_except.
  destruct (m w) as [[a|e] w1] eqn:Em.
  - exists a, w1. reflexivity.
  - apply Hh.
Qed.

Lemma never_raises_print (line : string) : Spec.never_raises (print line).
Proof. intro w. eexists _, _. reflexivity. Qed.

Lemma never_raises_now `{Printing} : Spec.never_raises datetime_now.
Proof. intro w. eexists _, _. reflexivity. Qed.

(** ** Sums and averages *)

Lemma Qlen_cons {A : Type} (x : A) (l : list A) : Qlen (x :: l) == Qlen l + 1.
Proof.
  unfold Qlen. simpl List.length. rewrite Nat2Z.inj_succ.
  unfold Z.succ. rewrite inject_Z_plus. reflexivity.
Qed.

Lemma Qlen_nonneg {A : Type} (l : list A) : 0 <= Qlen l.
Proof.
  unfold Qlen. change 0 with (inject_Z 0). rewrite <- Zle_Qle. lia.
Qed.

Lemma Qlen_pos {A : Type} (l : list A) : l <> [] -> 0 < Qlen l.
Proof.
  destruct l as [|x l]; [congruence | intros _].
  rewrite Qlen_cons. pose proof (Qlen_nonneg l). lra.
Qed.

Lemma fold_Qplus_bounds (a b : Q) (l : list Q) :
  (forall x, In x l -> a <= x <= b) ->
  forall acc,
    acc + a * Qlen l <= fold_left Qplus l acc <= acc + b * Qlen l.
Proof.
  induction l as [|x l IH]; intros Hl acc.
  - change (Qlen (@nil Q)) with 0. simpl. lra.
  - simpl fold_left. rewrite Qlen_cons.
    assert (Hx : a <= x <= b) by (apply Hl; left; reflexivity).
    assert (Hl' : forall y, In y l -> a <= y <= b)
      by (intros y Iy; apply Hl; right; exact Iy).
    specialize (IH Hl' (acc + x)). lra.
Qed.

(** The average of floats that lie between two bounds lies between them. *)
Lemma average_bounds (a b : Q) (l : list Q) :
  l <> [] -> (forall x, In x l -> a <= x <= b) ->
  a <= Qsum l / Qlen l <= b.
Proof.
  intros NE Hl.
  pose proof (Qlen_pos l NE) as Pos.
  pose proof (fold_Qplus_bounds a b l Hl 0) as [L U]. fold (Qsum l) in L, U.
  split.
  - apply Qle_shift_div_l; [exact Pos | lra].
  - apply Qle_shift_div_r; [exact Pos | lra].
Qed.

(** ** The sentiment aggregator *)

Section Sentiment.
Context `{SA.Social} `{Printing}.

Lemma post_sentiment_range (p : SA.post) :
  Spec.polarity_bounded -> -1 <= SA.post_sentiment p <= 1.
Proof.
  intro PB. unfold SA.post_sentiment.
  pose proof (PB (SA.title p)) as T.
  pose proof (PB (SA.selftext p)) as B.
  destruct (SA.truthy (SA.selftext p)); lra.
Qed.

Lemma is_empty_false {A : Type} (l : list A) : SA.is_empty l = false -> l <> [].
Proof. destruct l; [discriminate | congruence]. Qed.

Lemma twitter_score_range (symbol : string) (hours : Z) :
  Spec.polarity_bounded ->
  Spec.returns (SA._analyze_twitter_sentiment symbol hours) Spec.score_in_range.
Proof.
  intro PB. unfold SA._analyze_twitter_sentiment.
  destruct SA.twitter_api as [search|]; [| apply returns_ret; exact I].
  apply returns_try_except; [| intro e; apply returns_ret; exact I].
  eapply returns_bind; [apply returns_trivial |]. intros tweets _.
  destruct (SA.is_empty (map SA.polarity tweets)) eqn:Em;
    apply returns_ret; [exact I |].
  apply average_bounds; [apply is_empty_false; exact Em |].
  intros x Ix. apply in_map_iff in Ix. destruct Ix as (t & <- & _). apply PB.
Qed.

Lemma reddit_score_range (symbol : string) (hours : Z) :
  Spec.polarity_bounded ->
  Spec.returns (SA._analyze_reddit_sentiment symbol hours) Spec.score_in_range.
Proof.
  intro PB. unfold SA._analyze_reddit_sentiment.
  destruct SA.reddit_api as [search|]; [| apply returns_ret; exact I].
  apply returns_try_except; [| intro e; apply returns_ret; exact I].
  eapply returns_bind; [apply returns_trivial |]. intros posts _.
  destruct (SA.is_empty (map SA.post_sentiment posts)) eqn:Em;
    apply returns_ret; [exact I |].
  apply average_bounds; [apply is_empty_false; exact Em |].
  intros x Ix. apply in_map_iff in Ix. destruct Ix as (t & <- & _).
  apply post_sentiment_range. exact PB.
Qed.

(** The loop over the two platforms, unrolled. *)
Lemma combine_sentiment_unrolled (twitter reddit : SA.platform_sentiment) :
  SA.combine_sentiment [("twitter", twitter); ("reddit", reddit)]
  = match SA.score twitter, SA.score reddit with
    | Some t, Some r => Some ((0 + t * 1.0 + r * 0.8) / (0 + 1.0 + 0.8))
    | Some t, None => Some ((0 + t * 1.0) / (0 + 1.0))
    | None, Some r => Some ((0 + r * 0.8) / (0 + 0.8))
    | None, None => None
    end.
Proof.
  unfold SA.combine_sentiment, SA.accumulate. simpl fold_left.
  destruct (SA.score twitter), (SA.score reddit); reflexivity.
Qed.

Lemma combine_sentiment_range (twitter reddit : SA.platform_sentiment) :
  Spec.score_in_range twitter -> Spec.score_in_range reddit ->
  Spec.when_present
    (SA.combine_sentiment [("twitter", twitter); ("reddit", reddit)])
    (fun s => -1 <= s <= 1).
Proof.
  unfold Spec.score_in_range. rewrite combine_sentiment_unrolled.
  destruct (SA.score twitter) as [t|], (SA.score reddit) as [r|]; simpl;
    intros T R; trivial.
  - split; [apply Qle_shift_div_l | apply Qle_shift_div_r]; lra.
  - split; [apply Qle_shift_div_l | apply Qle_shift_div_r]; lra.
  - split; [apply Qle_shift_div_l | apply Qle_shift_div_r]; lra.
Qed.

Lemma social_sentiment_range (symbol : string) (hours : Z) :
  Spec.polarity_bounded ->
  Spec.returns (SA.analyze_social_sentiment symbol hours)
    (fun sa => Spec.when_present sa
                 (fun s => -1 <= SA.combined_score s <= 1)).
Proof.
  intro PB. unfold SA.analyze_social_sentiment.
  eapply returns_bind; [apply twitter_score_range; exact PB |].
  intros twitter T.
  eapply returns_bind; [apply reddit_score_range; exact PB |].
  intros reddit R.
  pose proof (combine_sentiment_range twitter reddit T R) as C.
  destruct (SA.combine_sentiment _) as [s|]; [| apply returns_ret; exact I].
  eapply returns_bind; [apply returns_trivial |]. intros now _.
  apply returns_ret. exact C.
Qed.

End Sentiment.

(** ** The bounds of the scores *)

Lemma risk_score_range (volatility volume_change : npfloat) (price_change : Q)
    (ta : option technical_analysis) (sa : option SA.sentiment_analysis) :
  (0 <= CA.calculate_risk_score volatility volume_change price_change ta sa
   <= 10)%Z.
Proof.
  unfold CA.calculate_risk_score.
  destruct ta, sa;
    repeat match goal with
           | |- context [if ?b then _ else _] => destruct b
           end; lia.
Qed.

Lemma combined_score_range (risk : Z) (potential : pynum)
    (ta : option technical_analysis) (sa : option SA.sentiment_analysis) :
  (0 <= risk <= 10)%Z ->
  1 <= pyval potential <= 10 ->
  Spec.when_present ta (fun t => 1 <= pyval (technical_score t) <= 10) ->
  Spec.when_present sa (fun s => -1 <= SA.combined_score s <= 1) ->
  0 <= CA.calculate_combined_score risk potential ta sa <= 10.
Proof.
  intros [R0 R10] P T S.
  rewrite Zle_Qle in R0, R10. int_consts.
  pose proof (inject_Z_minus 10 risk) as E. int_consts.
  unfold CA.calculate_combined_score.
  match goal with
  | |- 0 <= py_round2 ?x <= 10 =>
      assert (B : inject_Z 0 / 100 <= x <= inject_Z 1000 / 100)
  end.
  { change (inject_Z 1000) with 1000.
    destruct ta, sa; simpl in *; rewrite E; int_consts; const_div; lra. }
  apply py_round2_between in B.
  change (inject_Z 1000) with 1000 in B. int_consts. const_div. lra.
Qed.

Section Technical.
Context `{Indicators} `{Printing}.

(** What [analyze_technical_indicators] returns carries the score and the
    signals of its own analysis. *)
Lemma technical_analysis_consistent (df : list candle) :
  Spec.returns (analyze_technical_indicators df)
    (fun r => Spec.when_present r
                (fun t => technical_score t
                          = _calculate_technical_score (analysis t)
                          /\ signals t = _generate_signals (analysis t))).
Proof.
  unfold analyze_technical_indicators, analyze_technical_indicators_body.
  apply returns_try_except.
  - eapply returns_bind; [apply returns_trivial |]. intros a _.
    eapply returns_bind; [apply returns_trivial |]. intros now _.
    apply returns_ret. simpl. split; reflexivity.
  - intro e. eapply returns_bind; [apply returns_trivial |]. intros _ _.
    apply returns_ret. exact I.
Qed.

End Technical.

(** C2. Every score lies within its bounds, whichever adjustments fired:
    the technical score and the potential score in [1, 10], each cut to
    exactly the bound it would pass; the risk score in [0, 10]; and, the
    polarities lying in [-1, 1], the combined score of the pipeline in
    [0, 10]. *)
Theorem C2_scores_within_bounds :
  forall `{Indicators} `{SA.Social} `{Printing},
    Spec.polarity_bounded ->
    forall (df : list candle) (w w' : world) (ta : option technical_analysis)
           (base_symbol : string) (hours : Z) (v v' : world)
           (sa : option SA.sentiment_analysis),
      analyze_technical_indicators df w = (Ok ta, w') ->
      SA.analyze_social_sentiment base_symbol hours v = (Ok sa, v') ->
      forall (volatility volume_change : npfloat) (price_change : Q)
             (frame : list candle) (ticker : CA.ticker),
        let risk :=
          CA.calculate_risk_score volatility volume_change price_change
                                  ta sa in
        let potential := CA.assess_potential frame ticker ta sa in
        let combined := CA.calculate_combined_score risk potential ta sa in
        (forall a : analysis_t,
            1 <= pyval (_calculate_technical_score a) <= 10
            /\ (10 <= pyval (technical_score_raw a) ->
                _calculate_technical_score a = PyInt 10)
            /\ (pyval (technical_score_raw a) <= 1 ->
                _calculate_technical_score a = PyInt 1))
        /\ Spec.when_present ta
             (fun t => 1 <= pyval (technical_score t) <= 10)
        /\ 1 <= pyval potential <= 10
        /\ (10 <= pyval (CA.potential_raw frame ticker ta sa) ->
            potential = PyInt 10)
        /\ (pyval (CA.potential_raw frame ticker ta sa) <= 1 ->
            potential = PyInt 1)
        /\ (1 < pyval (CA.potential_raw frame ticker ta sa) < 10 ->
            potential = CA.potential_raw frame ticker ta sa)
        /\ (0 <= risk <= 10)%Z
        /\ 0 <= combined <= 10.
Proof.
  intros Ind Soc Pri PB df w w' ta base_symbol hours v v' sa Eta Esa
         volatility volume_change price_change frame ticker
         risk potential combined.
  assert (T : Spec.when_present ta
                (fun t => 1 <= pyval (technical_score t) <= 10)).
  { pose proof (technical_analysis_consistent df _ _ _ Eta) as C.
    destruct ta as [t|]; [| exact I]. simpl in *. destruct C as [-> _].
    apply clamp_range. }
  assert (Sn : Spec.when_present sa
                 (fun s => -1 <= SA.combined_score s <= 1))
    by exact (social_sentiment_range base_symbol hours PB _ _ _ Esa).
  assert (Pr : 1 <= pyval potential <= 10) by apply clamp_range.
  assert (Rr : (0 <= risk <= 10)%Z) by apply risk_score_range.
  split.
  { intro a. split; [apply clamp_range |].
    split; [apply clamp_above | apply clamp_below]. }
  split; [exact T |].
  split; [exact Pr |].
  split; [apply clamp_above |].
  split; [apply clamp_below |].
  split; [apply clamp_inside |].
  split; [exact Rr |].
  apply combined_score_range; assumption.
Qed.

(** ** What the sentiment contributes downstream *)

Lemma risk_sentiment_term (volatility volume_change : npfloat)
    (price_change : Q) (ta : option technical_analysis)
    (s : SA.sentiment_analysis) :
  CA.calculate_risk_score volatility volume_change price_change ta (Some s)
  = (CA.calculate_risk_score volatility volume_change price_change ta None
     + (if Qltb (SA.combined_score s) (-0.5) then 1 else 0))%Z.
Proof.
  unfold CA.calculate_risk_score.
  destruct (Qltb (SA.combined_score s) (-0.5)); lia.
Qed.

Lemma potential_sentiment_term (df : list candle) (ticker : CA.ticker)
    (ta : option technical_analysis) (s : SA.sentiment_analysis) :
  pyval (CA.potential_raw df ticker ta (Some s))
  == pyval (CA.potential_raw df ticker ta None)
     + (if Qltb 0 (SA.combined_score s)
        then pyval (pymin (PyInt 2) (PyFloat (SA.combined_score s * 2)))
        else 0).
Proof.
  unfold CA.potential_raw.
  destruct (Qltb 0 (SA.combined_score s));
    repeat match goal with
           | |- context [if ?b then _ else _] => destruct b
           end;
    rewrite ?pyval_pyadd; lra.
Qed.

Section Recommendation.
Context `{Printing}.

Lemma fold_append_map {A B : Type} (f : A -> B) (l : list A) (acc : list B) :
  fold_left (fun r x => list_append r (f x)) l acc = (acc ++ map f l)%list.
Proof.
  revert acc. induction l as [|x l IH]; intro acc; simpl.
  - rewrite app_nil_r. reflexivity.
  - rewrite IH. unfold list_append. rewrite <- app_assoc. reflexivity.
Qed.

(** After the headline, the lines without sentiment are those with it,
    less the last. *)
Lemma recommendation_sentiment_line (risk : Z) (potential : pynum)
    (ta : option technical_analysis) (s : SA.sentiment_analysis) :
  tl (CA.recommendation_lines risk potential ta (Some s))
  = (tl (CA.recommendation_lines risk potential ta None)
     ++ [("Market Sentiment: "
          ++ SA.get_sentiment_summary (Some s))%string])%list.
Proof.
  unfold CA.recommendation_lines.
  set (risk_line := ("Risk Level: " ++ _)%string).
  set (potential_line := ("Potential: " ++ _)%string).
  destruct ta as [t|]; rewrite ?fold_append_map; unfold list_append;
    repeat match goal with
           | |- context [if ?b then _ else _] => destruct b
           end; simpl; rewrite <- ?app_assoc; reflexivity.
Qed.

End Recommendation.

(** ** The platforms answer without touching the world *)

Section Platforms.
Context `{SA.Social} `{Printing}.

Lemma twitter_sentiment_pure (symbol : string) (hours : Z) (w : world) :
  exists r, SA._analyze_twitter_sentiment symbol hours w = (Ok r, w).
Proof.
  unfold SA._analyze_twitter_sentiment.
  destruct SA.twitter_api as [search|]; [| eexists; reflexivity].
  unfold try_except, bind, call, ret.
  destruct (search _) as [tweets|e]; [| eexists; reflexivity].
  destruct (SA.is_empty _); eexists; reflexivity.
Qed.

Lemma search_subreddits_pure
    (search : string -> string -> outcome (list SA.post)) (symbol : string)
    (subreddits : list string) :
  forall (posts : list SA.post) (w : world),
    exists found,
      SA.search_subreddits search symbol subreddits posts w = (Ok found, w).
Proof.
  induction subreddits as [|sub rest IH]; intros posts w; simpl.
  - eexists. reflexivity.
  - unfold bind, try_except, call, ret.
    destruct (search sub symbol) as [found|e]; apply IH.
Qed.

Lemma reddit_sentiment_pure (symbol : string) (hours : Z) (w : world) :
  exists r, SA._analyze_reddit_sentiment symbol hours w = (Ok r, w).
Proof.
  unfold SA._analyze_reddit_sentiment.
  destruct SA.reddit_api as [search|]; [| eexists; reflexivity].
  unfold try_except, bind.
  destruct (search_subreddits_pure search symbol
              ["cryptocurrency"; "cryptomarkets"; SA.lower symbol] [] w)
    as (posts & ->).
  destruct (SA.is_empty _); eexists; reflexivity.
Qed.


End Platforms.

(** C5. The combined sentiment is the average of the platform polarities
    that are available, Twitter at weight 1.0 and Reddit at weight 0.8.
    With no polarity at all the result is absent, and absent is not zero:
    downstream, the risk score, the potential score, the combined score and
    the recommendation then carry nothing for sentiment. *)
Theorem C5_weighted_platform_average :
  forall `{SA.Social} `{Printing} (symbol : string) (hours : Z) (w : world),
  exists (twitter reddit : SA.platform_sentiment)
         (result : option SA.sentiment_analysis) (w' : world),
    SA._analyze_twitter_sentiment symbol hours w = (Ok twitter, w)
    /\ SA._analyze_reddit_sentiment symbol hours w = (Ok reddit, w)
    /\ SA.analyze_social_sentiment symbol hours w = (Ok result, w')
    /\ Spec.same_value
         (option_map SA.combined_score result)
         (Spec.weighted_average (SA.score twitter) (SA.score reddit))
    /\ (result = None
        <-> SA.score twitter = None /\ SA.score reddit = None)
    /\ (forall volatility volume_change price_change ta s,
          CA.calculate_risk_score volatility volume_change price_change ta
                                  (Some s)
          = (CA.calculate_risk_score volatility volume_change price_change
                                     ta None
             + (if Qltb (SA.combined_score s) (-0.5) then 1 else 0))%Z)
    /\ (forall df ticker ta s,
          pyval (CA.potential_raw df ticker ta (Some s))
          == pyval (CA.potential_raw df ticker ta None)
             + (if Qltb 0 (SA.combined_score s)
                then pyval (pymin (PyInt 2)
                                  (PyFloat (SA.combined_score s * 2)))
                else 0))
    /\ (forall risk potential ta,
          CA.calculate_combined_score risk potential ta None
          = py_round2
              (Qsum (Spec.combined_terms
                       (inject_Z risk) (pyval potential)
                       (option_map (fun t => pyval (technical_score t)) ta)
                       None)))
    /\ (forall risk potential ta s,
          tl (CA.recommendation_lines risk potential ta (Some s))
          = (tl (CA.recommendation_lines risk potential ta None)
             ++ [("Market Sentiment: "
                  ++ SA.get_sentiment_summary (Some s))%string])%list).
Proof.
  intros Soc Pri symbol hours w.
  destruct (twitter_sentiment_pure symbol hours w) as (twitter & Et).
  destruct (reddit_sentiment_pure symbol hours w) as (reddit & Er).
  exists twitter, reddit.
  assert (R : exists result w',
             SA.analyze_social_sentiment symbol hours w = (Ok result, w')
             /\ option_map SA.combined_score result
                = SA.combine_sentiment
                    [("twitter", twitter); ("reddit", reddit)]).
  { unfold SA.analyze_social_sentiment, bind. rewrite Et, Er.
    destruct (SA.combine_sentiment _) as [c|];
      eexists _, _; split; reflexivity. }
  destruct R as (result & w' & Erun & Ecomb).
  exists result, w'.
  rewrite combine_sentiment_unrolled in Ecomb.
  repeat split; trivial.
  - rewrite Ecomb.
    destruct (SA.score twitter) as [t|], (SA.score reddit) as [r|]; simpl;
      trivial; field.
  - destruct (SA.score twitter), (SA.score reddit), result; simpl in Ecomb;
      congruence.
  - destruct (SA.score twitter), (SA.score reddit), result; simpl in Ecomb;
      congruence.
  - intro E. destruct E as [E1 E2]. rewrite E1, E2 in Ecomb.
    destruct result; [discriminate | reflexivity].
  - intros. apply risk_sentiment_term.
  - intros. apply potential_sentiment_term.
  - intros. apply combined_accumulation.
  - intros. apply recommendation_sentiment_line.
Qed.

(** ** A title-only submission *)

(** C10. A Reddit submission with an empty body enters the platform
    average with 0.6 times the polarity of its title: the weight of the
    body is dropped and not given to the title, so the item weighs at most
    0.6 either way. *)
Theorem C10_title_only_post :
  forall `{SA.Social} `{Printing} (p : SA.post),
    SA.selftext p = EmptyString ->
    SA.post_sentiment p == 0.6 * SA.polarity (SA.title p)
    /\ (~ SA.polarity (SA.title p) == 0 ->
        ~ SA.post_sentiment p == SA.polarity (SA.title p))
    /\ (Spec.polarity_bounded -> -0.6 <= SA.post_sentiment p <= 0.6)
    /\ (forall search symbol hours w posts,
          SA.reddit_api = Some search ->
          SA.search_subreddits search symbol
            ["cryptocurrency"; "cryptomarkets"; SA.lower symbol] [] w
          = (Ok posts, w) ->
          In p posts ->
          exists r,
            SA._analyze_reddit_sentiment symbol hours w = (Ok r, w)
            /\ SA.score r
               = Some (Qsum (map SA.post_sentiment posts)
                       / Qlen (map SA.post_sentiment posts))
            /\ In (SA.post_sentiment p) (map SA.post_sentiment posts)).
Proof.
  intros Soc Pri p Body.
  assert (E : SA.post_sentiment p == 0.6 * SA.polarity (SA.title p)).
  { unfold SA.post_sentiment. rewrite Body. simpl. lra. }
  split; [exact E |].
  split; [intros NZ EQ; rewrite E in EQ; apply NZ; lra |].
  split.
  { intro PB. pose proof (PB (SA.title p)) as T. lra. }
  intros search symbol hours w posts Api Found Ip.
  unfold SA._analyze_reddit_sentiment. rewrite Api.
  unfold try_except, bind. rewrite Found.
  destruct posts as [|q posts]; [destruct Ip |].
  eexists. split; [reflexivity |].
  split; [reflexivity |].
  apply in_map. exact Ip.
Qed.

(** ** Windows that are not yet full *)

Lemma rolling_mean_short (w : nat) (col : list Q) :
  (List.length col < w)%nat -> rolling_mean_last w col = NaN.
Proof.
  intro L. unfold rolling_mean_last.
  apply Nat.ltb_lt in L. rewrite L. reflexivity.
Qed.




(** ** The technical analysis of a frame *)

Section TechnicalRuns.
Context `{Indicators} `{Printing}.


Lemma analyze_indicators_short (df : frame) (w : world) :
  (List.length (rows df) < 2)%nat ->
  _analyze_indicators df w = (Raise IndexError, w).
Proof.
  intro L. unfold _analyze_indicators, bind.
  destruct (rows df) as [|c [|c' l]] eqn:R; simpl in L; try lia.
  - rewrite (iloc_short 1 df) by (rewrite R; simpl; lia). reflexivity.
  - unfold iloc_neg at 1. rewrite R. simpl.
    rewrite (iloc_short 2 df) by (rewrite R; simpl; lia). reflexivity.
Qed.


End TechnicalRuns.


(** ** Sorting by key, the larger first *)

Section SortDesc.
Context {A : Type} (key : A -> Q).

Lemma insert_desc_perm (x : A) (l : list A) :
  Permutation (x :: l) (CA.insert_desc key x l).
Proof.
  induction l as [|y l IH]; simpl.
  - apply Permutation_refl.
  - destruct (Qle_bool (key y) (key x)).
    + apply Permutation_refl.
    + apply perm_trans with (y :: x :: l); [apply perm_swap |].
      apply perm_skip. exact IH.
Qed.

Lemma sort_desc_perm (l : list A) : Permutation l (CA.sort_desc key l).
Proof.
  induction l as [|x l IH]; simpl.
  - apply perm_nil.
  - apply perm_trans with (x :: CA.sort_desc key l).
    + apply perm_skip. exact IH.
    + apply insert_desc_perm.
Qed.

Lemma insert_desc_sorted (x : A) (l : list A) :
  StronglySorted (fun a b => key b <= key a) l ->
  StronglySorted (fun a b => key b <= key a) (CA.insert_desc key x l).
Proof.
  induction 1 as [|y l Sl IH Fy]; simpl.
  - constructor; constructor.
  - destruct (Qle_bool (key y) (key x)) eqn:E; float_tests.
    + constructor; [constructor; assumption |].
      constructor; [exact E |].
      eapply Forall_impl; [| exact Fy].
      intros z Hz. simpl in *. lra.
    + constructor; [exact IH |].
      apply (Permutation_Forall (insert_desc_perm x l)).
      constructor; [lra | exact Fy].
Qed.

Lemma sort_desc_sorted (l : list A) :
  StronglySorted (fun a b => key b <= key a) (CA.sort_desc key l).
Proof.
  induction l as [|x l IH]; simpl.
  - constructor.
  - apply insert_desc_sorted. exact IH.
Qed.

Lemma insert_desc_stable (k : Q) (x : A) (l : list A) :
  filter (fun a => Qeq_bool (key a) k) (CA.insert_desc key x l)
  = filter (fun a => Qeq_bool (key a) k) (x :: l).
Proof.
  induction l as [|y l IH]; simpl; [reflexivity |].
  destruct (Qle_bool (key y) (key x)) eqn:E; [reflexivity |].
  simpl in *. rewrite IH.
  destruct (Qeq_bool (key x) k) eqn:Ex; [| reflexivity].
  destruct (Qeq_bool (key y) k) eqn:Ey; [| reflexivity].
  float_tests. exfalso. lra.
Qed.

Lemma sort_desc_stable (k : Q) (l : list A) :
  filter (fun a => Qeq_bool (key a) k) (CA.sort_desc key l)
  = filter (fun a => Qeq_bool (key a) k) l.
Proof.
  induction l as [|x l IH]; [reflexivity |].
  change (CA.sort_desc key (x :: l))
    with (CA.insert_desc key x (CA.sort_desc key l)).
  rewrite insert_desc_stable. simpl. rewrite IH.
  reflexivity.
Qed.

End SortDesc.

(** ** The screening loop *)

Section Screening.
Context `{Indicators} `{SA.Social} `{CA.Exchange} `{Printing}.


Lemma screen_symbol_never_raises (symbol : string)
    (acc : list CA.coin_analysis) :
  Spec.never_raises (CA.screen_symbol symbol acc).
Proof.
  unfold CA.screen_symbol.
  apply never_raises_try_except. intro e.
  apply never_raises_bind; [apply never_raises_print |].
  intros _. apply never_raises_ret.
Qed.

Lemma screen_never_raises (markets : list string) :
  forall acc : list CA.coin_analysis,
    Spec.never_raises (CA.screen markets acc).
Proof.
  induction markets as [|symbol rest IH]; intro acc; simpl.
  - apply never_raises_ret.
  - apply never_raises_bind; [| intro acc'; apply IH].
    destruct (CA.endswith symbol "/USDT");
      [apply screen_symbol_never_raises | apply never_raises_ret].
Qed.



(** A record is returned only at a combined score of 6 or more. *)
Lemma analyze_coin_threshold (symbol : string) (ticker : CA.ticker) :
  Spec.returns (CA.analyze_coin symbol ticker)
    (fun r => Spec.when_present r (fun c => 6 <= CA.combined_score c)).
Proof.
  unfold CA.analyze_coin, CA.analyze_coin_body.
  apply returns_try_except.
  - eapply returns_bind; [apply returns_trivial |]. intros df _.
    eapply returns_bind; [apply returns_trivial |]. intros ta _.
    eapply returns_bind; [apply returns_trivial |]. intros sa _.
    eapply returns_bind; [apply returns_trivial |]. intros change _.
    cbv zeta.
    destruct (Qle_bool 6 _) eqn:E; [| apply returns_ret; exact I].
    eapply returns_bind; [apply returns_trivial |]. intros now _.
    apply returns_ret. simpl. apply Qle_bool_iff. exact E.
  - intro e. eapply returns_bind; [apply returns_trivial |]. intros _ _.
    apply returns_ret. exact I.
Qed.




End Screening.

(** C6. The screening returns the retained records sorted by combined
    score, the larger first, records of equal score in the order the loop
    met them: the result is a rearrangement of the retained list, no record
    stands before one of larger score, and the records of any one score
    keep their order.  Three records of scores 6.5, 9.0 and 7.2 come out in
    the order 9.0, 7.2, 6.5. *)
Theorem C6_ranking_stable_descending :
  forall `{Indicators} `{SA.Social} `{CA.Exchange} `{Printing}
         (markets : list string) (w : world),
    CA.load_markets = Ok markets ->
    exists (retained ranked : list CA.coin_analysis) (w' : world),
      CA.screen markets [] w = (Ok retained, w')
      /\ CA.get_promising_coins w = (Ok ranked, w')
      /\ Permutation retained ranked
      /\ StronglySorted
           (fun a b => CA.combined_score b <= CA.combined_score a) ranked
      /\ (forall k : Q,
            filter (fun c => Qeq_bool (CA.combined_score c) k) ranked
            = filter (fun c => Qeq_bool (CA.combined_score c) k) retained)
      /\ (forall c1 c2 c3,
            retained = [c1; c2; c3] ->
            CA.combined_score c1 == 6.5 ->
            CA.combined_score c2 == 9.0 ->
            CA.combined_score c3 == 7.2 ->
            ranked = [c2; c3; c1]).
Proof.
  intros Ind Soc Exc Pri markets w Em.
  destruct (screen_never_raises markets [] w) as (retained & w' & Es).
  exists retained, (CA.sort_desc CA.combined_score retained), w'.
  split; [exact Es |].
  split.
  { unfold CA.get_promising_coins, try_except, bind, call.
    rewrite Em, Es. destruct retained; reflexivity. }
  split; [apply sort_desc_perm |].
  split; [apply sort_desc_sorted |].
  split; [intro k; apply sort_desc_stable |].
  intros c1 c2 c3 -> E1 E2 E3. simpl.
  assert (L32 : Qle_bool (CA.combined_score c3) (CA.combined_score c2) = true)
    by (apply Qle_bool_iff; lra).
  assert (L31 : Qle_bool (CA.combined_score c3) (CA.combined_score c1) = false)
    by (apply Qle_bool_false; lra).
  assert (L21 : Qle_bool (CA.combined_score c2) (CA.combined_score c1) = false)
    by (apply Qle_bool_false; lra).
  rewrite L32. simpl. rewrite L21. simpl. rewrite L31. reflexivity.
Qed.

(** ** Two runs from two worlds *)

Lemma agree_ret {A B : Type} (view : A -> B) (a a' : A) :
  view a = view a' -> Spec.agree view (ret a) (ret a').
Proof. intros E w w'. simpl. rewrite E. reflexivity. Qed.

Lemma agree_call {A B : Type} (view : A -> B) (r : outcome A) :
  Spec.agree view (call r) (call r).
Proof. intros w w'. reflexivity. Qed.

Lemma agree_bind {A B C D : Type} (va : A -> C) (vb : B -> D)
    (m m' : M A) (k k' : A -> M B) :
  Spec.agree va m m' ->
  (forall a a', va a = va a' -> Spec.agree vb (k a) (k' a')) ->
  Spec.agree vb (bind m k) (bind m' k').
Proof.
  intros Hm Hk w w'. specialize (Hm w w'). unfold bind.
  destruct (m w) as [[a|e] w1], (m' w') as [[a'|e'] w1']; simpl in Hm;
    try discriminate.
  - apply Hk. congruence.
  - simpl. congruence.
Qed.

Lemma agree_try_except {A B : Type} (view : A -> B) (m m' : M A)
    (h h' : exn -> M A) :
  Spec.agree view m m' ->
  (forall e, Spec.agree view (h e) (h' e)) ->
  Spec.agree view (try_except m h) (try_except m' h').
Proof.
  intros Hm Hh w w'. specialize (Hm w w'). unfold try_except.
  destruct (m w) as [[a|e] w1], (m' w') as [[a'|e'] w1']; simpl in Hm;
    try discriminate.
  - exact Hm.
  - injection Hm as <-. apply Hh.
Qed.

Lemma agree_print {B : Type} (view : unit -> B) (line line' : string) :
  Spec.agree view (print line) (print line').
Proof. intros w w'. simpl. reflexivity. Qed.

(** The clock is read, but what it says is not looked at. *)
Lemma agree_now `{Printing} :
  Spec.agree (fun _ : string => tt) datetime_now datetime_now.
Proof. intros w w'. reflexivity. Qed.

(** A computation that ignores the world agrees with itself as it is. *)
Lemma agree_worldless {A : Type} (m : M A) :
  (forall w w', fst (m w) = fst (m w')) ->
  Spec.agree (fun a => a) m m.
Proof.
  intros E w w'. rewrite (E w w'). reflexivity.
Qed.

(** The scores and the recommendation do not read the timestamps. *)
Lemma risk_untimed (volatility volume_change : npfloat) (price_change : Q)
    (ta : option technical_analysis) (sa : option SA.sentiment_analysis) :
  CA.calculate_risk_score volatility volume_change price_change ta sa
  = CA.calculate_risk_score volatility volume_change price_change
      (option_map Spec.untimed_technical ta)
      (option_map Spec.untimed_sentiment sa).
Proof. destruct ta, sa; reflexivity. Qed.

Lemma potential_untimed (df : list candle) (ticker : CA.ticker)
    (ta : option technical_analysis) (sa : option SA.sentiment_analysis) :
  CA.assess_potential df ticker ta sa
  = CA.assess_potential df ticker
      (option_map Spec.untimed_technical ta)
      (option_map Spec.untimed_sentiment sa).
Proof. destruct ta, sa; reflexivity. Qed.

Lemma combined_untimed (risk : Z) (potential : pynum)
    (ta : option technical_analysis) (sa : option SA.sentiment_analysis) :
  CA.calculate_combined_score risk potential ta sa
  = CA.calculate_combined_score risk potential
      (option_map Spec.untimed_technical ta)
      (option_map Spec.untimed_sentiment sa).
Proof. destruct ta, sa; reflexivity. Qed.

Lemma recommendation_untimed `{Printing} (risk : Z) (potential : pynum)
    (ta : option technical_analysis) (sa : option SA.sentiment_analysis) :
  CA.generate_recommendation risk potential ta sa
  = CA.generate_recommendation risk potential
      (option_map Spec.untimed_technical ta)
      (option_map Spec.untimed_sentiment sa).
Proof.
  unfold CA.generate_recommendation, CA.recommendation_lines.
  rewrite (combined_untimed risk potential ta sa).
  destruct ta, sa; reflexivity.
Qed.

Lemma map_sort_desc {A B : Type} (f : A -> B) (key : A -> Q) (key' : B -> Q)
    (l : list A) :
  (forall a, key' (f a) = key a) ->
  map f (CA.sort_desc key l) = CA.sort_desc key' (map f l).
Proof.
  intro K. induction l as [|x l IH]; [reflexivity |].
  change (CA.sort_desc key (x :: l))
    with (CA.insert_desc key x (CA.sort_desc key l)).
  change (CA.sort_desc key' (map f (x :: l)))
    with (CA.insert_desc key' (f x) (CA.sort_desc key' (map f l))).
  rewrite <- IH. clear IH.
  induction (CA.sort_desc key l) as [|y s IHs]; [reflexivity |].
  simpl. rewrite !K.
  destruct (Qle_bool (key y) (key x)); simpl; [reflexivity |].
  rewrite IHs. reflexivity.
Qed.

Section Determinism.
Context `{Indicators} `{SA.Social} `{CA.Exchange} `{Printing}.

Lemma analyze_indicators_worldless (df : frame) (w w' : world) :
  fst (_analyze_indicators df w) = fst (_analyze_indicators df w').
Proof.
  unfold _analyze_indicators, _analyze_trend, _analyze_momentum,
    _analyze_volatility, _analyze_volume, _analyze_price_action, bind,
    iloc_neg.
  destruct (nth_error (rev (rows df)) (1 - 1)); [| reflexivity].
  destruct (nth_error (rev (rows df)) (2 - 1)); reflexivity.
Qed.

Lemma technical_agree (df : list candle) :
  Spec.agree (option_map Spec.untimed_technical)
    (analyze_technical_indicators df) (analyze_technical_indicators df).
Proof.
  unfold analyze_technical_indicators, analyze_technical_indicators_body.
  apply agree_try_except.
  - apply agree_bind with (va := fun a : analysis_t => a).
    + apply agree_worldless. apply analyze_indicators_worldless.
    + intros a a' <-.
      apply agree_bind with (va := fun _ : string => tt);
        [apply agree_now |].
      intros now now' _. apply agree_ret. reflexivity.
  - intro e. apply agree_bind with (va := fun _ : unit => tt);
      [apply agree_print |].
    intros _ _ _. apply agree_ret. reflexivity.
Qed.

Lemma twitter_worldless (symbol : string) (hours : Z) (w w' : world) :
  fst (SA._analyze_twitter_sentiment symbol hours w)
  = fst (SA._analyze_twitter_sentiment symbol hours w').
Proof.
  unfold SA._analyze_twitter_sentiment, try_except, bind, call, ret.
  destruct SA.twitter_api as [search|]; [| reflexivity].
  destruct (search _); [| reflexivity].
  destruct (SA.is_empty _); reflexivity.
Qed.

Lemma search_subreddits_worldless
    (search : string -> string -> outcome (list SA.post)) (symbol : string)
    (subreddits : list string) :
  forall (posts : list SA.post) (w w' : world),
    fst (SA.search_subreddits search symbol subreddits posts w)
    = fst (SA.search_subreddits search symbol subreddits posts w').
Proof.
  induction subreddits as [|sub rest IH]; intros posts w w'; simpl.
  - reflexivity.
  - unfold bind, try_except, call, ret.
    destruct (search sub symbol); apply IH.
Qed.

Lemma reddit_worldless (symbol : string) (hours : Z) (w w' : world) :
  fst (SA._analyze_reddit_sentiment symbol hours w)
  = fst (SA._analyze_reddit_sentiment symbol hours w').
Proof.
  unfold SA._analyze_reddit_sentiment.
  destruct SA.reddit_api as [search|]; [| reflexivity].
  unfold try_except, bind.
  pose proof (search_subreddits_worldless search symbol
                ["cryptocurrency"; "cryptomarkets"; SA.lower symbol] [] w w')
    as E.
  destruct (SA.search_subreddits _ _ _ _ w) as [[posts|e] w1],
           (SA.search_subreddits _ _ _ _ w') as [[posts'|e'] w1'];
    simpl in E; try discriminate.
  - injection E as <-. destruct (SA.is_empty _); reflexivity.
  - injection E as <-. reflexivity.
Qed.

Lemma sentiment_agree (symbol : string) (hours : Z) :
  Spec.agree (option_map Spec.untimed_sentiment)
    (SA.analyze_social_sentiment symbol hours)
    (SA.analyze_social_sentiment symbol hours).
Proof.
  unfold SA.analyze_social_sentiment.
  apply agree_bind with (va := fun r : SA.platform_sentiment => r);
    [apply agree_worldless; apply twitter_worldless |].
  intros twitter t' <-.
  apply agree_bind with (va := fun r : SA.platform_sentiment => r);
    [apply agree_worldless; apply reddit_worldless |].
  intros reddit r' <-.
  destruct (SA.combine_sentiment _); [| apply agree_ret; reflexivity].
  apply agree_bind with (va := fun _ : string => tt); [apply agree_now |].
  intros now now' _. apply agree_ret. reflexivity.
Qed.

Lemma py_div_worldless (a b : Q) (w w' : world) :
  fst (CA.py_div a b w) = fst (CA.py_div a b w').
Proof. unfold CA.py_div. destruct (Qeq_bool b 0); reflexivity. Qed.

Lemma analyze_coin_agree (symbol : string) (ticker : CA.ticker) :
  Spec.agree (option_map Spec.untimed_coin)
    (CA.analyze_coin symbol ticker) (CA.analyze_coin symbol ticker).
Proof.
  unfold CA.analyze_coin, CA.analyze_coin_body.
  apply agree_try_except.
  - apply agree_bind with (va := fun df : list candle => df);
      [apply agree_call |].
    intros df df' <-.
    apply agree_bind with (va := option_map Spec.untimed_technical);
      [apply technical_agree |].
    intros ta ta' Eta.
    apply agree_bind with (va := option_map Spec.untimed_sentiment);
      [apply sentiment_agree |].
    intros sa sa' Esa.
    apply agree_bind with (va := fun q : Q => q);
      [apply agree_worldless; apply py_div_worldless |].
    intros change change' <-. cbv zeta.
    rewrite (risk_untimed _ _ _ ta sa), (risk_untimed _ _ _ ta' sa').
    rewrite (potential_untimed _ _ ta sa), (potential_untimed _ _ ta' sa').
    rewrite (combined_untimed _ _ ta sa), (combined_untimed _ _ ta' sa').
    rewrite (recommendation_untimed _ _ ta sa),
      (recommendation_untimed _ _ ta' sa').
    rewrite <- Eta, <- Esa.
    destruct (Qle_bool 6 _); [| apply agree_ret; reflexivity].
    apply agree_bind with (va := fun _ : string => tt); [apply agree_now |].
    intros now now' _. apply agree_ret.
    simpl. unfold Spec.untimed_coin. simpl. rewrite <- Eta, <- Esa.
    reflexivity.
  - intro e. apply agree_bind with (va := fun _ : unit => tt);
      [apply agree_print |].
    intros _ _ _. apply agree_ret. reflexivity.
Qed.

Lemma screen_symbol_agree (symbol : string)
    (acc acc' : list CA.coin_analysis) :
  map Spec.untimed_coin acc = map Spec.untimed_coin acc' ->
  Spec.agree (map Spec.untimed_coin)
    (CA.screen_symbol symbol acc) (CA.screen_symbol symbol acc').
Proof.
  intro Eacc. unfold CA.screen_symbol.
  apply agree_try_except.
  - apply agree_bind with (va := fun t : CA.ticker => t);
      [apply agree_call |].
    intros ticker t' <-.
    destruct (Qltb _ _); [| apply agree_ret; exact Eacc].
    apply agree_bind with (va := option_map Spec.untimed_coin);
      [apply analyze_coin_agree |].
    intros [c|] [c'|] Ec; simpl in Ec; try discriminate;
      apply agree_ret; [| exact Eacc].
    unfold list_append. rewrite !map_app, Eacc.
    change (map Spec.untimed_coin [c]) with [Spec.untimed_coin c].
    change (map Spec.untimed_coin [c']) with [Spec.untimed_coin c'].
    f_equal. f_equal. congruence.
  - intro e. apply agree_bind with (va := fun _ : unit => tt);
      [apply agree_print |].
    intros _ _ _. apply agree_ret. exact Eacc.
Qed.

Lemma screen_agree (markets : list string) :
  forall acc acc' : list CA.coin_analysis,
    map Spec.untimed_coin acc = map Spec.untimed_coin acc' ->
    Spec.agree (map Spec.untimed_coin)
      (CA.screen markets acc) (CA.screen markets acc').
Proof.
  induction markets as [|symbol rest IH]; intros acc acc' Eacc; simpl.
  - apply agree_ret. exact Eacc.
  - apply agree_bind with (va := map Spec.untimed_coin); [| exact (IH)].
    destruct (CA.endswith symbol "/USDT");
      [apply screen_symbol_agree | apply agree_ret]; exact Eacc.
Qed.

Lemma get_promising_coins_agree :
  Spec.agree (map Spec.untimed_coin)
    CA.get_promising_coins CA.get_promising_coins.
Proof.
  unfold CA.get_promising_coins.
  apply agree_try_except.
  - apply agree_bind with (va := fun m : list string => m);
      [apply agree_call |].
    intros markets m' <-.
    apply agree_bind with (va := map Spec.untimed_coin);
      [apply screen_agree; reflexivity |].
    intros l l' El. apply agree_ret.
    assert (S : forall r : list CA.coin_analysis,
               (if negb (SA.is_empty r)
                then CA.sort_desc CA.combined_score r else r)
               = CA.sort_desc CA.combined_score r)
      by (intros [|c r]; reflexivity).
    rewrite !S.
    rewrite !(map_sort_desc Spec.untimed_coin CA.combined_score
                CA.combined_score) by reflexivity.
    rewrite El. reflexivity.
  - intro e. apply agree_bind with (va := fun _ : unit => tt);
      [apply agree_print |].
    intros _ _ _. apply agree_ret. reflexivity.
Qed.

End Determinism.

(** C9. The pipeline is deterministic: run twice on the same candles and
    the same sentiment samples, at different times and whatever has been
    printed before, the technical analysis, the sentiment analysis, the
    record of a coin with its risk, potential and combined scores and its
    recommendation text, and the ranked list are the same in everything
    but the timestamp fields. *)
Theorem C9_deterministic_up_to_timestamp :
  forall `{Indicators} `{SA.Social} `{CA.Exchange} `{Printing}
         (w1 w2 : world),
    (forall df,
        Spec.outcome_map (option_map Spec.untimed_technical)
          (fst (analyze_technical_indicators df w1))
        = Spec.outcome_map (option_map Spec.untimed_technical)
            (fst (analyze_technical_indicators df w2)))
    /\ (forall symbol hours,
          Spec.outcome_map (option_map Spec.untimed_sentiment)
            (fst (SA.analyze_social_sentiment symbol hours w1))
          = Spec.outcome_map (option_map Spec.untimed_sentiment)
              (fst (SA.analyze_social_sentiment symbol hours w2)))
    /\ (forall symbol ticker,
          Spec.outcome_map (option_map Spec.untimed_coin)
            (fst (CA.analyze_coin symbol ticker w1))
          = Spec.outcome_map (option_map Spec.untimed_coin)
              (fst (CA.analyze_coin symbol ticker w2)))
    /\ Spec.outcome_map (map Spec.untimed_coin)
         (fst (CA.get_promising_coins w1))
       = Spec.outcome_map (map Spec.untimed_coin)
           (fst (CA.get_promising_coins w2))
    /\ (forall c,
          CA.risk_score (Spec.untimed_coin c) = CA.risk_score c
          /\ CA.potential_score (Spec.untimed_coin c) = CA.potential_score c
          /\ CA.combined_score (Spec.untimed_coin c) = CA.combined_score c
          /\ CA.recommendation (Spec.untimed_coin c) = CA.recommendation c
          /\ option_map analysis
               (CA.technical_analysis (Spec.untimed_coin c))
             = option_map analysis (CA.technical_analysis c)
          /\ option_map technical_score
               (CA.technical_analysis (Spec.untimed_coin c))
             = option_map technical_score (CA.technical_analysis c)
          /\ option_map signals
               (CA.technical_analysis (Spec.untimed_coin c))
             = option_map signals (CA.technical_analysis c)).
Proof.
  intros Ind Soc Exc Pri w1 w2.
  split; [intro df; apply technical_agree |].
  split; [intros symbol hours; apply sentiment_agree |].
  split; [intros symbol ticker; apply analyze_coin_agree |].
  split; [apply get_promising_coins_agree |].
  intro c. repeat split; simpl; destruct (CA.technical_analysis c);
    reflexivity.
Qed.
(** ** Binary64 rounding *)

Module B64 := Binary64.

Lemma round_half_even_spec (y : Q) :
  let m := B64.round_half_even y in
  - (1 # 2) <= inject_Z m - y <= 1 # 2
  /\ (inject_Z m - y == 1 # 2 \/ inject_Z m - y == - (1 # 2) ->
      Z.even m = true).
Proof.
  unfold B64.round_half_even.
  pose proof (Qfloor_le y) as FL.
  pose proof (Qlt_floor y) as FU.
  rewrite inject_Z_plus in FU. change (inject_Z 1) with 1 in FU.
  set (n := Qfloor y) in *.
  destruct (Qcompare (y - inject_Z n) 0.5) eqn:C; cbv zeta.
  - apply Qeq_alt in C.
    destruct (Z.even n) eqn:E.
    + split; [lra | intros _; exact E].
    + rewrite inject_Z_plus. change (inject_Z 1) with 1.
      split; [lra |]. intros _.
      rewrite Z.even_add, E. reflexivity.
  - apply Qlt_alt in C. split; [lra |]. intros [T | T]; lra.
  - apply Qgt_alt in C. rewrite inject_Z_plus. change (inject_Z 1) with 1.
    split; [lra |]. intros [T | T]; lra.
Qed.

Lemma py_round2_hundredths (x : Q) :
  py_round2 x = inject_Z (B64.round_half_even (x * 100)) / 100.
Proof. reflexivity. Qed.

Lemma pow2_pos (e : Z) : 0 < B64.pow2 e.
Proof. apply Qpower_0_lt. reflexivity. Qed.

Lemma pow2_plus (a b : Z) : B64.pow2 (a + b) == B64.pow2 a * B64.pow2 b.
Proof. apply Qpower_plus. discriminate. Qed.

Lemma pow2_nonneg_exponent (a : Z) :
  (0 <= a)%Z -> B64.pow2 a == inject_Z (2 ^ a).
Proof. intro L. unfold B64.pow2. rewrite Zpower_Qpower by exact L. reflexivity. Qed.

(** The binade found lies below the number. *)
Lemma ilog2_lower (q : Q) : ~ q == 0 -> B64.pow2 (B64.ilog2 q) <= Qabs q.
Proof.
  intro NZ. unfold B64.ilog2.
  set (n := Z.abs (Qnum q)). set (d := Zpos (Qden q)).
  set (e := (Z.log2 n - Z.log2 d)%Z).
  destruct (Qle_bool (B64.pow2 e) (Qabs q)) eqn:T.
  - apply Qle_bool_iff. exact T.
  - assert (Pn : (0 < n)%Z).
    { subst n. destruct q as [num den]. unfold Qeq in NZ. simpl in *. lia. }
    assert (Pd : (0 < d)%Z) by (subst d; lia).
    pose proof (Z.log2_spec n Pn) as [Ln _].
    pose proof (Z.log2_spec d Pd) as [_ Ud].
    pose proof (Z.log2_nonneg n) as Nn.
    pose proof (Z.log2_nonneg d) as Nd.
    replace (e - 1)%Z with (Z.log2 n + - (Z.succ (Z.log2 d)))%Z by (subst e; lia).
    rewrite pow2_plus. unfold B64.pow2 at 2. rewrite Qpower_opp.
    fold (B64.pow2 (Z.succ (Z.log2 d))).
    rewrite !pow2_nonneg_exponent by lia.
    assert (Eq : Qabs q == inject_Z n / inject_Z d).
    { destruct q as [num den]. subst n d. simpl. apply Qmake_Qdiv. }
    rewrite Eq.
    set (a := (2 ^ Z.log2 n)%Z) in *. set (b := (2 ^ Z.succ (Z.log2 d))%Z) in *.
    assert (Pb : (0 < b)%Z) by lia.
    assert (Pa : (0 < a)%Z) by (subst a; apply Z.pow_pos_nonneg; lia).
    unfold Qdiv. 
    assert (Ib : 0 < inject_Z b) by (change 0 with (inject_Z 0); rewrite <- Zlt_Qlt; exact Pb).
    assert (Id : 0 < inject_Z d) by (change 0 with (inject_Z 0); rewrite <- Zlt_Qlt; exact Pd).
    apply Qle_shift_div_l; [exact Id |].
    setoid_replace (inject_Z a * / inject_Z b * inject_Z d)
      with (inject_Z a * inject_Z d / inject_Z b) by (field; lra).
    apply Qle_shift_div_r; [exact Ib |].
    rewrite <- !inject_Z_mult. rewrite <- Zle_Qle. nia.
Qed.

Lemma unit_roundoff_pos : 0 < B64.unit_roundoff.
Proof. apply pow2_pos. Qed.

Lemma smallest_half_pos : 0 < B64.smallest_half.
Proof. apply pow2_pos. Qed.

(** Rounding to the nearest float moves a number by at most half the
    weight of the last bit. *)
Lemma rnd_error (q : Q) :
  Qabs (B64.rnd q - q) <= Qabs q * B64.unit_roundoff + B64.smallest_half.
Proof.
  pose proof unit_roundoff_pos as Pu. pose proof smallest_half_pos as Ps.
  pose proof (Qabs_nonneg q) as Pq.
  assert (Pm : 0 <= Qabs q * B64.unit_roundoff)
    by (apply Qmult_le_0_compat; lra).
  unfold B64.rnd.
  destruct (Qeq_bool q 0) eqn:Z.
  - apply Qeq_bool_iff in Z.
    assert (E : Qabs (0 - q) == 0) by (rewrite Z; reflexivity).
    rewrite E. lra.
  - assert (NZ : ~ q == 0).
    { intro E. apply Qeq_bool_iff in E. congruence. }
    cbv zeta.
    set (e := B64.ulp_exponent q).
    pose proof (pow2_pos e) as Pe.
    destruct (round_half_even_spec (q / B64.pow2 e)) as [[L U] _].
    set (m := B64.round_half_even (q / B64.pow2 e)) in *.
    assert (D : inject_Z m * B64.pow2 e - q
                == (inject_Z m - q / B64.pow2 e) * B64.pow2 e)
      by (field; lra).
    rewrite D, Qabs_Qmult, (Qabs_pos (B64.pow2 e)) by lra.
    assert (A : Qabs (inject_Z m - q / B64.pow2 e) <= 1 # 2)
      by (apply Qabs_Qle_condition; split; lra).
    assert (H : Qabs (inject_Z m - q / B64.pow2 e) * B64.pow2 e
                <= (1 # 2) * B64.pow2 e)
      by (apply Qmult_le_compat_r; lra).
    eapply Qle_trans; [exact H |].
    unfold e, B64.ulp_exponent.
    destruct (Z.max_spec (B64.ilog2 q - (B64.precision - 1)) B64.emin)
      as [[_ ->] | [_ ->]].
    + assert (E : (1 # 2) * B64.pow2 B64.emin == B64.smallest_half)
        by reflexivity.
      rewrite E. lra.
    + replace (B64.ilog2 q - (B64.precision - 1))%Z
        with (B64.ilog2 q + - (B64.precision - 1))%Z by lia.
      rewrite pow2_plus.
      assert (E : (1 # 2) * (B64.pow2 (B64.ilog2 q)
                             * B64.pow2 (- (B64.precision - 1)))
                  == B64.pow2 (B64.ilog2 q) * B64.unit_roundoff).
      { assert (C : (1 # 2) * B64.pow2 (- (B64.precision - 1))
                    == B64.unit_roundoff) by reflexivity.
        rewrite <- C. ring. }
      rewrite E.
      pose proof (ilog2_lower q NZ) as Lq.
      assert (M : B64.pow2 (B64.ilog2 q) * B64.unit_roundoff
                  <= Qabs q * B64.unit_roundoff)
        by (apply Qmult_le_compat_r; lra).
      lra.
Qed.

(** The same, for a number known to lie within [bound] of zero. *)
Lemma rnd_within (q bound : Q) :
  Qabs q <= bound ->
  q - (bound * B64.unit_roundoff + B64.smallest_half)
  <= B64.rnd q
  <= q + (bound * B64.unit_roundoff + B64.smallest_half).
Proof.
  intro B. pose proof (rnd_error q) as E.
  pose proof unit_roundoff_pos as Pu.
  assert (M : Qabs q * B64.unit_roundoff <= bound * B64.unit_roundoff)
    by (apply Qmult_le_compat_r; lra).
  apply Qabs_Qle_condition in E. lra.
Qed.

(** On every pair of the test operands, the float nearest to a number,
    the sum, the difference, the product and the quotient are those of
    the Standard Library's binary64. *)
Lemma agrees_with_specification :
  forallb (fun x => forallb (B64.agree_on x) B64.test_operands)
          B64.test_operands
  = true.
Proof. vm_compute. reflexivity. Qed.

(** ** The float accumulation against the exact one *)

Lemma rnd_04 : B64.rnd 0.4 = 7205759403792794 # 18014398509481984.
Proof. vm_compute. reflexivity. Qed.

Lemma rnd_03 : B64.rnd 0.3 = 5404319552844595 # 18014398509481984.
Proof. vm_compute. reflexivity. Qed.

Lemma rnd_02 : B64.rnd 0.2 = 7205759403792794 # 36028797018963968.
Proof. vm_compute. reflexivity. Qed.

Lemma rnd_01 : B64.rnd 0.1 = 7205759403792794 # 72057594037927936.
Proof. vm_compute. reflexivity. Qed.

Lemma unit_roundoff_value : B64.unit_roundoff == 1 # 9007199254740992.
Proof. reflexivity. Qed.

Lemma smallest_half_small : B64.smallest_half <= 1 # 1000000000000000000000000000000.
Proof. vm_compute. discriminate. Qed.

(** One rounding of the accumulation: the float is named, and what is
    kept of it is how far it can lie from the number rounded. *)
Ltac round_step :=
  match goal with
  | |- context [B64.rnd ?x] =>
      lazymatch x with
      | context [B64.rnd _] => fail
      | _ =>
          let H := fresh "R" in
          assert (H := rnd_within x 11);
          let v := fresh "v" in
          set (v := B64.rnd x) in *;
          let B := fresh "B" in
          assert (B : Qabs x <= 11)
            by (apply Qabs_Qle_condition; split; lra);
          specialize (H B); clear B; clearbody v
      end
  end.

Lemma combined_sum_error (risk : Z) (p : Q) (t s : option Q) :
  (0 <= risk <= 10)%Z ->
  1 <= p <= 10 ->
  Spec.when_present t (fun t => 1 <= t <= 10) ->
  Spec.when_present s (fun s => -1 <= s <= 1) ->
  Qabs (B64.fsum (B64.combined_terms risk p t s)
        - Qsum (Spec.combined_terms (inject_Z risk) p t s))
  <= 2 # 100000000000000.
Proof.
  intros Hr Hp Ht Hs.
  pose proof unit_roundoff_value as Hu.
  pose proof smallest_half_small as He.
  pose proof smallest_half_pos as Pe.
  assert (Ec : inject_Z (10 - risk) == 10 - inject_Z risk).
  { unfold Z.sub. rewrite inject_Z_plus, inject_Z_opp. reflexivity. }
  assert (Rr : 0 <= inject_Z risk <= 10).
  { destruct Hr as [A B]. rewrite Zle_Qle in A, B. exact (conj A B). }
  destruct t as [t|], s as [s|];
    cbv [B64.combined_terms Spec.combined_terms B64.fsum Qsum
         B64.fadd B64.fmul B64.fdiv app fold_left Spec.when_present] in *;
    set (c := inject_Z (10 - risk)) in *; set (r := inject_Z risk) in *;
    clearbody c r;
    rewrite rnd_04, rnd_03, ?rnd_02, ?rnd_01;
    unfold Qdiv; change (/ 2) with (1 # 2);
    repeat round_step;
    apply Qabs_Qle_condition; lra.
Qed.

(** [round(x, 2)] on a float: the float nearest to a whole number of
    hundredths, itself the nearest to [x], the even one at a tie. *)
Lemma round2_hundredths (x : Q) :
  exists m : Z,
    B64.round2 x = B64.rnd (inject_Z m / 100)
    /\ py_round2 x = inject_Z m / 100
    /\ - (1 # 2) <= inject_Z m - x * 100 <= 1 # 2
    /\ (Qabs (inject_Z m - x * 100) == 1 # 2 -> Z.even m = true).
Proof.
  exists (B64.round_half_even (x * 100)).
  destruct (round_half_even_spec (x * 100)) as [Range Tie].
  split; [reflexivity |]. split; [reflexivity |].
  split; [exact Range |].
  intro T. apply Tie.
  set (d := inject_Z (B64.round_half_even (x * 100)) - x * 100) in *.
  revert T. apply Qabs_case; intros S T; [left; exact T | right; lra].
Qed.

(** Within the range of the scores, [round(x, 2)] is at most 0.005 and a
    last bit away from [x]. *)
Lemma round2_close (x : Q) :
  Qabs x <= 10.9 ->
  Qabs (B64.round2 x - x)
  <= 0.005 + (11 * B64.unit_roundoff + B64.smallest_half).
Proof.
  intro B. apply Qabs_Qle_condition in B.
  destruct (round2_hundredths x) as (m & -> & _ & Range & _).
  set (h := inject_Z m / 100) in *.
  assert (Eh : h * 100 == inject_Z m) by (subst h; field).
  assert (Bh : Qabs h <= 11) by (apply Qabs_Qle_condition; lra).
  pose proof (rnd_within h 11 Bh) as R.
  apply Qabs_Qle_condition. lra.
Qed.

Lemma binary64_combined_score (risk : Z) (potential : pynum)
    (ta : option technical_analysis) (sa : option SA.sentiment_analysis) :
  B64.calculate_combined_score risk potential ta sa
  = B64.round2
      (B64.fsum (B64.combined_terms risk (pyval potential)
                   (option_map (fun t => pyval (technical_score t)) ta)
                   (option_map SA.combined_score sa))).
Proof.
  destruct ta, sa;
    cbv [B64.calculate_combined_score B64.combined_terms B64.fsum
         B64.float_of option_map app fold_left pyval];
    reflexivity.
Qed.

(** The exact sum of the contributions lies in [0.4, 10]. *)
Lemma combined_terms_range (risk : Z) (p : Q) (t s : option Q) :
  (0 <= risk <= 10)%Z ->
  1 <= p <= 10 ->
  Spec.when_present t (fun t => 1 <= t <= 10) ->
  Spec.when_present s (fun s => -1 <= s <= 1) ->
  0.4 <= Qsum (Spec.combined_terms (inject_Z risk) p t s) <= 10.
Proof.
  intros Hr Hp Ht Hs.
  assert (Rr : 0 <= inject_Z risk <= 10).
  { destruct Hr as [A B]. rewrite Zle_Qle in A, B. exact (conj A B). }
  destruct t, s;
    cbv [Spec.combined_terms Qsum app fold_left Spec.when_present] in *;
    unfold Qdiv; change (/ 2) with (1 # 2); lra.
Qed.

(** A combined sentiment of zero contributes the float 0.5. *)
Lemma zero_sentiment_term :
  B64.fmul (B64.fmul (B64.fdiv (B64.fadd (B64.rnd 0) 1) 2) 10) (B64.rnd 0.1)
  == 0.5.
Proof. vm_compute. reflexivity. Qed.

(** C1. On floats, the combined score is the sum, one addition after the
    other, of [potential*0.4], [(10 - risk)*0.3], [technical_score*0.2]
    when there is a technical analysis and
    [((combined_sentiment + 1)/2)*10*0.1] when there is a sentiment
    analysis, rounded to two decimals: the float nearest to a whole number
    of hundredths, which is the nearest to the sum, the even one at a tie.
    A contribution that is absent is left out and the other weights stay.
    In exact arithmetic the score is the exact sum rounded in the same
    way, and without sentiment it is 0.5 below the one a combined
    sentiment of zero gives.  For scores within their ranges the float sum
    is within 2e-14 of the exact sum: the score on floats is within 0.005
    of the exact formula, it is the exact formula rounded to two decimals
    unless the exact sum lies within 2e-14 of the middle between two
    hundredths, where the two may differ by 0.01, and without sentiment it
    is 0.5, to one hundredth, below the score for a sentiment of zero. *)
Theorem C1_combined_score_formula :
  forall (risk : Z) (potential : pynum) (ta : option technical_analysis)
         (sa : option SA.sentiment_analysis),
    let technical := option_map (fun t => pyval (technical_score t)) ta in
    let sentiment := option_map SA.combined_score sa in
    let sum64 :=
      B64.fsum (B64.combined_terms risk (pyval potential) technical
                                   sentiment) in
    let exact :=
      Qsum (Spec.combined_terms (inject_Z risk) (pyval potential) technical
                                sentiment) in
    let score := B64.calculate_combined_score risk potential ta sa in
    let ideal := CA.calculate_combined_score risk potential ta sa in
    (exists m : Z,
        score = B64.rnd (inject_Z m / 100)
        /\ - (1 # 2) <= inject_Z m - sum64 * 100 <= 1 # 2
        /\ (Qabs (inject_Z m - sum64 * 100) == 1 # 2 -> Z.even m = true))
    /\ (exists m : Z,
          ideal = inject_Z m / 100
          /\ - (1 # 2) <= inject_Z m - exact * 100 <= 1 # 2
          /\ (Qabs (inject_Z m - exact * 100) == 1 # 2 -> Z.even m = true))
    /\ (forall details time,
          CA.calculate_combined_score risk potential ta
            (Some (SA.mkSentiment 0 details time))
          == CA.calculate_combined_score risk potential ta None + 0.5)
    /\ ((0 <= risk <= 10)%Z ->
        1 <= pyval potential <= 10 ->
        Spec.when_present ta
          (fun t => 1 <= pyval (technical_score t) <= 10) ->
        Spec.when_present sa (fun s => -1 <= SA.combined_score s <= 1) ->
        Qabs (sum64 - exact) <= 2 # 100000000000000
        /\ Qabs (score - exact) <= 0.005 + (4 # 100000000000000)
        /\ (Qabs (ideal - exact) < 0.005 - (2 # 100000000000000) ->
            score = B64.rnd ideal)
        /\ Qabs (score - ideal) <= 0.01 + (4 # 100000000000000)
        /\ forall details time,
             0.48
             < B64.calculate_combined_score risk potential ta
                 (Some (SA.mkSentiment 0 details time))
               - B64.calculate_combined_score risk potential ta None
             < 0.52).
Proof.
  intros risk potential ta sa technical sentiment sum64 exact score ideal.
  assert (Es : score = B64.round2 sum64)
    by apply binary64_combined_score.
  assert (Ei : ideal = py_round2 exact) by apply combined_accumulation.
  destruct (round2_hundredths sum64) as (m & Em & _ & Rm & Tm).
  rewrite <- Es in Em.
  destruct (round2_hundredths exact) as (m' & _ & Em' & Rm' & Tm').
  rewrite <- Ei in Em'.
  split; [exists m; repeat split; tauto |].
  split; [exists m'; repeat split; tauto |].
  split.
  { intros details time.
    unfold CA.calculate_combined_score.
    rewrite <- py_round2_plus_half.
    cbn [SA.combined_score].
    destruct ta;
      match goal with
      | |- py_round2 ?a == py_round2 ?b =>
          rewrite (py_round2_comp a b);
          [reflexivity | unfold Qdiv; change (/ 2) with (1 # 2); lra]
      end. }
  intros Hr Hp Ht Hs.
  assert (Ht' : Spec.when_present technical (fun t => 1 <= t <= 10))
    by (destruct ta; exact Ht).
  assert (Hs' : Spec.when_present sentiment (fun s => -1 <= s <= 1))
    by (destruct sa; exact Hs).
  pose proof (combined_sum_error risk (pyval potential) technical sentiment
                Hr Hp Ht' Hs') as Err.
  pose proof (combined_terms_range risk (pyval potential) technical
                sentiment Hr Hp Ht' Hs') as Rng.
  fold sum64 in Err. fold exact in Err, Rng.
  pose proof unit_roundoff_value as Hu.
  pose proof smallest_half_small as He.
  pose proof smallest_half_pos as Pe.
  apply Qabs_Qle_condition in Err.
  assert (Bs : Qabs sum64 <= 10.9) by (apply Qabs_Qle_condition; lra).
  pose proof (round2_close sum64 Bs) as Close. rewrite <- Es in Close.
  apply Qabs_Qle_condition in Close.
  assert (Ei100 : ideal * 100 == inject_Z m') by (rewrite Em'; field).
  split; [apply Qabs_Qle_condition; lra |].
  split; [apply Qabs_Qle_condition; lra |].
  split.
  { intro Near. apply Qabs_Qlt_condition in Near.
    assert (Same : m = m').
    { assert (A : (m < m' + 1)%Z).
      { rewrite Zlt_Qlt, inject_Z_plus. change (inject_Z 1) with 1. lra. }
      assert (B : (m' < m + 1)%Z).
      { rewrite Zlt_Qlt, inject_Z_plus. change (inject_Z 1) with 1. lra. }
      lia. }
    rewrite Em, Em', Same. reflexivity. }
  split; [apply Qabs_Qle_condition; lra |].
  intros details time.
  set (zero := Some (SA.mkSentiment 0 details time)).
  pose proof (combined_sum_error risk (pyval potential) technical None
                Hr Hp Ht' I) as ErrN.
  pose proof (combined_terms_range risk (pyval potential) technical None
                Hr Hp Ht' I) as RngN.
  apply Qabs_Qle_condition in ErrN.
  set (sumN := B64.fsum (B64.combined_terms risk (pyval potential)
                           technical None)) in *.
  assert (BN : Qabs sumN <= 10.9) by (apply Qabs_Qle_condition; lra).
  pose proof (round2_close sumN BN) as CloseN.
  apply Qabs_Qle_condition in CloseN.
  assert (EN : B64.calculate_combined_score risk potential ta None
               = B64.round2 sumN) by apply binary64_combined_score.
  assert (EZ : B64.calculate_combined_score risk potential ta zero
               = B64.round2
                   (B64.fadd sumN
                      (B64.fmul
                         (B64.fmul (B64.fdiv (B64.fadd (B64.rnd 0) 1) 2) 10)
                         (B64.rnd 0.1)))).
  { rewrite binary64_combined_score. subst sumN zero technical.
    destruct ta;
      cbv [B64.combined_terms B64.fsum option_map app fold_left
           SA.combined_score];
      reflexivity. }
  rewrite EN, EZ.
  pose proof zero_sentiment_term as Z0.
  set (term := B64.fmul (B64.fmul (B64.fdiv (B64.fadd (B64.rnd 0) 1) 2) 10)
                        (B64.rnd 0.1)) in *.
  clearbody term.
  unfold B64.fadd.
  assert (Bt : Qabs (sumN + term) <= 11) by (apply Qabs_Qle_condition; lra).
  pose proof (rnd_within (sumN + term) 11 Bt) as Rz.
  set (sumZ := B64.rnd (sumN + term)) in *.
  assert (BZ : Qabs sumZ <= 10.9) by (apply Qabs_Qle_condition; lra).
  pose proof (round2_close sumZ BZ) as CloseZ.
  apply Qabs_Qle_condition in CloseZ.
  lra.
Qed.

(* ================================================================== *)
(** * The properties on the synthetic market *)

#[local] Existing Instance Sample.indicators.
#[local] Existing Instance Sample.social.
#[local] Existing Instance Sample.exchange.
#[local] Existing Instance Sample.printing.

Lemma sample_polarity_bounded : @Spec.polarity_bounded Sample.social.
Proof.
  intro text. simpl. unfold Sample.polarity_of.
  destruct (String.eqb text "moon"); [split; discriminate |].
  destruct (String.eqb text "doom"); [split; discriminate |].
  destruct (String.eqb text "meh"); split; discriminate.
Defined.

(** Sixty doubling days with an enthusiastic crowd: the potential would
    reach 10.5 and is cut to 10; all four scores are within bounds. *)
Lemma C2_witness :
  let ta := Sample.technical_of Sample.sixty_days in
  let sa := Sample.sentiment_of "BBB" in
  let risk := CA.calculate_risk_score (Fin 60) (Fin 0) 40 ta sa in
  let potential :=
    CA.assess_potential Sample.sixty_days Sample.quiet_ticker ta sa in
  let combined := CA.calculate_combined_score risk potential ta sa in
  pyval (CA.potential_raw Sample.sixty_days Sample.quiet_ticker ta sa)
  == 10.5
  /\ potential = PyInt 10
  /\ 1 <= pyval potential <= 10
  /\ (0 <= risk <= 10)%Z
  /\ 0 <= combined <= 10.
Proof.
  assert (Eta : analyze_technical_indicators Sample.sixty_days Sample.start
                = (Ok (Sample.technical_of Sample.sixty_days),
                   snd (analyze_technical_indicators Sample.sixty_days
                          Sample.start)))
    by (vm_compute; reflexivity).
  assert (Esa : SA.analyze_social_sentiment "BBB" 24%Z Sample.start
                = (Ok (Sample.sentiment_of "BBB"),
                   snd (SA.analyze_social_sentiment "BBB" 24%Z Sample.start)))
    by (vm_compute; reflexivity).
  destruct (C2_scores_within_bounds
              sample_polarity_bounded _ _ _ _ _ _ _ _ _ Eta Esa
              (Fin 60) (Fin 0) 40 Sample.sixty_days Sample.quiet_ticker)
    as (_ & _ & P & Cut & _ & _ & R & C).
  intros ta sa risk potential combined.
  split; [vm_compute; reflexivity |].
  split; [apply Cut; vm_compute; discriminate |].
  split; [exact P |].
  split; [exact R | exact C].
Defined.

(** An RSI of exactly 70 is neutral. *)
Lemma C3_witness :
  let df := @_calculate_indicators Sample.indicators Sample.sixty_days in
  df_rsi df = Fin 70
  /\ exists m,
       _analyze_momentum df Sample.start = (Ok m, Sample.start)
       /\ rsi_condition m = neutral.
Proof.
  intro df.
  split; [vm_compute; reflexivity |].
  destruct (C3_rsi_condition_strict df Sample.start
              ltac:(vm_compute; discriminate))
    as (m & E & _ & _ & At70 & _).
  exists m. split; [exact E |].
  apply At70. vm_compute. reflexivity.
Defined.

(** BBB is heard on both platforms, CCC on Reddit only, EEE on neither. *)
Lemma C5_witness :
  Spec.same_value
    (option_map SA.combined_score (Sample.sentiment_of "BBB"))
    (Some ((1.0 * 1 + 0.8 * 1) / (1.0 + 0.8)))
  /\ Spec.same_value
       (option_map SA.combined_score (Sample.sentiment_of "CCC"))
       (Some 0.6)
  /\ Sample.sentiment_of "EEE" = None.
Proof.
  destruct (@C5_weighted_platform_average Sample.social Sample.printing
              "BBB" 24%Z Sample.start)
    as (tb & rb & resb & wb & Etb & Erb & Eb & Sb & _).
  destruct (@C5_weighted_platform_average Sample.social Sample.printing
              "CCC" 24%Z Sample.start)
    as (tc & rc & resc & wc & Etc & Erc & Ec & Sc & _).
  destruct (@C5_weighted_platform_average Sample.social Sample.printing
              "EEE" 24%Z Sample.start)
    as (te & re & rese & we & Ete & Ere & Ee & _ & Ne & _).
  unfold Sample.sentiment_of. rewrite Eb, Ec, Ee. simpl fst.
  assert (Tb : SA.score tb = Some (Qsum [1] / Qlen [1]))
    by (vm_compute in Etb; injection Etb as <-; reflexivity).
  assert (Rb : SA.score rb = Some (Qsum [1 * 0.6 + 1 * 0.4]
                                   / Qlen [1 * 0.6 + 1 * 0.4]))
    by (vm_compute in Erb; injection Erb as <-; reflexivity).
  assert (Tc : SA.score tc = None)
    by (vm_compute in Etc; injection Etc as <-; reflexivity).
  assert (Rc : SA.score rc = Some (Qsum [1 * 0.6] / Qlen [1 * 0.6]))
    by (vm_compute in Erc; injection Erc as <-; reflexivity).
  assert (Te : SA.score te = None)
    by (vm_compute in Ete; injection Ete as <-; reflexivity).
  assert (Re : SA.score re = None)
    by (vm_compute in Ere; injection Ere as <-; reflexivity).
  rewrite Tb, Rb in Sb. rewrite Tc, Rc in Sc.
  split.
  { destruct resb; simpl in *; [| contradiction].
    rewrite Sb. vm_compute. reflexivity. }
  split.
  { destruct resc; simpl in *; [| contradiction].
    rewrite Sc. vm_compute. reflexivity. }
  apply Ne. split; assumption.
Defined.

(** The synthetic market, ranked: BBB at 8.00, CCC at 7.48, AAA at 6.00. *)
Lemma C6_witness :
  exists ranked w',
    @CA.get_promising_coins Sample.indicators Sample.social Sample.exchange
       Sample.printing Sample.start
    = (Ok ranked, w')
    /\ map CA.symbol ranked = ["BBB/USDT"; "CCC/USDT"; "AAA/USDT"]
    /\ StronglySorted
         (fun a b => CA.combined_score b <= CA.combined_score a) ranked.
Proof.
  destruct (@C6_ranking_stable_descending
              Sample.indicators Sample.social Sample.exchange Sample.printing
              ["AAA/USDT"; "BBB/USDT"; "FFF/BTC"; "CCC/USDT"; "DDD/USDT";
               "EEE/USDT"; "GGG/USDT"; "HHH/USDT"; "III/USDT"]
              Sample.start eq_refl)
    as (retained & ranked & w' & _ & Erun & _ & Ordered & _).
  exists ranked, w'. split; [exact Erun |].
  split; [| exact Ordered].
  assert (E : fst (@CA.get_promising_coins Sample.indicators Sample.social
                     Sample.exchange Sample.printing Sample.start)
              = Ok ranked) by (rewrite Erun; reflexivity).
  vm_compute in E. injection E as <-. vm_compute. reflexivity.
Defined.


(** A submission with a title of polarity 1 and no body weighs 0.6. *)
Lemma C10_witness :
  SA.selftext Sample.title_only = EmptyString
  /\ @SA.post_sentiment Sample.social Sample.title_only == 0.6
  /\ -0.6 <= @SA.post_sentiment Sample.social Sample.title_only <= 0.6.
Proof.
  split; [reflexivity |].
  destruct (@C10_title_only_post Sample.social Sample.printing
              Sample.title_only eq_refl) as (E & _ & Range & _).
  split; [rewrite E; vm_compute; reflexivity |].
  apply Range. exact sample_polarity_bounded.
Defined.

(* ================================================================== *)
(** * Further properties of the analyzers *)

(** ** The technical score and the potential, as they really range *)

Lemma technical_score_raw_steps (a : analysis_t) :
  4 <= pyval (technical_score_raw a) <= 10
  /\ inject_Z (Qfloor (pyval (technical_score_raw a) * 2)) / 2
     == pyval (technical_score_raw a).
Proof.
  unfold technical_score_raw. cbv zeta.
  destruct (is_bullish (macd_trend (trend a)));
    destruct (is_bullish (sma_trend (trend a)));
    destruct (is_bullish (long_term_trend (trend a)));
    destruct (np_le (Fin 40) (rsi_value (momentum a))
              && np_le (rsi_value (momentum a)) (Fin 60));
    destruct (np_gt (rsi_value (momentum a)) (Fin 70)
              || np_lt (rsi_value (momentum a)) (Fin 30));
    destruct (is_middle (bb_position (volatility a)));
    destruct (is_increasing (volume_trend (volume a)));
    destruct (np_gt (price_change_24h (price_action a)) (Fin 0));
    destruct (np_gt (price_change_7d (price_action a)) (Fin 0));
    vm_compute; intuition discriminate.
Qed.

(** The value of a score bounded by [max(1, min(10, .))] when it already
    lies between 1 and 10. *)
Lemma clamp_value (x : pynum) :
  1 < pyval x <= 10 ->
  pyval (pymax (PyInt 1) (pymin (PyInt 10) x)) == pyval x.
Proof.
  intros [L U].
  destruct (Qlt_le_dec (pyval x) 10) as [S | G].
  - rewrite clamp_inside by (split; assumption). reflexivity.
  - rewrite clamp_above by exact G. simpl. int_consts. lra.
Qed.

(** X1. The technical score is never below 4 nor above 10, it moves in
    steps of one half, and the bounding at the end of
    [_calculate_technical_score] never changes its value: the adjustments
    cannot take the score out of [1, 10]. *)
Theorem X1_technical_score_steps :
  forall a : analysis_t,
    4 <= pyval (_calculate_technical_score a) <= 10
    /\ pyval (_calculate_technical_score a) == pyval (technical_score_raw a)
    /\ exists k : Z, pyval (_calculate_technical_score a) == inject_Z k / 2.
Proof.
  intro a.
  destruct (technical_score_raw_steps a) as ([L U] & K).
  assert (E : pyval (_calculate_technical_score a)
              == pyval (technical_score_raw a))
    by (apply clamp_value; lra).
  split; [rewrite E; split; assumption |].
  split; [exact E |].
  exists (Qfloor (pyval (technical_score_raw a) * 2)).
  rewrite E, K. reflexivity.
Qed.

Lemma pymin_value (x y : pynum) :
  pyval (pymin x y) <= pyval x
  /\ pyval (pymin x y) <= pyval y
  /\ (pyval (pymin x y) == pyval x \/ pyval (pymin x y) == pyval y).
Proof.
  unfold pymin. destruct (Qltb (pyval y) (pyval x)) eqn:E; float_tests.
  - split; [lra |]. split; [lra |]. right. reflexivity.
  - split; [lra |]. split; [lra |]. left. reflexivity.
Qed.

Lemma potential_raw_range (df : list candle) (ticker : CA.ticker)
    (ta : option technical_analysis) (sa : option SA.sentiment_analysis) :
  5 <= pyval (CA.potential_raw df ticker ta sa) <= 10.5.
Proof.
  unfold CA.potential_raw. cbv zeta.
  assert (B : forall s, 0 < s ->
                0 <= pyval (pymin (PyInt 2) (PyFloat (s * 2))) <= 2).
  { intros s Ps.
    destruct (pymin_value (PyInt 2) (PyFloat (s * 2))) as (L2 & _ & [E | E]);
      simpl in *; int_consts; lra. }
  destruct ta as [t|], sa as [s|];
    try (destruct (Qltb 0 (SA.combined_score s)) eqn:Pos;
         [apply Qltb_true in Pos; specialize (B _ Pos) | clear B]);
    repeat match goal with
           | |- context [if ?b then _ else _] => destruct b
           end;
    rewrite ?pyval_pyadd; simpl pyval; int_consts; lra.
Qed.

(** ** The layout of the recommendation *)

Section Layout.
Context `{Printing}.

(** The accumulation of [generate_recommendation], as one list. *)
Lemma recommendation_lines_layout (risk : Z) (potential : pynum)
    (ta : option technical_analysis) (sa : option SA.sentiment_analysis) :
  CA.recommendation_lines risk potential ta sa
  = ((if Qle_bool 8 (CA.calculate_combined_score risk potential ta sa)
      then "Strong Buy - Exceptional opportunity with high potential and managed risk"
      else if Qle_bool 7 (CA.calculate_combined_score risk potential ta sa)
      then "Buy - Favorable conditions for investment"
      else if Qle_bool 6 (CA.calculate_combined_score risk potential ta sa)
      then "Consider - Positive indicators with some caution"
      else "Hold - Monitor for better entry points")
     :: map (fun signal => ("Technical: " ++ signal)%string)
            (match ta with Some t => signals t | None => [] end)
     ++ [("Risk Level: "
          ++ (if (risk <=? 3)%Z then "Low"
              else if (risk <=? 6)%Z then "Moderate" else "High")
          ++ " (Score: " ++ str_num (PyInt risk) ++ "/10)")%string;
         ("Potential: "
          ++ (if Qle_bool 7 (pyval potential) then "High"
              else if Qle_bool 5 (pyval potential) then "Moderate"
              else "Low")
          ++ " (Score: " ++ str_num potential ++ "/10)")%string]
     ++ match sa with
        | Some s =>
            [("Market Sentiment: "
              ++ SA.get_sentiment_summary (Some s))%string]
        | None => []
        end)%list.
Proof.
  unfold CA.recommendation_lines. cbv zeta.
  set (combined := CA.calculate_combined_score risk potential ta sa).
  set (risk_line := ("Risk Level: " ++ _)%string).
  set (potential_line := ("Potential: " ++ _)%string).
  destruct (Qle_bool 8 combined);
    [| destruct (Qle_bool 7 combined); [| destruct (Qle_bool 6 combined)]];
    destruct ta as [t|], sa as [s|]; rewrite ?fold_append_map;
    unfold list_append; simpl; rewrite <- ?app_assoc; reflexivity.
Qed.

(** X9. The recommendation is laid out in a fixed order: one headline
    chosen by the combined score (Strong Buy from 8, Buy from 7, Consider
    from 6, Hold below), one line per technical signal in the order of the
    signals, the risk line (Low up to 3, Moderate up to 6, High above),
    the potential line (High from 7, Moderate from 5, Low below) and, when
    there is a sentiment analysis, its summary.  It has three lines more
    than there are signals, and one more with sentiment. *)
Theorem X9_recommendation_layout :
  forall (risk : Z) (potential : pynum) (ta : option technical_analysis)
         (sa : option SA.sentiment_analysis),
    let combined := CA.calculate_combined_score risk potential ta sa in
    let headline :=
      if Qle_bool 8 combined
      then "Strong Buy - Exceptional opportunity with high potential and managed risk"
      else if Qle_bool 7 combined
      then "Buy - Favorable conditions for investment"
      else if Qle_bool 6 combined
      then "Consider - Positive indicators with some caution"
      else "Hold - Monitor for better entry points" in
    let technical :=
      map (fun signal => "Technical: " ++ signal)
          (match ta with Some t => signals t | None => [] end) in
    let risk_line :=
      "Risk Level: "
      ++ (if (risk <=? 3)%Z then "Low"
          else if (risk <=? 6)%Z then "Moderate" else "High")
      ++ " (Score: " ++ str_num (PyInt risk) ++ "/10)" in
    let potential_line :=
      "Potential: "
      ++ (if Qle_bool 7 (pyval potential) then "High"
          else if Qle_bool 5 (pyval potential) then "Moderate" else "Low")
      ++ " (Score: " ++ str_num potential ++ "/10)" in
    let sentiment :=
      match sa with
      | Some s => ["Market Sentiment: " ++ SA.get_sentiment_summary (Some s)]
      | None => []
      end in
    CA.recommendation_lines risk potential ta sa
    = (headline :: technical ++ [risk_line; potential_line] ++ sentiment)%list
    /\ CA.generate_recommendation risk potential ta sa
       = CA.join CA.newline
           (headline :: technical ++ [risk_line; potential_line]
                     ++ sentiment)%list
    /\ List.length (CA.recommendation_lines risk potential ta sa)
       = (3 + List.length (match ta with Some t => signals t | None => [] end)
          + (match sa with Some _ => 1 | None => 0 end))%nat.
Proof.
  intros risk potential ta sa combined headline technical risk_line
         potential_line sentiment.
  pose proof (recommendation_lines_layout risk potential ta sa) as E.
  fold combined in E. fold headline in E. fold technical in E.
  fold risk_line in E. fold potential_line in E. fold sentiment in E.
  split; [exact E |].
  split; [unfold CA.generate_recommendation; rewrite E; reflexivity |].
  rewrite E. unfold technical, sentiment. simpl.
  rewrite length_app, length_map. simpl.
  destruct sa; simpl; lia.
Qed.

End Layout.

(** X2. The potential score is never below 5: every adjustment of
    [assess_potential] adds to the neutral start, the sum stays at or below
    10.5, and only the upper bound of the final bounding can apply.  So no
    line of a recommendation built on it labels the potential Low. *)
Theorem X2_potential_never_low :
  forall `{Printing} (df : list candle) (ticker : CA.ticker)
         (ta : option technical_analysis) (sa : option SA.sentiment_analysis),
    let raw := CA.potential_raw df ticker ta sa in
    let potential := CA.assess_potential df ticker ta sa in
    5 <= pyval raw <= 10.5
    /\ 5 <= pyval potential <= 10
    /\ (pyval raw < 10 -> potential = raw)
    /\ (10 <= pyval raw -> potential = PyInt 10)
    /\ forall risk ta' sa',
         Forall (fun line => String.prefix "Potential: Low" line = false)
                (CA.recommendation_lines risk potential ta' sa').
Proof.
  intros Pri df ticker ta sa raw potential.
  pose proof (potential_raw_range df ticker ta sa) as R. fold raw in R.
  assert (P : 5 <= pyval potential <= 10).
  { unfold potential, CA.assess_potential. fold raw.
    destruct (Qlt_le_dec (pyval raw) 10) as [S | G].
    - rewrite clamp_inside by (split; lra). lra.
    - rewrite clamp_above by exact G. simpl. int_consts. lra. }
  split; [exact R |].
  split; [exact P |].
  split; [intro S; apply clamp_inside; split; lra |].
  split; [apply clamp_above |].
  intros risk ta' sa'.
  rewrite recommendation_lines_layout.
  constructor.
  { repeat match goal with
           | |- context [if ?b then _ else _] => destruct b
           end; reflexivity. }
  apply Forall_app. split.
  { apply Forall_forall. intros line Il.
    apply in_map_iff in Il. destruct Il as (signal & <- & _). reflexivity. }
  constructor; [reflexivity |].
  constructor.
  { destruct (Qle_bool 7 (pyval potential)); [reflexivity |].
    assert (M : Qle_bool 5 (pyval potential) = true)
      by (apply Qle_bool_iff; lra).
    rewrite M. reflexivity. }
  destruct sa'; constructor; [reflexivity | constructor].
Qed.

(** ** The signals *)

Lemma rsi_not_both (r : npfloat) :
  np_gt r (Fin 70) = true -> np_lt r (Fin 30) = false.
Proof.
  destruct r as [q| | |]; simpl; try discriminate; try reflexivity.
  unfold np_lt. simpl. intro G.
  destruct (Qltb q 30) eqn:L; [| reflexivity].
  float_tests. exfalso. lra.
Qed.

(** The four steps of [_generate_signals], side by side. *)
Lemma generate_signals_parts (a : analysis_t) :
  _generate_signals a
  = ((if is_bullish (macd_trend (trend a))
         && is_bullish (sma_trend (trend a))
         && is_bullish (long_term_trend (trend a))
      then ["Strong uptrend confirmed by multiple indicators"]
      else if is_bearish (macd_trend (trend a))
              && is_bearish (sma_trend (trend a))
              && is_bearish (long_term_trend (trend a))
           then ["Strong downtrend confirmed by multiple indicators"]
           else [])
     ++ (if np_gt (rsi_value (momentum a)) (Fin 70)
         then ["Overbought conditions - potential reversal point"]
         else if np_lt (rsi_value (momentum a)) (Fin 30)
              then ["Oversold conditions - potential reversal point"]
              else [])
     ++ (if is_increasing (volume_trend (volume a))
            && np_gt (volume_change (volume a)) (Fin 0.5)
         then ["Significant volume increase - strong trend confirmation"]
         else [])
     ++ (if above_200_sma (price_action a)
         then ["Price above 200 SMA - long-term uptrend"]
         else []))%list.
Proof.
  unfold _generate_signals. cbv zeta.
  repeat match goal with
         | |- context [if ?b then _ else _] => destruct b
         end; reflexivity.
Qed.

Lemma in_one_of_two (x y1 y2 : string) (b1 b2 : bool) :
  In x (if b1 then [y1] else if b2 then [y2] else [])
  <-> (x = y1 /\ b1 = true) \/ (x = y2 /\ b1 = false /\ b2 = true).
Proof.
  destruct b1, b2; simpl; intuition (try discriminate; auto).
Qed.

Lemma in_one (x y : string) (b : bool) :
  In x (if b then [y] else []) <-> x = y /\ b = true.
Proof.
  destruct b; simpl; intuition (try discriminate; auto).
Qed.

Ltac signal_parts :=
  rewrite generate_signals_parts, !in_app_iff, !in_one_of_two, !in_one.

Lemma signals_uptrend (a : analysis_t) :
  In "Strong uptrend confirmed by multiple indicators" (_generate_signals a)
  <-> macd_trend (trend a) = bullish /\ sma_trend (trend a) = bullish
      /\ long_term_trend (trend a) = bullish.
Proof.
  signal_parts.
  destruct (macd_trend (trend a)), (sma_trend (trend a)),
    (long_term_trend (trend a)); simpl;
    intuition (try discriminate; auto).
Qed.

Lemma signals_downtrend (a : analysis_t) :
  In "Strong downtrend confirmed by multiple indicators" (_generate_signals a)
  <-> macd_trend (trend a) = bearish /\ sma_trend (trend a) = bearish
      /\ long_term_trend (trend a) = bearish.
Proof.
  signal_parts.
  destruct (macd_trend (trend a)), (sma_trend (trend a)),
    (long_term_trend (trend a)); simpl;
    intuition (try discriminate; auto).
Qed.

Lemma signals_overbought (a : analysis_t) :
  In "Overbought conditions - potential reversal point" (_generate_signals a)
  <-> np_gt (rsi_value (momentum a)) (Fin 70) = true.
Proof.
  signal_parts. intuition (try discriminate; auto).
Qed.

Lemma signals_oversold (a : analysis_t) :
  In "Oversold conditions - potential reversal point" (_generate_signals a)
  <-> np_lt (rsi_value (momentum a)) (Fin 30) = true.
Proof.
  signal_parts.
  pose proof (rsi_not_both (rsi_value (momentum a))) as Excl.
  destruct (np_gt (rsi_value (momentum a)) (Fin 70));
    [rewrite Excl by reflexivity |];
    intuition (try discriminate; auto).
Qed.

Lemma signals_volume (a : analysis_t) :
  In "Significant volume increase - strong trend confirmation"
     (_generate_signals a)
  <-> volume_trend (volume a) = increasing
      /\ np_gt (volume_change (volume a)) (Fin 0.5) = true.
Proof.
  signal_parts.
  destruct (volume_trend (volume a)); simpl;
    intuition (try discriminate; auto).
Qed.

Lemma signals_price (a : analysis_t) :
  In "Price above 200 SMA - long-term uptrend" (_generate_signals a)
  <-> above_200_sma (price_action a) = true.
Proof.
  signal_parts. intuition (try discriminate; auto).
Qed.

Lemma signals_shape (a : analysis_t) :
  (List.length (_generate_signals a) <= 4)%nat /\ NoDup (_generate_signals a).
Proof.
  rewrite generate_signals_parts.
  repeat match goal with
         | |- context [if ?b then _ else _] => destruct b
         end;
    (split;
     [simpl; lia
     | repeat (constructor;
               [simpl; intro D;
                repeat (destruct D as [D | D]; [discriminate D |]);
                exact D |]);
       constructor]).
Qed.

(** X3. [_generate_signals] emits at most four signals, never twice the
    same.  The uptrend signal is there exactly when the three trends are
    bullish and the downtrend signal exactly when they are bearish, so
    never both; the overbought signal exactly when the RSI is above 70 and
    the oversold signal exactly when it is below 30, so never both; the
    volume signal exactly when the volume trend is increasing and the
    volume change is above 0.5; the price signal exactly when the close is
    above the 200-period average. *)
Theorem X3_signals_exclusive :
  forall a : analysis_t,
    let s := _generate_signals a in
    let rsi := rsi_value (momentum a) in
    (List.length s <= 4)%nat
    /\ NoDup s
    /\ (In "Strong uptrend confirmed by multiple indicators" s
        <-> macd_trend (trend a) = bullish /\ sma_trend (trend a) = bullish
            /\ long_term_trend (trend a) = bullish)
    /\ (In "Strong downtrend confirmed by multiple indicators" s
        <-> macd_trend (trend a) = bearish /\ sma_trend (trend a) = bearish
            /\ long_term_trend (trend a) = bearish)
    /\ (In "Overbought conditions - potential reversal point" s
        <-> np_gt rsi (Fin 70) = true)
    /\ (In "Oversold conditions - potential reversal point" s
        <-> np_lt rsi (Fin 30) = true)
    /\ (In "Significant volume increase - strong trend confirmation" s
        <-> volume_trend (volume a) = increasing
            /\ np_gt (volume_change (volume a)) (Fin 0.5) = true)
    /\ (In "Price above 200 SMA - long-term uptrend" s
        <-> above_200_sma (price_action a) = true)
    /\ ~ (In "Strong uptrend confirmed by multiple indicators" s
          /\ In "Strong downtrend confirmed by multiple indicators" s)
    /\ ~ (In "Overbought conditions - potential reversal point" s
          /\ In "Oversold conditions - potential reversal point" s).
Proof.
  intros a s rsi. subst s rsi.
  destruct (signals_shape a) as (Len & Nd).
  split; [exact Len |].
  split; [exact Nd |].
  split; [apply signals_uptrend |].
  split; [apply signals_downtrend |].
  split; [apply signals_overbought |].
  split; [apply signals_oversold |].
  split; [apply signals_volume |].
  split; [apply signals_price |].
  split.
  - intros [U D]. apply signals_uptrend in U. apply signals_downtrend in D.
    destruct U as (U & _). destruct D as (D & _). congruence.
  - intros [B S]. apply signals_overbought in B. apply signals_oversold in S.
    rewrite (rsi_not_both _ B) in S. discriminate.
Qed.

(** ** An analysis that was computed *)

(** What [_analyze_indicators] returns, read off the last row. *)
Lemma analyze_indicators_inv (df : frame) (w w' : world) (a : analysis_t) :
  _analyze_indicators df w = (Ok a, w') ->
  exists latest,
    In latest (rows df)
    /\ (2 <= List.length (rows df))%nat
    /\ trend a
       = {| macd_trend :=
              if np_gt (df_macd df) (df_macd_signal df)
              then bullish else bearish;
            sma_trend :=
              if np_gt (df_sma_20 df) (df_sma_50 df) then bullish else bearish;
            long_term_trend :=
              if np_gt (Fin (c_close latest)) (df_sma_200 df)
              then bullish else bearish |}
    /\ momentum a
       = {| rsi_value := df_rsi df;
            rsi_condition :=
              if np_gt (df_rsi df) (Fin 70) then overbought
              else if np_lt (df_rsi df) (Fin 30) then oversold
              else neutral |}
    /\ volatility a
       = {| bb_position :=
              if np_gt (Fin (c_close latest)) (df_bb_high df) then upper
              else if np_lt (Fin (c_close latest)) (df_bb_low df) then lower
              else middle;
            bb_width :=
              np_div (np_sub (df_bb_high df) (df_bb_low df)) (df_bb_mid df) |}
    /\ volume a
       = {| volume_trend :=
              if np_gt (Fin (c_volume latest)) (df_volume_sma df)
              then increasing else decreasing;
            volume_change :=
              np_div (np_sub (Fin (c_volume latest)) (df_volume_sma df))
                     (df_volume_sma df) |}
    /\ price_action a
       = {| price_change_24h := df_price_change_24h df;
            price_change_7d := df_price_change_7d df;
            above_200_sma := np_gt (Fin (c_close latest)) (df_sma_200 df) |}.
Proof.
  intro Run.
  destruct (le_lt_dec 2 (List.length (rows df))) as [L | S].
  2:{ rewrite (analyze_indicators_short df w S) in Run. discriminate. }
  assert (NE : rows df <> [])
    by (destruct (rows df); simpl in L; [lia | congruence]).
  destruct (iloc_last df NE) as (c & Ec & Ic).
  destruct (iloc_second_last df L) as (c' & Ec').
  revert Run.
  unfold _analyze_indicators, _analyze_trend, _analyze_momentum,
    _analyze_volatility, _analyze_volume, _analyze_price_action, bind.
  rewrite Ec, Ec'. unfold ret. intro Run. injection Run as <- _.
  exists c. simpl. repeat split; assumption.
Qed.

(** X4. In an analysis computed by [_analyze_indicators] the parts agree
    with each other and with the signals drawn from it: the price is marked
    above the 200-period average exactly when the long-term trend is
    bullish, so an uptrend signal always comes with the price signal and a
    price signal never with the downtrend signal; and the RSI condition is
    overbought or oversold exactly when the matching signal is emitted,
    which is exactly when the risk score counts the RSI as extreme. *)
Theorem X4_analysis_coherent :
  forall (df : frame) (w w' : world) (a : analysis_t),
    _analyze_indicators df w = (Ok a, w') ->
    let s := _generate_signals a in
    rsi_value (momentum a) = df_rsi df
    /\ above_200_sma (price_action a)
       = is_bullish (long_term_trend (trend a))
    /\ (rsi_condition (momentum a) = overbought
        <-> In "Overbought conditions - potential reversal point" s)
    /\ (rsi_condition (momentum a) = oversold
        <-> In "Oversold conditions - potential reversal point" s)
    /\ (CA.rsi_extreme (rsi_condition (momentum a)) = true
        <-> In "Overbought conditions - potential reversal point" s
            \/ In "Oversold conditions - potential reversal point" s)
    /\ (In "Strong uptrend confirmed by multiple indicators" s ->
        In "Price above 200 SMA - long-term uptrend" s)
    /\ (In "Price above 200 SMA - long-term uptrend" s ->
        ~ In "Strong downtrend confirmed by multiple indicators" s).
Proof.
  intros df w w' a Run s. subst s.
  destruct (analyze_indicators_inv df w w' a Run)
    as (latest & _ & _ & Et & Em & _ & _ & Ep).
  rewrite signals_overbought, signals_oversold, signals_uptrend,
    signals_price, signals_downtrend.
  rewrite Et, Em, Ep.
  cbn [macd_trend sma_trend long_term_trend rsi_value rsi_condition
       above_200_sma].
  pose proof (rsi_not_both (df_rsi df)) as Excl.
  destruct (np_gt (Fin (c_close latest)) (df_sma_200 df));
    (destruct (np_gt (df_rsi df) (Fin 70));
     [rewrite Excl by reflexivity | destruct (np_lt (df_rsi df) (Fin 30))]);
    cbn [is_bullish CA.rsi_extreme];
    intuition (try discriminate; auto).
Qed.

Lemma ratio_positive (d s : Q) : 0 < s -> (0 < d / s <-> 0 < d).
Proof.
  intro Ps. unfold Qdiv.
  pose proof (Qinv_lt_0_compat s Ps) as Pi.
  rewrite <- (Qmult_lt_r 0 d (/ s) Pi).
  setoid_replace (0 * / s) with 0 by ring. reflexivity.
Qed.

(** X5. When the 20-period average volume is a positive number, the volume
    trend of [_analyze_volume] is increasing exactly when the volume change
    it reports is positive; a change above 0.5, the threshold of the volume
    signal, therefore always comes with an increasing trend.  When the
    average has no value yet, the trend is decreasing and the change has no
    value. *)
Theorem X5_volume_change_sign :
  forall (df : frame) (w w' : world) (v : volume_analysis),
    _analyze_volume df w = (Ok v, w') ->
    (forall s : Q,
        df_volume_sma df = Fin s -> 0 < s ->
        (volume_trend v = increasing
         <-> np_gt (volume_change v) (Fin 0) = true)
        /\ (np_gt (volume_change v) (Fin 0.5) = true ->
            volume_trend v = increasing))
    /\ (df_volume_sma df = NaN ->
        volume_trend v = decreasing /\ volume_change v = NaN).
Proof.
  intros df w w' v Run.
  unfold _analyze_volume, bind, iloc_neg in Run.
  destruct (nth_error (rev (rows df)) (1 - 1)) as [latest|];
    [| discriminate].
  unfold ret in Run. injection Run as <- _.
  cbn [volume_trend volume_change].
  split.
  - intros s -> Ps.
    assert (NZ : Qeq_bool s 0 = false).
    { destruct (Qeq_bool s 0) eqn:Z; trivial.
      apply Qeq_bool_iff in Z. lra. }
    unfold np_sub, np_neg, np_add, np_div. rewrite NZ.
    cbn [np_gt].
    pose proof (ratio_positive (c_volume latest + - s) s Ps) as R.
    destruct (Qltb s (c_volume latest)) eqn:G; float_tests.
    + assert (P : 0 < (c_volume latest + - s) / s) by (apply R; lra).
      apply Qltb_true in P. rewrite P.
      split; [split; reflexivity | reflexivity].
    + assert (N : Qltb 0 ((c_volume latest + - s) / s) = false).
      { destruct (Qltb 0 ((c_volume latest + - s) / s)) eqn:P; trivial.
        float_tests. apply R in P. lra. }
      rewrite N.
      split; [split; discriminate |].
      intro H. exfalso. float_tests.
      assert (P : 0 < (c_volume latest + - s) / s) by lra.
      apply R in P. lra.
  - intros ->. split; reflexivity.
Qed.

(** ** The sentiment summary *)

(** X10. [get_sentiment_summary] cuts the combined score into five bands
    that cover every score and do not overlap: Very Positive from 0.5,
    Positive from 0.2, Neutral from -0.2, Negative from -0.5 and Very
    Negative below; a sentiment that is there is never reported as
    unavailable.  The summary reads Very Negative exactly when the risk
    score counts the sentiment. *)
Theorem X10_sentiment_bands :
  forall sa : SA.sentiment_analysis,
    let s := SA.combined_score sa in
    let text := SA.get_sentiment_summary (Some sa) in
    (text = "Very Positive - Strong community enthusiasm and support"
     <-> 0.5 <= s)
    /\ (text = "Positive - Generally favorable community sentiment"
        <-> 0.2 <= s < 0.5)
    /\ (text = "Neutral - Mixed or balanced community sentiment"
        <-> -0.2 <= s < 0.2)
    /\ (text = "Negative - Significant community concerns"
        <-> -0.5 <= s < -0.2)
    /\ (text = "Very Negative - Strong community skepticism or criticism"
        <-> s < -0.5)
    /\ text <> SA.get_sentiment_summary None
    /\ (text = "Very Negative - Strong community skepticism or criticism"
        <-> forall volatility volume_change price_change ta,
              CA.calculate_risk_score volatility volume_change price_change
                                      ta (Some sa)
              = (CA.calculate_risk_score volatility volume_change
                                         price_change ta None + 1)%Z).
Proof.
  intros sa s text.
  assert (R : forall volatility volume_change price_change ta,
             CA.calculate_risk_score volatility volume_change price_change
                                     ta (Some sa)
             = (CA.calculate_risk_score volatility volume_change
                                        price_change ta None
                + (if Qltb s (-0.5) then 1 else 0))%Z)
    by (intros; apply risk_sentiment_term).
  subst text. unfold SA.get_sentiment_summary. fold s.
  destruct (Qle_bool 0.5 s) eqn:E1;
    [| destruct (Qle_bool 0.2 s) eqn:E2;
       [| destruct (Qle_bool (-0.2) s) eqn:E3;
          [| destruct (Qle_bool (-0.5) s) eqn:E4]]];
    float_tests;
    (assert (V : Qltb s (-0.5) = true \/ Qltb s (-0.5) = false)
       by (destruct (Qltb s (-0.5)); auto));
    (destruct V as [V | V]; rewrite V in R; float_tests; try lra);
    repeat match goal with
           | |- _ /\ _ => split
           | |- _ <-> _ => split; intro
           | |- _ <> _ => discriminate
           | H : _ /\ _ |- _ => destruct H
           end;
    try discriminate; try lra; try reflexivity;
    try (intros; rewrite R; reflexivity);
    try (exfalso;
         match goal with
         | H : forall _ _ _ _, _ = _ |- _ =>
             specialize (H NaN NaN 0 None); rewrite R in H; lia
         end).
Qed.

(** ** What the platforms report *)

(** X11. Whatever the Twitter client does, [_analyze_twitter_sentiment]
    returns a report and leaves the world as it is.  The report has a score
    exactly when it has a sample size, and then the sample size is the
    number of tweets found, at least one, the score is the mean of their
    polarities and the message reads success; without client, on an error
    of the search and on an empty search it has neither, and the message
    says which. *)
Theorem X11_twitter_report :
  forall `{SA.Social} (symbol : string) (hours : Z) (w : world),
  exists r : SA.platform_sentiment,
    SA._analyze_twitter_sentiment symbol hours w = (Ok r, w)
    /\ (SA.score r = None <-> SA.sample_size r = None)
    /\ (SA.score r = None <-> SA.message r <> "Analysis successful")
    /\ (SA.twitter_api = None ->
        SA.message r = "Twitter API not available")
    /\ (forall search,
          SA.twitter_api = Some search ->
          match search ("#" ++ symbol ++ " OR $" ++ symbol
                        ++ " -filter:retweets") with
          | Raise e =>
              SA.score r = None /\ SA.message r = "Error: " ++ str_exn e
          | Ok [] =>
              SA.score r = None /\ SA.message r = "No tweets found"
          | Ok tweets =>
              SA.score r
              = Some (Qsum (map SA.polarity tweets)
                      / Qlen (map SA.polarity tweets))
              /\ SA.sample_size r = Some (List.length tweets)
              /\ (1 <= List.length tweets)%nat
              /\ SA.message r = "Analysis successful"
          end).
Proof.
  intros Soc symbol hours w.
  unfold SA._analyze_twitter_sentiment.
  destruct SA.twitter_api as [search|] eqn:Api.
  - unfold try_except, bind, call, ret.
    destruct (search _) as [[|t tweets]|e] eqn:Found.
    + eexists. split; [reflexivity |].
      split; [split; reflexivity |].
      split; [split; [discriminate | reflexivity] |].
      split; [discriminate |].
      intros search' E. injection E as <-. rewrite Found.
      split; reflexivity.
    + eexists. split; [reflexivity |].
      split; [split; discriminate |].
      split; [split; [discriminate | intro N; exfalso; apply N; reflexivity] |].
      split; [discriminate |].
      intros search' E. injection E as <-. rewrite Found.
      cbn [SA.score SA.sample_size SA.message]. rewrite length_map.
      repeat split. simpl. lia.
    + eexists. split; [reflexivity |].
      split; [split; reflexivity |].
      split.
      { split; [| reflexivity]. intros _ E.
        apply (f_equal (fun s => String.get 0 s)) in E. discriminate. }
      split; [discriminate |].
      intros search' E. injection E as <-. rewrite Found.
      split; reflexivity.
  - eexists. split; [reflexivity |].
    split; [split; reflexivity |].
    split; [split; [discriminate | reflexivity] |].
    split; [reflexivity |].
    discriminate.
Qed.

(** The loop over the subreddits collects, in order, what the searches that
    succeed return. *)
Lemma search_subreddits_collects
    (search : string -> string -> outcome (list SA.post)) (symbol : string)
    (subreddits : list string) :
  forall (posts : list SA.post) (w : world),
    SA.search_subreddits search symbol subreddits posts w
    = (Ok (posts
           ++ flat_map (fun subreddit =>
                          match search subreddit symbol with
                          | Ok found => found
                          | Raise _ => []
                          end) subreddits)%list, w).
Proof.
  induction subreddits as [|sub rest IH]; intros posts w; simpl.
  - rewrite app_nil_r. reflexivity.
  - unfold bind, try_except, call, ret.
    destruct (search sub symbol) as [found|e]; rewrite IH.
    + rewrite <- app_assoc. reflexivity.
    + reflexivity.
Qed.

(** X12. [_analyze_reddit_sentiment] averages over the submissions of the
    three subreddits together (cryptocurrency, cryptomarkets and the
    lower-cased symbol), in that order; a subreddit whose search fails is
    left out and costs nothing of the others.  With no submission at all
    the report has no score; otherwise the score is the mean of the
    submissions' sentiments and the sample size their number, at most 150
    when no search returns more than the 50 it is asked for. *)
Theorem X12_reddit_collects :
  forall `{SA.Social} (symbol : string) (hours : Z) (w : world)
         (search : string -> string -> outcome (list SA.post)),
    SA.reddit_api = Some search ->
    let found :=
      flat_map (fun subreddit =>
                  match search subreddit symbol with
                  | Ok posts => posts
                  | Raise _ => []
                  end)
               ["cryptocurrency"; "cryptomarkets"; SA.lower symbol] in
    exists r : SA.platform_sentiment,
      SA._analyze_reddit_sentiment symbol hours w = (Ok r, w)
      /\ (found = [] ->
          SA.score r = None /\ SA.sample_size r = None
          /\ SA.message r = "No Reddit posts found")
      /\ (found <> [] ->
          SA.score r
          = Some (Qsum (map SA.post_sentiment found)
                  / Qlen (map SA.post_sentiment found))
          /\ SA.sample_size r = Some (List.length found)
          /\ SA.message r = "Analysis successful")
      /\ ((forall subreddit posts,
              search subreddit symbol = Ok posts ->
              (List.length posts <= 50)%nat) ->
          (List.length found <= 150)%nat).
Proof.
  intros Soc symbol hours w search Api found.
  unfold SA._analyze_reddit_sentiment. rewrite Api.
  unfold try_except, bind.
  rewrite search_subreddits_collects. simpl app. fold found.
  assert (Bound : (forall subreddit posts,
                      search subreddit symbol = Ok posts ->
                      (List.length posts <= 50)%nat) ->
                  (List.length found <= 150)%nat).
  { intro Limit. subst found. simpl. rewrite !length_app. simpl.
    assert (L : forall sub,
               (List.length match search sub symbol with
                            | Ok posts => posts
                            | Raise _ => []
                            end <= 50)%nat).
    { intro sub. destruct (search sub symbol) as [posts|e] eqn:E.
      - exact (Limit sub posts E).
      - simpl. lia. }
    pose proof (L "cryptocurrency"). pose proof (L "cryptomarkets").
    pose proof (L (SA.lower symbol)). lia. }
  destruct found as [|p rest] eqn:F.
  - eexists. split; [reflexivity |].
    split; [intros _; repeat split |].
    split; [intro N; exfalso; apply N; reflexivity | exact Bound].
  - eexists. split; [reflexivity |].
    split; [discriminate |].
    split; [| exact Bound].
    intros _. cbn [SA.score SA.sample_size SA.message].
    rewrite length_map. repeat split.
Qed.

(** X13. A sentiment analysis that is returned lists both platforms in its
    details, Twitter first, each with the report of its platform analysis,
    whether or not it has a score; at least one has.  It is stamped with
    the reading of the clock and prints nothing.  When Twitter alone has a
    score, the combined score is Twitter's; and, the polarities lying in
    [-1, 1], so does the combined score. *)
Theorem X13_sentiment_details :
  forall `{SA.Social} `{Printing} (symbol : string) (hours : Z)
         (w w' : world) (sa : SA.sentiment_analysis),
    SA.analyze_social_sentiment symbol hours w = (Ok (Some sa), w') ->
    exists twitter reddit : SA.platform_sentiment,
      SA._analyze_twitter_sentiment symbol hours w = (Ok twitter, w)
      /\ SA._analyze_reddit_sentiment symbol hours w = (Ok reddit, w)
      /\ SA.details sa = [("twitter", twitter); ("reddit", reddit)]
      /\ SA.analysis_time sa = strftime (clock w)
      /\ w' = mkWorld (S (clock w)) (console w)
      /\ ~ (SA.score twitter = None /\ SA.score reddit = None)
      /\ (forall t : Q,
            SA.score twitter = Some t -> SA.score reddit = None ->
            SA.combined_score sa == t)
      /\ (Spec.polarity_bounded -> -1 <= SA.combined_score sa <= 1).
Proof.
  intros Soc Pri symbol hours w w' sa Run.
  pose proof (fun PB => social_sentiment_range symbol hours PB _ _ _ Run)
    as Range.
  destruct (twitter_sentiment_pure symbol hours w) as (twitter & Et).
  destruct (reddit_sentiment_pure symbol hours w) as (reddit & Er).
  exists twitter, reddit.
  split; [exact Et |]. split; [exact Er |].
  unfold SA.analyze_social_sentiment, bind in Run. rewrite Et, Er in Run.
  rewrite combine_sentiment_unrolled in Run.
  destruct (SA.score twitter) as [t|] eqn:St,
           (SA.score reddit) as [r|] eqn:Sr;
    try discriminate;
    unfold datetime_now, ret in Run; injection Run as <- <-;
    cbn [SA.details SA.analysis_time SA.combined_score];
    (split; [reflexivity |]); (split; [reflexivity |]);
    (split; [reflexivity |]);
    (split; [intros [A B]; discriminate |]);
    (split; [| exact Range]);
    intros t' Et' Er'; try discriminate.
  injection Et' as <-. field.
Qed.

(** ** The record of a coin *)

Section CoinRecord.
Context `{Indicators} `{SA.Social} `{CA.Exchange} `{Printing}.

(** What stands behind a record that [analyze_coin] returns. *)
Lemma analyze_coin_inv (symbol : string) (ticker : CA.ticker)
    (w w' : world) (c : CA.coin_analysis) :
  CA.analyze_coin symbol ticker w = (Ok (Some c), w') ->
  exists (df : list candle) (w1 w2 : world),
    CA.fetch_ohlcv symbol "1d" 30%nat = Ok df
    /\ analyze_technical_indicators df w = (Ok (CA.technical_analysis c), w1)
    /\ SA.analyze_social_sentiment (CA.split_head "/" symbol) 24%Z w1
       = (Ok (CA.sentiment_analysis c), w2)
    /\ ~ CA.tk_open ticker == 0
    /\ CA.symbol c = symbol
    /\ CA.current_price c = CA.tk_last ticker
    /\ CA.daily_volume c = CA.tk_quoteVolume ticker
    /\ CA.price_change_24h c
       = (CA.tk_last ticker - CA.tk_open ticker) / CA.tk_open ticker * 100
    /\ CA.risk_score c
       = CA.calculate_risk_score
           (np_mul (np_div (series_std (map c_close df))
                           (series_mean (map c_close df))) (Fin 100))
           (np_sub (Fin (CA.tk_quoteVolume ticker))
                   (series_mean (map c_volume df)))
           (CA.price_change_24h c)
           (CA.technical_analysis c) (CA.sentiment_analysis c)
    /\ CA.potential_score c
       = CA.assess_potential df ticker (CA.technical_analysis c)
                             (CA.sentiment_analysis c)
    /\ CA.combined_score c
       = CA.calculate_combined_score (CA.risk_score c) (CA.potential_score c)
           (CA.technical_analysis c) (CA.sentiment_analysis c)
    /\ CA.recommendation c
       = CA.generate_recommendation (CA.risk_score c) (CA.potential_score c)
           (CA.technical_analysis c) (CA.sentiment_analysis c)
    /\ CA.analysis_time c = strftime (clock w2)
    /\ w' = mkWorld (S (clock w2)) (console w2)
    /\ 6 <= CA.combined_score c.
Proof.
  intro Run.
  pose proof (analyze_coin_threshold symbol ticker w (Some c) w' Run) as T.
  unfold Spec.when_present in T. revert Run.
  unfold CA.analyze_coin, CA.analyze_coin_body, try_except, bind, call,
    CA.py_div.
  destruct (CA.fetch_ohlcv symbol "1d" 30%nat) as [df|e] eqn:Edf;
    [| discriminate].
  destruct (analyze_technical_indicators df w) as [[ta|e] w1] eqn:Eta;
    [| discriminate].
  destruct (SA.analyze_social_sentiment _ _ w1) as [[sa|e] w2] eqn:Esa;
    [| discriminate].
  destruct (Qeq_bool (CA.tk_open ticker) 0) eqn:Z; [discriminate |].
  unfold ret at 1. cbv zeta.
  destruct (Qle_bool 6 _); [| discriminate].
  unfold datetime_now, ret. intro Run. injection Run as Ec Ew.
  subst c w'. exists df, w1, w2.
  cbn [CA.symbol CA.current_price CA.price_change_24h CA.daily_volume
       CA.risk_score CA.potential_score CA.combined_score
       CA.technical_analysis CA.sentiment_analysis CA.analysis_time
       CA.recommendation] in *.
  apply Qeq_bool_neq in Z.
  repeat (split; [first [reflexivity | assumption] |]). exact T.
Qed.

End CoinRecord.

(** ** The records of a screening *)

Section ScreenedRecords.
Context `{Indicators} `{SA.Social} `{CA.Exchange} `{Printing}.

Lemma screened_incl (ms markets : list string) (c : CA.coin_analysis) :
  incl ms markets -> Trace.screened ms c -> Trace.screened markets c.
Proof.
  intros I (symbol & ticker & w & w' & Is & R).
  exists symbol, ticker, w, w'. split; [apply I; exact Is | exact R].
Qed.

Lemma screen_symbol_origin (symbol : string) (acc : list CA.coin_analysis) :
  CA.endswith symbol "/USDT" = true ->
  Spec.returns (CA.screen_symbol symbol acc)
    (fun out => out = acc
                \/ exists c, out = (acc ++ [c])%list
                             /\ Trace.screened [symbol] c).
Proof.
  intros U w out w'. unfold CA.screen_symbol, try_except, bind, call.
  destruct (CA.fetch_ticker symbol) as [ticker|e] eqn:Etk.
  - destruct (Qltb _ _) eqn:Vol.
    + destruct (CA.analyze_coin symbol ticker w) as [[[c|]|e] w1] eqn:Run;
        simpl; intro E; injection E as <- _.
      * right. exists c. split; [reflexivity |].
        exists symbol, ticker, w, w1.
        split; [left; reflexivity |].
        apply Qltb_true in Vol. repeat split; assumption.
      * left. reflexivity.
      * left. reflexivity.
    + intro E. injection E as <- _. left. reflexivity.
  - simpl. intro E. injection E as <- _. left. reflexivity.
Qed.

Lemma screen_origin (markets ms : list string) :
  forall acc : list CA.coin_analysis,
    incl ms markets ->
    Forall (Trace.screened markets) acc ->
    Spec.returns (CA.screen ms acc)
      (fun out =>
         Forall (Trace.screened markets) out
         /\ (List.length out
             <= List.length acc + List.length (Trace.usdt_symbols ms))%nat).
Proof.
  induction ms as [|symbol rest IH]; intros acc I Hacc; simpl.
  - apply returns_ret. split; [exact Hacc | lia].
  - assert (Ir : incl rest markets)
      by (intros x Ix; apply I; right; exact Ix).
    destruct (CA.endswith symbol "/USDT") eqn:U.
    + eapply returns_bind; [apply (screen_symbol_origin symbol acc U) |].
      intros out [-> | (c & -> & Sc)].
      * intros w0 out' w0' E.
        destruct (IH acc Ir Hacc w0 out' w0' E) as [F L].
        split; [exact F | simpl; lia].
      * assert (F1 : Forall (Trace.screened markets) (acc ++ [c])).
        { apply Forall_app. split; [exact Hacc |].
          constructor; [| constructor].
          apply (screened_incl [symbol]); [| exact Sc].
          intros x [<- | []]. apply I. left. reflexivity. }
        intros w0 out' w0' E.
        destruct (IH _ Ir F1 w0 out' w0' E) as [F L].
        split; [exact F |]. rewrite length_app in L. simpl in *. lia.
    + intros w0 out' w0' E. unfold bind, ret in E.
      exact (IH acc Ir Hacc w0 out' w0' E).
Qed.

(** Every record of the screening was returned by [analyze_coin] for a
    symbol of the markets, and there are no more than there are USDT
    symbols. *)
Lemma get_promising_coins_origin (markets : list string) (w w' : world)
    (ranked : list CA.coin_analysis) :
  CA.load_markets = Ok markets ->
  CA.get_promising_coins w = (Ok ranked, w') ->
  Forall (Trace.screened markets) ranked
  /\ (List.length ranked <= List.length (Trace.usdt_symbols markets))%nat.
Proof.
  intros Em. unfold CA.get_promising_coins, try_except, bind, call.
  rewrite Em.
  destruct (CA.screen markets [] w) as [[retained|e] w1] eqn:Es.
  - pose proof (screen_origin markets markets [] (incl_refl _)
                  (Forall_nil _) w retained w1 Es) as [F L].
    simpl. intro E. injection E as <- _.
    assert (S : (if negb (SA.is_empty retained)
                 then CA.sort_desc CA.combined_score retained
                 else retained)
                = CA.sort_desc CA.combined_score retained)
      by (destruct retained; reflexivity).
    rewrite S.
    pose proof (sort_desc_perm CA.combined_score retained) as P.
    split.
    + apply (Permutation_Forall P). exact F.
    + rewrite <- (Permutation_length P). simpl in L. exact L.
  - destruct (screen_never_raises markets [] w) as (a & w2 & E).
    rewrite E in Es. discriminate.
Qed.

End ScreenedRecords.

(** X7. Every record of the screening belongs to a symbol of the markets
    that ends in /USDT, whose ticker was fetched with a quote volume above
    the minimum of 100000 and a non-zero open; its price, volume and price
    change are those of that ticker.  There are at most as many records as
    USDT symbols, so none when there is no such symbol.  When the markets
    cannot be loaded, the result is empty and the failure is printed. *)
Theorem X7_screening_result :
  forall `{Indicators} `{SA.Social} `{CA.Exchange} `{Printing}
         (w w' : world) (ranked : list CA.coin_analysis),
    CA.get_promising_coins w = (Ok ranked, w') ->
    (forall markets,
        CA.load_markets = Ok markets ->
        (List.length ranked <= List.length (Trace.usdt_symbols markets))%nat
        /\ Forall
             (fun c =>
                In (CA.symbol c) markets
                /\ CA.endswith (CA.symbol c) "/USDT" = true
                /\ CA.min_daily_volume < CA.daily_volume c
                /\ exists ticker,
                     CA.fetch_ticker (CA.symbol c) = Ok ticker
                     /\ CA.current_price c = CA.tk_last ticker
                     /\ CA.daily_volume c = CA.tk_quoteVolume ticker
                     /\ ~ CA.tk_open ticker == 0
                     /\ CA.price_change_24h c
                        = (CA.tk_last ticker - CA.tk_open ticker)
                          / CA.tk_open ticker * 100)
             ranked)
    /\ (forall e,
          CA.load_markets = Raise e ->
          ranked = []
          /\ w' = mkWorld (clock w)
                    (("Error in get_promising_coins: " ++ str_exn e)
                     :: console w)).
Proof.
  intros Ind Soc Exc Pri w w' ranked Run.
  split.
  - intros markets Em.
    destruct (get_promising_coins_origin markets w w' ranked Em Run)
      as [F L].
    split; [exact L |].
    eapply Forall_impl; [| exact F].
    intros c (symbol & ticker & v & v' & Is & U & Etk & Vol & Rc).
    destruct (analyze_coin_inv symbol ticker v v' c Rc)
      as (df & w1 & w2 & _ & _ & _ & NZ & Es & Ep & Ev & Ech & _).
    rewrite Es, Ev.
    split; [exact Is |]. split; [exact U |]. split; [exact Vol |].
    exists ticker. repeat split; assumption.
  - intros e Em. revert Run.
    unfold CA.get_promising_coins, try_except, bind, call. rewrite Em.
    simpl. intro E. injection E as <- <-. split; reflexivity.
Qed.

(** X8. Every record of the screening is consistent with itself: its
    combined score is the one [calculate_combined_score] gives for the
    risk, potential, technical analysis and sentiment it carries, and it is
    6 or more; its recommendation is the one [generate_recommendation]
    gives for them, so its headline is Strong Buy, Buy or Consider and
    never Hold; its risk lies in [0, 10] and its potential in [5, 10]; and
    the score and the signals of its technical analysis are those of the
    analysis it holds. *)
Theorem X8_record_consistent :
  forall `{Indicators} `{SA.Social} `{CA.Exchange} `{Printing}
         (markets : list string) (w w' : world)
         (ranked : list CA.coin_analysis),
    CA.load_markets = Ok markets ->
    CA.get_promising_coins w = (Ok ranked, w') ->
    Forall
      (fun c =>
         let ta := CA.technical_analysis c in
         let sa := CA.sentiment_analysis c in
         CA.combined_score c
         = CA.calculate_combined_score (CA.risk_score c)
             (CA.potential_score c) ta sa
         /\ 6 <= CA.combined_score c
         /\ CA.recommendation c
            = CA.generate_recommendation (CA.risk_score c)
                (CA.potential_score c) ta sa
         /\ (exists rest,
               CA.recommendation c
               = CA.join CA.newline
                   ((if Qle_bool 8 (CA.combined_score c)
                     then "Strong Buy - Exceptional opportunity with high potential and managed risk"
                     else if Qle_bool 7 (CA.combined_score c)
                     then "Buy - Favorable conditions for investment"
                     else "Consider - Positive indicators with some caution")
                    :: rest))
         /\ (0 <= CA.risk_score c <= 10)%Z
         /\ 5 <= pyval (CA.potential_score c) <= 10
         /\ Spec.when_present ta
              (fun t =>
                 technical_score t = _calculate_technical_score (analysis t)
                 /\ signals t = _generate_signals (analysis t)))
      ranked.
Proof.
  intros Ind Soc Exc Pri markets w w' ranked Em Run.
  destruct (get_promising_coins_origin markets w w' ranked Em Run)
    as [F _].
  eapply Forall_impl; [| exact F].
  intros c (symbol & ticker & v & v' & _ & _ & _ & _ & Rc).
  destruct (analyze_coin_inv symbol ticker v v' c Rc)
    as (df & w1 & w2 & _ & Eta & _ & _ & _ & _ & _ & _ & Er & Ep & Ec
        & Erec & _ & _ & T).
  cbv zeta.
  split; [exact Ec |]. split; [exact T |]. split; [exact Erec |].
  split.
  { rewrite Erec. unfold CA.generate_recommendation.
    rewrite recommendation_lines_layout. rewrite <- Ec.
    apply Qle_bool_iff in T. rewrite T.
    eexists. destruct (Qle_bool 8 (CA.combined_score c));
      [| destruct (Qle_bool 7 (CA.combined_score c))]; reflexivity. }
  split; [rewrite Er; apply risk_score_range |].
  split.
  { rewrite Ep.
    pose proof (potential_raw_range df ticker (CA.technical_analysis c)
                  (CA.sentiment_analysis c)) as R.
    unfold CA.assess_potential.
    destruct (Qlt_le_dec
                (pyval (CA.potential_raw df ticker (CA.technical_analysis c)
                          (CA.sentiment_analysis c))) 10) as [S | G].
    - rewrite clamp_inside by (split; lra). lra.
    - rewrite clamp_above by exact G. simpl. int_consts. lra. }
  exact (technical_analysis_consistent df v _ _ Eta).
Qed.

(** ** Thirty candles *)

Lemma technical_score_without_long_trends (a : analysis_t) :
  sma_trend (trend a) = bearish ->
  long_term_trend (trend a) = bearish ->
  pyval (_calculate_technical_score a) <= 8.5.
Proof.
  intros S L.
  destruct (technical_score_raw_steps a) as ([Lo Hi] & _).
  assert (E : pyval (_calculate_technical_score a)
              == pyval (technical_score_raw a))
    by (apply clamp_value; lra).
  rewrite E. clear E Lo Hi.
  unfold technical_score_raw. cbv zeta. rewrite S, L.
  cbn [is_bullish].
  destruct (is_bullish (macd_trend (trend a)));
    destruct (np_le (Fin 40) (rsi_value (momentum a))
              && np_le (rsi_value (momentum a)) (Fin 60));
    destruct (np_gt (rsi_value (momentum a)) (Fin 70)
              || np_lt (rsi_value (momentum a)) (Fin 30));
    destruct (is_middle (bb_position (volatility a)));
    destruct (is_increasing (volume_trend (volume a)));
    destruct (np_gt (price_change_24h (price_action a)) (Fin 0));
    destruct (np_gt (price_change_7d (price_action a)) (Fin 0));
    vm_compute; discriminate.
Qed.

Lemma potential_without_sma_trend (df : list candle) (ticker : CA.ticker)
    (ta : option technical_analysis) (sa : option SA.sentiment_analysis) :
  Spec.when_present ta (fun t => sma_trend (trend (analysis t)) = bearish) ->
  pyval (CA.assess_potential df ticker ta sa) <= 9.5.
Proof.
  intro S.
  assert (R : pyval (CA.potential_raw df ticker ta sa) <= 9.5).
  { unfold CA.potential_raw. cbv zeta.
    assert (B : forall s, 0 < s ->
                  0 <= pyval (pymin (PyInt 2) (PyFloat (s * 2))) <= 2).
    { intros s Ps.
      destruct (pymin_value (PyInt 2) (PyFloat (s * 2)))
        as (L2 & _ & [E | E]); simpl in *; int_consts; lra. }
    destruct ta as [t|]; [simpl in S; rewrite S; cbn [is_bullish];
                          rewrite andb_false_r |];
      (destruct sa as [s|];
       [destruct (Qltb 0 (SA.combined_score s)) eqn:Pos;
        [apply Qltb_true in Pos; specialize (B _ Pos) | clear B] |]);
      repeat match goal with
             | |- context [if ?b then _ else _] => destruct b
             end;
      rewrite ?pyval_pyadd; simpl pyval; int_consts; lra. }
  pose proof (potential_raw_range df ticker ta sa) as [Lo _].
  unfold CA.assess_potential.
  rewrite clamp_inside by (split; lra). exact R.
Qed.

Section ThirtyCandles.
Context `{Indicators} `{Printing}.

(** On fewer than fifty cleaned rows the two long averages have no value,
    and the analysis says so. *)
Lemma technical_short_window (df : list candle) :
  (List.length (dropna df) < 50)%nat ->
  Spec.returns (analyze_technical_indicators df)
    (fun r => Spec.when_present r
                (fun t =>
                   sma_trend (trend (analysis t)) = bearish
                   /\ long_term_trend (trend (analysis t)) = bearish
                   /\ above_200_sma (price_action (analysis t)) = false
                   /\ technical_score t
                      = _calculate_technical_score (analysis t)
                   /\ signals t = _generate_signals (analysis t))).
Proof.
  intros Short w r w'.
  unfold analyze_technical_indicators, analyze_technical_indicators_body,
    try_except, bind.
  destruct (_analyze_indicators (_calculate_indicators (dropna df)) w)
    as [[a|e] w1] eqn:Run.
  - unfold datetime_now, ret. intro E. injection E as <- _.
    destruct (analyze_indicators_inv _ _ _ _ Run)
      as (latest & _ & _ & Et & _ & _ & _ & Ep).
    cbn [Spec.when_present analysis technical_score signals].
    rewrite Et, Ep.
    cbn [sma_trend long_term_trend above_200_sma _calculate_indicators
         df_sma_20 df_sma_50 df_sma_200].
    rewrite (rolling_mean_short 50), (rolling_mean_short 200)
      by (rewrite length_map; lia).
    rewrite !np_gt_nan_r. repeat split.
  - unfold print, ret. intro E. injection E as <- _. exact I.
Qed.

End ThirtyCandles.

(** X6. [analyze_coin] asks the exchange for 30 candles.  When the
    exchange returns no more than it is asked for (and the cleaning adds no
    row), the 50-period and 200-period averages never have a value in a
    record of the pipeline: the SMA trend and the long-term trend are
    bearish, the price is never marked above the 200-period average, the
    uptrend and price signals never appear, the technical score is at most
    8.5 and the potential at most 9.5; with polarities in [-1, 1] the
    combined score is at most 9.5. *)
Theorem X6_thirty_candles :
  forall `{Indicators} `{SA.Social} `{CA.Exchange} `{Printing},
    (forall symbol timeframe limit df,
        CA.fetch_ohlcv symbol timeframe limit = Ok df ->
        (List.length df <= limit)%nat) ->
    (forall df, (List.length (dropna df) <= List.length df)%nat) ->
    forall (symbol : string) (ticker : CA.ticker) (w w' : world)
           (c : CA.coin_analysis),
      CA.analyze_coin symbol ticker w = (Ok (Some c), w') ->
      Spec.when_present (CA.technical_analysis c)
        (fun t =>
           sma_trend (trend (analysis t)) = bearish
           /\ long_term_trend (trend (analysis t)) = bearish
           /\ above_200_sma (price_action (analysis t)) = false
           /\ ~ In "Strong uptrend confirmed by multiple indicators"
                   (signals t)
           /\ ~ In "Price above 200 SMA - long-term uptrend" (signals t)
           /\ pyval (technical_score t) <= 8.5)
      /\ pyval (CA.potential_score c) <= 9.5
      /\ (Spec.polarity_bounded -> CA.combined_score c <= 9.5).
Proof.
  intros Ind Soc Exc Pri Limit Clean symbol ticker w w' c Run.
  destruct (analyze_coin_inv symbol ticker w w' c Run)
    as (df & w1 & w2 & Edf & Eta & Esa & _ & _ & _ & _ & _ & Er & Ep & Ec
        & _).
  assert (Short : (List.length (dropna df) < 50)%nat).
  { pose proof (Limit _ _ _ _ Edf). pose proof (Clean df). lia. }
  pose proof (technical_short_window df Short _ _ _ Eta) as T.
  assert (T' : Spec.when_present (CA.technical_analysis c)
                 (fun t =>
                    sma_trend (trend (analysis t)) = bearish
                    /\ 1 <= pyval (technical_score t) <= 8.5)).
  { destruct (CA.technical_analysis c) as [t|]; [| exact I].
    cbn [Spec.when_present] in *.
    destruct T as (S & L & _ & -> & _).
    split; [exact S |].
    split; [apply clamp_range |].
    apply technical_score_without_long_trends; assumption. }
  assert (P : pyval (CA.potential_score c) <= 9.5).
  { rewrite Ep. apply potential_without_sma_trend.
    destruct (CA.technical_analysis c) as [t|]; [| exact I].
    cbn [Spec.when_present] in *. apply T'. }
  split; [| split; [exact P |]].
  - destruct (CA.technical_analysis c) as [t|]; [| exact I].
    cbn [Spec.when_present] in *.
    destruct T as (S & L & A & Es & Eg). destruct T' as (_ & _ & B).
    split; [exact S |]. split; [exact L |]. split; [exact A |].
    rewrite Eg, signals_uptrend, signals_price, A, S.
    split; [intros (_ & D & _); discriminate |].
    split; [discriminate | exact B].
  - intro PB.
    pose proof (social_sentiment_range _ _ PB _ _ _ Esa) as Sn.
    pose proof (risk_score_range
                  (np_mul (np_div (series_std (map c_close df))
                                  (series_mean (map c_close df))) (Fin 100))
                  (np_sub (Fin (CA.tk_quoteVolume ticker))
                          (series_mean (map c_volume df)))
                  (CA.price_change_24h c) (CA.technical_analysis c)
                  (CA.sentiment_analysis c)) as [R0 R10].
    rewrite <- Er in R0, R10. rewrite Zle_Qle in R0, R10. int_consts.
    pose proof (inject_Z_minus 10 (CA.risk_score c)) as E. int_consts.
    assert (P5 : 5 <= pyval (CA.potential_score c)).
    { rewrite Ep.
      pose proof (potential_raw_range df ticker (CA.technical_analysis c)
                    (CA.sentiment_analysis c)) as [Lo Hi].
      unfold CA.assess_potential.
      destruct (Qlt_le_dec
                  (pyval (CA.potential_raw df ticker
                            (CA.technical_analysis c)
                            (CA.sentiment_analysis c))) 10) as [S | G].
      - rewrite clamp_inside by (split; lra). exact Lo.
      - rewrite clamp_above by exact G. simpl. int_consts. lra. }
    rewrite Ec. unfold CA.calculate_combined_score.
    clear - T' Sn P P5 R0 R10 E.
    match goal with
    | |- py_round2 ?x <= _ =>
        assert (B : inject_Z 0 / 100 <= x <= inject_Z 950 / 100)
    end.
    { change (inject_Z 950) with 950.
      destruct (CA.technical_analysis c) as [t|],
               (CA.sentiment_analysis c) as [s|];
        cbn [Spec.when_present] in *; try destruct T' as (_ & T');
        rewrite E; int_consts; const_div; lra. }
    apply py_round2_between in B.
    change (inject_Z 950) with 950 in B. int_consts. const_div. lra.
Qed.

(** ** Missing analyses *)

(** Rounding keeps the order. *)
Lemma py_round2_monotone (x y : Q) : x <= y -> py_round2 x <= py_round2 y.
Proof.
  intro L.
  destruct (Qlt_le_dec (py_round2 y) (py_round2 x)) as [G | ]; [| assumption].
  exfalso.
  destruct (py_round2_spec x) as (m & Em & Lm & Um).
  destruct (py_round2_spec y) as (n & En & Ln & Un).
  assert (Lt : (n < m)%Z).
  { rewrite Em, En in G. rewrite Zlt_Qlt. const_div. lra. }
  assert (S : (n + 1 <= m)%Z) by lia.
  rewrite Zle_Qle, inject_Z_plus in S. int_consts.
  assert (E : x == y) by lra.
  rewrite (py_round2_comp x y E) in G. lra.
Qed.

Lemma clamp_monotone (x y : pynum) :
  pyval x <= pyval y ->
  pyval (pymax (PyInt 1) (pymin (PyInt 10) x))
  <= pyval (pymax (PyInt 1) (pymin (PyInt 10) y)).
Proof.
  intro L. unfold pymax, pymin. simpl pyval. int_consts.
  destruct (Qltb (pyval x) 10) eqn:X10, (Qltb (pyval y) 10) eqn:Y10;
    [destruct (Qltb 1 (pyval x)) eqn:X1, (Qltb 1 (pyval y)) eqn:Y1
    | destruct (Qltb 1 (pyval x)) eqn:X1 | | ];
    simpl; int_consts; float_tests; lra.
Qed.

(** X14. A missing technical analysis or a missing sentiment analysis can
    only lower the risk score and the potential, never raise them: the
    risk without both is at most that with either, which is at most that
    with both, itself at most 3 above the first; without both the risk is
    at most 7 and the potential at most 6.  And a technical analysis of
    non-negative score never lowers the combined score. *)
Theorem X14_missing_data_lowers_scores :
  forall (volatility volume_change : npfloat) (price_change : Q)
         (df : list candle) (ticker : CA.ticker)
         (ta : option technical_analysis) (sa : option SA.sentiment_analysis),
    let risk := CA.calculate_risk_score volatility volume_change price_change in
    let potential := CA.assess_potential df ticker in
    (risk None None <= risk ta None <= risk ta sa)%Z
    /\ (risk None None <= risk None sa <= risk ta sa)%Z
    /\ (risk ta sa <= risk None None + 3)%Z
    /\ (risk None None <= 7)%Z
    /\ pyval (potential None None) <= pyval (potential ta None)
    /\ pyval (potential ta None) <= pyval (potential ta sa)
    /\ pyval (potential None None) <= pyval (potential None sa)
    /\ pyval (potential None sa) <= pyval (potential ta sa)
    /\ pyval (potential None None) <= 6
    /\ forall (r : Z) (p : pynum) (t : technical_analysis),
         0 <= pyval (technical_score t) ->
         CA.calculate_combined_score r p None sa
         <= CA.calculate_combined_score r p (Some t) sa.
Proof.
  intros volatility volume_change price_change df ticker ta sa risk
         potential.
  assert (R : (risk None None <= risk ta None <= risk ta sa)%Z
              /\ (risk None None <= risk None sa <= risk ta sa)%Z
              /\ (risk ta sa <= risk None None + 3)%Z
              /\ (risk None None <= 7)%Z).
  { subst risk. unfold CA.calculate_risk_score.
    destruct ta as [t|], sa as [s|];
      repeat match goal with
             | |- context [if ?b then _ else _] => destruct b
             end; lia. }
  destruct R as (R1 & R2 & R3 & R4).
  assert (B : forall s, 0 < s ->
                0 <= pyval (pymin (PyInt 2) (PyFloat (s * 2))) <= 2).
  { intros s Ps.
    destruct (pymin_value (PyInt 2) (PyFloat (s * 2))) as (L2 & _ & [E | E]);
      simpl in *; int_consts; lra. }
  assert (P : pyval (CA.potential_raw df ticker None None)
              <= pyval (CA.potential_raw df ticker ta None)
              /\ pyval (CA.potential_raw df ticker ta None)
                 <= pyval (CA.potential_raw df ticker ta sa)
              /\ pyval (CA.potential_raw df ticker None None)
                 <= pyval (CA.potential_raw df ticker None sa)
              /\ pyval (CA.potential_raw df ticker None sa)
                 <= pyval (CA.potential_raw df ticker ta sa)
              /\ pyval (CA.potential_raw df ticker None None) <= 6).
  { unfold CA.potential_raw. cbv zeta.
    destruct ta as [t|];
      (destruct sa as [s|];
       [destruct (Qltb 0 (SA.combined_score s)) eqn:Pos;
        [apply Qltb_true in Pos; specialize (B _ Pos) | clear B] |]);
      repeat match goal with
             | |- context [if ?b then _ else _] => destruct b
             end;
      rewrite ?pyval_pyadd; simpl pyval; int_consts;
      repeat split; lra. }
  destruct P as (P1 & P2 & P3 & P4 & P5).
  split; [exact R1 |]. split; [exact R2 |]. split; [exact R3 |].
  split; [exact R4 |].
  subst potential. unfold CA.assess_potential.
  split; [apply clamp_monotone; exact P1 |].
  split; [apply clamp_monotone; exact P2 |].
  split; [apply clamp_monotone; exact P3 |].
  split; [apply clamp_monotone; exact P4 |].
  split.
  { pose proof (potential_raw_range df ticker None None) as [Lo _].
    rewrite clamp_inside by (split; lra). exact P5. }
  intros r p t T. unfold CA.calculate_combined_score.
  apply py_round2_monotone. destruct sa; lra.
Qed.

Lemma potential_raw_by_presence (df : list candle) (ticker : CA.ticker)
    (ta : option technical_analysis) (sa : option SA.sentiment_analysis) :
  (ta = None -> pyval (CA.potential_raw df ticker ta sa) <= 8)
  /\ (sa = None -> pyval (CA.potential_raw df ticker ta sa) <= 8.5)
  /\ (ta = None -> sa = None ->
      pyval (CA.potential_raw df ticker ta sa) <= 6).
Proof.
  assert (B : forall s, 0 < s ->
                0 <= pyval (pymin (PyInt 2) (PyFloat (s * 2))) <= 2).
  { intros s Ps.
    destruct (pymin_value (PyInt 2) (PyFloat (s * 2))) as (L2 & _ & [E | E]);
      simpl in *; int_consts; lra. }
  unfold CA.potential_raw. cbv zeta.
  destruct ta as [t|];
    (destruct sa as [s|];
     [destruct (Qltb 0 (SA.combined_score s)) eqn:Pos;
      [apply Qltb_true in Pos; specialize (B _ Pos) | clear B] |]);
    (split; [| split]); intros; try discriminate;
    repeat match goal with
           | |- context [if ?b then _ else _] => destruct b
           end;
    rewrite ?pyval_pyadd; simpl pyval; int_consts; lra.
Qed.

(** X15. A coin is never retained on market metrics alone: every record
    [analyze_coin] returns carries a technical analysis or a sentiment
    analysis, because without both the combined score is at most 5.40.
    A record without sentiment has a combined score of at most 8.40, and,
    polarities lying in [-1, 1], a record without technical analysis one
    of at most 7.20, below the 8 of a Strong Buy. *)
Theorem X15_retained_needs_analysis :
  forall `{Indicators} `{SA.Social} `{CA.Exchange} `{Printing}
         (symbol : string) (ticker : CA.ticker) (w w' : world)
         (c : CA.coin_analysis),
    CA.analyze_coin symbol ticker w = (Ok (Some c), w') ->
    (CA.technical_analysis c <> None \/ CA.sentiment_analysis c <> None)
    /\ (CA.sentiment_analysis c = None -> CA.combined_score c <= 8.4)
    /\ (CA.technical_analysis c = None -> Spec.polarity_bounded ->
        CA.combined_score c <= 7.2).
Proof.
  intros Ind Soc Exc Pri symbol ticker w w' c Run.
  destruct (analyze_coin_inv symbol ticker w w' c Run)
    as (df & w1 & w2 & _ & Eta & Esa & _ & _ & _ & _ & _ & Er & Ep & Ec
        & _ & _ & _ & T).
  pose proof (risk_score_range
                (np_mul (np_div (series_std (map c_close df))
                                (series_mean (map c_close df))) (Fin 100))
                (np_sub (Fin (CA.tk_quoteVolume ticker))
                        (series_mean (map c_volume df)))
                (CA.price_change_24h c) (CA.technical_analysis c)
                (CA.sentiment_analysis c)) as [R0 R10].
  rewrite <- Er in R0, R10. rewrite Zle_Qle in R0, R10. int_consts.
  pose proof (inject_Z_minus 10 (CA.risk_score c)) as E. int_consts.
  pose proof (potential_raw_by_presence df ticker (CA.technical_analysis c)
                (CA.sentiment_analysis c)) as (Pt & Ps & Pn).
  pose proof (potential_raw_range df ticker (CA.technical_analysis c)
                (CA.sentiment_analysis c)) as [Lo _].
  assert (Tech : Spec.when_present (CA.technical_analysis c)
                   (fun t => 1 <= pyval (technical_score t) <= 10)).
  { pose proof (technical_analysis_consistent df w _ _ Eta) as C.
    destruct (CA.technical_analysis c) as [t|]; [| exact I].
    cbn [Spec.when_present] in *. destruct C as [-> _]. apply clamp_range. }
  assert (Pot : forall b : Q,
             pyval (CA.potential_raw df ticker (CA.technical_analysis c)
                      (CA.sentiment_analysis c)) <= b ->
             b < 10 -> pyval (CA.potential_score c) <= b).
  { intros b Hb Hlt. rewrite Ep. unfold CA.assess_potential.
    rewrite clamp_inside by (split; lra). exact Hb. }
  assert (P5 : 5 <= pyval (CA.potential_score c)).
  { rewrite Ep. unfold CA.assess_potential.
    destruct (Qlt_le_dec
                (pyval (CA.potential_raw df ticker (CA.technical_analysis c)
                          (CA.sentiment_analysis c))) 10) as [S | G].
    - rewrite clamp_inside by (split; lra). exact Lo.
    - rewrite clamp_above by exact G. simpl. int_consts. lra. }
  clear Er Ep Run Eta.
  split; [| split].
  - destruct (CA.technical_analysis c) as [t|] eqn:Ht;
      [left; discriminate |].
    destruct (CA.sentiment_analysis c) as [s|] eqn:Hs;
      [right; discriminate |].
    exfalso.
    pose proof (Pot 6 (Pn eq_refl eq_refl) ltac:(lra)) as P6.
    rewrite Ec in T. unfold CA.calculate_combined_score in T.
    match type of T with
    | _ <= py_round2 ?x =>
        assert (B : inject_Z 0 / 100 <= x <= inject_Z 540 / 100)
    end.
    { change (inject_Z 540) with 540. rewrite E. int_consts. const_div.
      lra. }
    apply py_round2_between in B.
    change (inject_Z 540) with 540 in B. int_consts. const_div. lra.
  - intro Hs.
    pose proof (Pot 8.5 (Ps Hs) ltac:(lra)) as P8.
    rewrite Ec. unfold CA.calculate_combined_score. rewrite Hs.
    clear - P8 P5 R0 R10 E Tech.
    match goal with
    | |- py_round2 ?x <= _ =>
        assert (B : inject_Z 0 / 100 <= x <= inject_Z 840 / 100)
    end.
    { change (inject_Z 840) with 840.
      destruct (CA.technical_analysis c) as [t|];
        cbn [Spec.when_present] in *; rewrite E; int_consts; const_div;
        lra. }
    apply py_round2_between in B.
    change (inject_Z 840) with 840 in B. int_consts. const_div. lra.
  - intros Ht PB.
    pose proof (social_sentiment_range _ _ PB _ _ _ Esa) as Sn.
    pose proof (Pot 8 (Pt Ht) ltac:(lra)) as P8.
    rewrite Ec. unfold CA.calculate_combined_score. rewrite Ht.
    clear - P8 P5 R0 R10 E Sn.
    match goal with
    | |- py_round2 ?x <= _ =>
        assert (B : inject_Z 0 / 100 <= x <= inject_Z 720 / 100)
    end.
    { change (inject_Z 720) with 720.
      destruct (CA.sentiment_analysis c) as [s|];
        cbn [Spec.when_present] in *; rewrite E; int_consts; const_div;
        lra. }
    apply py_round2_between in B.
    change (inject_Z 720) with 720 in B. int_consts. const_div. lra.
Qed.

(** ** Market symbols *)

Lemma substring_all (s : string) : substring 0 (String.length s) s = s.
Proof. induction s as [|c s IH]; simpl; [| rewrite IH]; reflexivity. Qed.

Lemma substring_suffix (p s : string) :
  substring (String.length p) (String.length s) (p ++ s) = s.
Proof.
  induction p as [|c p IH]; simpl; [apply substring_all | exact IH].
Qed.

Lemma length_append (p s : string) :
  String.length (p ++ s) = (String.length p + String.length s)%nat.
Proof. induction p as [|c p IH]; simpl; [| rewrite IH]; reflexivity. Qed.

Lemma substring_split (s : string) :
  forall n : nat,
    (n <= String.length s)%nat ->
    s = substring 0 n s ++ substring n (String.length s - n) s.
Proof.
  induction s as [|c s IH]; intros [|n] L; simpl in *; try lia.
  - reflexivity.
  - rewrite substring_all. reflexivity.
  - rewrite <- (IH n) by lia. reflexivity.
Qed.

Lemma endswith_iff (s suffix : string) :
  CA.endswith s suffix = true <-> exists p, s = p ++ suffix.
Proof.
  unfold CA.endswith. split.
  - intro E. apply andb_true_iff in E. destruct E as [L E].
    apply Nat.leb_le in L. apply String.eqb_eq in E.
    exists (substring 0 (String.length s - String.length suffix) s).
    pose proof (substring_split s (String.length s - String.length suffix))
      as S.
    replace (String.length s - (String.length s - String.length suffix))%nat
      with (String.length suffix) in S by lia.
    rewrite E in S. apply S. lia.
  - intros (p & ->). rewrite length_append.
    apply andb_true_iff. split; [apply Nat.leb_le; lia |].
    replace (String.length p + String.length suffix - String.length suffix)%nat
      with (String.length p) by lia.
    rewrite substring_suffix. apply String.eqb_refl.
Qed.

Lemma split_head_no_sep (sep : ascii) (base rest : string) :
  (forall n, String.get n base <> Some sep) ->
  CA.split_head sep (base ++ String sep rest) = base.
Proof.
  induction base as [|c base IH]; intro No; simpl.
  - rewrite Ascii.eqb_refl. reflexivity.
  - destruct (Ascii.eqb c sep) eqn:E.
    + apply Ascii.eqb_eq in E. subst c. exfalso. apply (No 0%nat).
      reflexivity.
    + rewrite IH; [reflexivity |].
      intro n. exact (No (S n)).
Qed.

(** X16. The loop of [get_promising_coins] takes a symbol exactly when it
    is some text followed by /USDT: any other symbol is passed over with
    the list and the world as they are, without a call to the exchange,
    and every record of the result has a symbol of that form.  For a
    symbol BASE/USDT with no slash in BASE, the sentiment analysis in the
    record that [analyze_coin] returns is the one of BASE. *)
Theorem X16_usdt_symbols :
  forall `{Indicators} `{SA.Social} `{CA.Exchange} `{Printing},
    (forall symbol rest acc w,
        (forall base, symbol <> base ++ "/USDT") ->
        CA.screen (symbol :: rest) acc w = CA.screen rest acc w)
    /\ (forall base rest acc w,
          CA.screen ((base ++ "/USDT") :: rest) acc w
          = bind (CA.screen_symbol (base ++ "/USDT") acc)
                 (fun acc' => CA.screen rest acc') w)
    /\ (forall w ranked w',
          CA.get_promising_coins w = (Ok ranked, w') ->
          Forall (fun c => exists base, CA.symbol c = base ++ "/USDT")
                 ranked)
    /\ (forall base ticker w c w',
          (forall n, String.get n base <> Some "/"%char) ->
          CA.analyze_coin (base ++ "/USDT") ticker w = (Ok (Some c), w') ->
          CA.symbol c = base ++ "/USDT"
          /\ exists w1 w2,
               SA.analyze_social_sentiment base 24%Z w1
               = (Ok (CA.sentiment_analysis c), w2)).
Proof.
  intros Ind Soc Exc Pri.
  split.
  { intros symbol rest acc w No. simpl.
    destruct (CA.endswith symbol "/USDT") eqn:U; [| reflexivity].
    apply endswith_iff in U. destruct U as (base & E).
    exfalso. exact (No base E). }
  split.
  { intros base rest acc w. simpl.
    assert (U : CA.endswith (base ++ "/USDT") "/USDT" = true)
      by (apply endswith_iff; exists base; reflexivity).
    rewrite U. reflexivity. }
  split.
  { intros w ranked w' Run.
    destruct CA.load_markets as [markets|e] eqn:Em.
    - destruct (get_promising_coins_origin markets w w' ranked Em Run)
        as [Origin _].
      apply (Forall_impl _ (P := Trace.screened markets)); [| exact Origin].
      intros c (symbol & ticker & v & v' & _ & U & _ & _ & Rc).
      destruct (analyze_coin_inv symbol ticker v v' c Rc)
        as (_ & _ & _ & _ & _ & _ & _ & Es & _).
      apply endswith_iff in U. destruct U as (base & E).
      exists base. rewrite Es. exact E.
    - unfold CA.get_promising_coins, try_except, bind, call in Run.
      rewrite Em in Run. simpl in Run. injection Run as <- _.
      constructor. }
  intros base ticker w c w' No Run.
  destruct (analyze_coin_inv _ ticker w w' c Run)
    as (df & w1 & w2 & _ & _ & Esa & _ & Es & _).
  split; [exact Es |].
  exists w1, w2.
  rewrite (split_head_no_sep "/" base "USDT" No) in Esa. exact Esa.
Qed.

(* ================================================================== *)
(** * The further properties on the synthetic market *)

(** The synthetic exchange honours the limit it is given, and the
    synthetic cleaning only drops rows. *)
Lemma sample_fetch_limit :
  forall (symbol timeframe : string) (limit : nat) (df : list candle),
    @CA.fetch_ohlcv Sample.exchange symbol timeframe limit = Ok df ->
    (List.length df <= limit)%nat.
Proof.
  intros symbol timeframe limit df. simpl. unfold Sample.candles_of.
  destruct (String.eqb symbol "III/USDT"); [discriminate |].
  intro E. injection E as <-. apply firstn_le_length.
Qed.

Lemma sample_dropna_shrinks :
  forall df : list candle,
    (List.length (@dropna Sample.indicators df) <= List.length df)%nat.
Proof. intro df. simpl. unfold Sample.drop_zero_rows. apply filter_length_le. Qed.

Lemma sample_AAA_retained :
  exists (c : CA.coin_analysis) (w' : world),
    @CA.analyze_coin Sample.indicators Sample.social Sample.exchange
       Sample.printing "AAA/USDT" Sample.jumpy_ticker Sample.start
    = (Ok (Some c), w').
Proof.
  destruct (@CA.analyze_coin Sample.indicators Sample.social Sample.exchange
              Sample.printing "AAA/USDT" Sample.jumpy_ticker Sample.start)
    as [[[c|]|e] w'] eqn:Run;
    [exists c, w'; reflexivity | |]; vm_compute in Run; discriminate.
Qed.

Lemma sample_ranking :
  exists (ranked : list CA.coin_analysis) (w' : world),
    @CA.get_promising_coins Sample.indicators Sample.social Sample.exchange
       Sample.printing Sample.start
    = (Ok ranked, w').
Proof.
  destruct (@CA.get_promising_coins Sample.indicators Sample.social
              Sample.exchange Sample.printing Sample.start)
    as [[ranked|e] w'] eqn:Run;
    [exists ranked, w'; reflexivity |]; vm_compute in Run; discriminate.
Qed.

(** Sixty doubling days: the RSI reported is the frame's 70, which is not
    extreme, and without a 200-period average the price is not marked
    above it. *)
Lemma X4_witness :
  let df := @_calculate_indicators Sample.indicators Sample.sixty_days in
  exists (a : analysis_t) (w' : world),
    _analyze_indicators df Sample.start = (Ok a, w')
    /\ rsi_value (momentum a) = Fin 70
    /\ above_200_sma (price_action a)
       = is_bullish (long_term_trend (trend a))
    /\ (rsi_condition (momentum a) = overbought
        <-> In "Overbought conditions - potential reversal point"
               (_generate_signals a)).
Proof.
  intro df.
  destruct (_analyze_indicators df Sample.start) as [[a|e] w'] eqn:Run;
    [| vm_compute in Run; discriminate].
  exists a, w'. split; [reflexivity |].
  destruct (X4_analysis_coherent df Sample.start w' a Run)
    as (Rsi & Above & Over & _).
  split; [rewrite Rsi; vm_compute; reflexivity |].
  split; [exact Above | exact Over].
Defined.

(** Sixty doubling days: the 20-period average volume is positive, and
    the last volume lies above it. *)
Lemma X5_witness :
  let df := @_calculate_indicators Sample.indicators Sample.sixty_days in
  exists (v : volume_analysis) (w' : world),
    _analyze_volume df Sample.start = (Ok v, w')
    /\ (volume_trend v = increasing
        <-> np_gt (volume_change v) (Fin 0) = true)
    /\ (np_gt (volume_change v) (Fin 0.5) = true ->
        volume_trend v = increasing).
Proof.
  intro df.
  destruct (_analyze_volume df Sample.start) as [[v|e] w'] eqn:Run;
    [| vm_compute in Run; discriminate].
  exists v, w'. split; [reflexivity |].
  pose (s := match df_volume_sma df with Fin s => s | _ => 0 end).
  assert (Es : df_volume_sma df = Fin s) by (vm_compute; reflexivity).
  assert (Ps : 0 < s) by (vm_compute; reflexivity).
  destruct (X5_volume_change_sign df Sample.start w' v Run) as (Pos & _).
  exact (Pos s Es Ps).
Defined.

(** AAA on the synthetic exchange, which hands out five candles: the
    long trends of the record are bearish and its potential is at most
    9.5. *)
Lemma X6_witness :
  exists (c : CA.coin_analysis) (w' : world),
    @CA.analyze_coin Sample.indicators Sample.social Sample.exchange
       Sample.printing "AAA/USDT" Sample.jumpy_ticker Sample.start
    = (Ok (Some c), w')
    /\ Spec.when_present (CA.technical_analysis c)
         (fun t =>
            sma_trend (trend (analysis t)) = bearish
            /\ long_term_trend (trend (analysis t)) = bearish
            /\ above_200_sma (price_action (analysis t)) = false
            /\ ~ In "Strong uptrend confirmed by multiple indicators"
                    (signals t)
            /\ ~ In "Price above 200 SMA - long-term uptrend" (signals t)
            /\ pyval (technical_score t) <= 8.5)
    /\ pyval (CA.potential_score c) <= 9.5
    /\ CA.combined_score c <= 9.5.
Proof.
  destruct sample_AAA_retained as (c & w' & Run).
  exists c, w'. split; [exact Run |].
  destruct (@X6_thirty_candles Sample.indicators Sample.social
              Sample.exchange Sample.printing
              sample_fetch_limit sample_dropna_shrinks
              "AAA/USDT" Sample.jumpy_ticker Sample.start w' c Run)
    as (T & P & C).
  split; [exact T |]. split; [exact P |].
  apply C. exact sample_polarity_bounded.
Defined.

(** The synthetic market: at most eight records, each of a listed USDT
    symbol with a volume above the minimum. *)
Lemma X7_witness :
  exists (ranked : list CA.coin_analysis) (w' : world),
    @CA.get_promising_coins Sample.indicators Sample.social Sample.exchange
       Sample.printing Sample.start
    = (Ok ranked, w')
    /\ (List.length ranked <= 8)%nat
    /\ Forall
         (fun c =>
            CA.endswith (CA.symbol c) "/USDT" = true
            /\ CA.min_daily_volume < CA.daily_volume c)
         ranked.
Proof.
  destruct sample_ranking as (ranked & w' & Run).
  exists ranked, w'. split; [exact Run |].
  destruct (@X7_screening_result Sample.indicators Sample.social
              Sample.exchange Sample.printing Sample.start w' ranked Run)
    as (Loaded & _).
  destruct (Loaded _ eq_refl) as (Count & Each).
  split; [exact Count |].
  eapply Forall_impl; [| exact Each].
  intros c (_ & U & V & _). split; assumption.
Defined.

(** The synthetic market: every record scores 6 or more, with a potential
    of 5 or more and the recommendation of its own scores. *)
Lemma X8_witness :
  exists (ranked : list CA.coin_analysis) (w' : world),
    @CA.get_promising_coins Sample.indicators Sample.social Sample.exchange
       Sample.printing Sample.start
    = (Ok ranked, w')
    /\ Forall
         (fun c =>
            6 <= CA.combined_score c
            /\ CA.recommendation c
               = CA.generate_recommendation (CA.risk_score c)
                   (CA.potential_score c) (CA.technical_analysis c)
                   (CA.sentiment_analysis c)
            /\ 5 <= pyval (CA.potential_score c) <= 10)
         ranked.
Proof.
  destruct sample_ranking as (ranked & w' & Run).
  exists ranked, w'. split; [exact Run |].
  pose proof (@X8_record_consistent Sample.indicators Sample.social
                Sample.exchange Sample.printing _ Sample.start w' ranked
                eq_refl Run) as Each.
  eapply Forall_impl; [| exact Each].
  intros c (_ & Six & Rec & _ & _ & Pot & _).
  split; [exact Six |]. split; [exact Rec | exact Pot].
Defined.

(** BBB on the synthetic Reddit: one submission in cryptocurrency, none
    in cryptomarkets, and the subreddit bbb cannot be searched. *)
Lemma X12_witness :
  exists r : SA.platform_sentiment,
    @SA._analyze_reddit_sentiment Sample.social "BBB" 24%Z
       Sample.start
    = (Ok r, Sample.start)
    /\ SA.sample_size r = Some 1%nat
    /\ SA.message r = "Analysis successful".
Proof.
  destruct (@X12_reddit_collects Sample.social "BBB" 24%Z
              Sample.start Sample.posts_for eq_refl)
    as (r & Run & _ & Found & _).
  exists r. split; [exact Run |].
  destruct (Found ltac:(vm_compute; discriminate)) as (_ & Size & Msg).
  split; [exact Size | exact Msg].
Defined.

(** BBB is heard on both platforms: both are listed, Twitter first. *)
Lemma X13_witness :
  exists (sa : SA.sentiment_analysis) (w' : world)
         (twitter reddit : SA.platform_sentiment),
    @SA.analyze_social_sentiment Sample.social Sample.printing "BBB" 24%Z
       Sample.start
    = (Ok (Some sa), w')
    /\ SA.details sa = [("twitter", twitter); ("reddit", reddit)]
    /\ ~ (SA.score twitter = None /\ SA.score reddit = None).
Proof.
  destruct (@SA.analyze_social_sentiment Sample.social Sample.printing
              "BBB" 24%Z Sample.start) as [[[sa|]|e] w'] eqn:Run;
    [| vm_compute in Run; discriminate | vm_compute in Run; discriminate].
  destruct (@X13_sentiment_details Sample.social Sample.printing
              "BBB" 24%Z Sample.start w' sa Run)
    as (twitter & reddit & _ & _ & D & _ & _ & Some_score & _).
  exists sa, w', twitter, reddit.
  split; [reflexivity |]. split; [exact D | exact Some_score].
Defined.

(** AAA is retained, and its record carries an analysis. *)
Lemma X15_witness :
  exists (c : CA.coin_analysis) (w' : world),
    @CA.analyze_coin Sample.indicators Sample.social Sample.exchange
       Sample.printing "AAA/USDT" Sample.jumpy_ticker Sample.start
    = (Ok (Some c), w')
    /\ (CA.technical_analysis c <> None \/ CA.sentiment_analysis c <> None).
Proof.
  destruct sample_AAA_retained as (c & w' & Run).
  exists c, w'. split; [exact Run |].
  destruct (@X15_retained_needs_analysis Sample.indicators Sample.social
              Sample.exchange Sample.printing "AAA/USDT"
              Sample.jumpy_ticker Sample.start w' c Run) as (Has & _).
  exact Has.
Defined.

(* ================================================================== *)
(** * Failures and the threshold, down the whole run *)

Section CoinRuns.
Context `{Indicators} `{SA.Social} `{CA.Exchange} `{Printing}.












End CoinRuns.


(** ** The threshold on floats *)




(* ================================================================== *)
(** * Floats, failures and the threshold on the synthetic market *)

(** Risk 4, potential 10, no technical analysis and a combined sentiment
    of -0.25: the exact sum is 6.175, which the exact model rounds to 6.18
    and the floats, whose sum lies just below, to 6.17. *)
Lemma C1_witness :
  let sa := Some (SA.mkSentiment (-0.25) [] EmptyString) in
  let score := B64.calculate_combined_score 4 (PyInt 10) None sa in
  let ideal := CA.calculate_combined_score 4 (PyInt 10) None sa in
  let exact :=
    Qsum (Spec.combined_terms 4 10 None (Some (-0.25))) in
  score == B64.rnd 6.17
  /\ ideal == 6.18
  /\ exact == 6.175
  /\ Qabs (score - exact) <= 0.005 + (4 # 100000000000000)
  /\ Qabs (score - ideal) <= 0.01 + (4 # 100000000000000).
Proof.
  intros sa score ideal exact.
  assert (Hr : (0 <= 4 <= 10)%Z) by lia.
  assert (Hp : 1 <= pyval (PyInt 10) <= 10) by (split; discriminate).
  assert (Hs : Spec.when_present sa
                 (fun s => -1 <= SA.combined_score s <= 1))
    by (split; discriminate).
  destruct (C1_combined_score_formula 4 (PyInt 10) None sa)
    as (_ & _ & _ & Bounds).
  destruct (Bounds Hr Hp I Hs) as (_ & Close & _ & Gap & _).
  split; [vm_compute; reflexivity |].
  split; [vm_compute; reflexivity |].
  split; [vm_compute; reflexivity |].
  split; [exact Close | exact Gap].
Defined.




